(** * Recorded-interaction fixture pipeline: sanitizer and schema converter

    A shallow embedding of [scripts/sanitize_vcr_cassettes.py] and
    [scripts/convert_vcr_cassettes.py], followed by the properties of the
    fixture pipeline that hold (or fail) on that code.

    Conventions of the embedding.
    - A Python object obtained from [json.load] is a value of [json]; a
      [dict] is an association list in insertion order whose keys are
      pairwise distinct ([wf_json]), a [list] is a Rocq list.
    - A Python [str] is a [string]; characters are code points below 256.
    - The module-level dictionaries [ORG_ID_MAP] and [USER_ID_MAP] are the
      two fields of [State], threaded through every function that reads or
      writes them.
    - The file system is an association list from paths to file contents.
    - The [json] and [yaml] packages are not part of the repository: their
      entry points are the fields of the class [JsonLib] and a function
      argument [yaml_dump]. *)

From Stdlib Require Import List String Ascii ZArith Bool Lia DecimalString DecimalPos.
Import ListNotations.
Open Scope string_scope.
Open Scope list_scope.
Open Scope Z_scope.

Set Implicit Arguments.
Set Warnings "-register-all,-notation-for-abbreviation".

(* ================================================================== *)
(** * Python values *)
(* ================================================================== *)

Module Py.

(** The objects [json.load] can return.  [float] is the type of Python
    floats (binary64); the sanitizer and the converter never look inside
    one, so it stays a parameter. *)
#[universes(template=no)]
Inductive json (float : Type) : Type :=
| JNull
| JBool (b : bool)
| JInt (z : Z)
| JFloat (x : float)
| JStr (s : string)
| JList (arr : list (json float))
| JDict (items : list (string * json float)).

Arguments JNull {float}.
Arguments JBool {float} b.
Arguments JInt {float} z.
Arguments JFloat {float} x.
Arguments JStr {float} s.
Arguments JList {float} arr.
Arguments JDict {float} items.

(** The exceptions the two scripts can run into. *)
Inductive exn : Type :=
| KeyError (key : string)
| TypeError
| AttributeError
| JSONDecodeError
| FileNotFoundError (path : string).

Inductive result (A : Type) : Type :=
| Ok (a : A)
| Err (e : exn).

Arguments Ok {A} a.
Arguments Err {A} e.

Definition is_ok {A} (r : result A) : bool :=
  match r with Ok _ => true | Err _ => false end.

(** ** Strings *)

Definition eqb_str (a b : string) : bool := String.eqb a b.

(** The double-quote character. *)
Definition dquote : ascii := "034"%char.

Fixpoint in_list (x : string) (l : list string) : bool :=
  match l with
  | [] => false
  | y :: tl => eqb_str x y || in_list x tl
  end.

(** [sub in s] for two strings. *)
Fixpoint str_contains (sub s : string) : bool :=
  prefix sub s ||
  match s with
  | EmptyString => false
  | String _ tl => str_contains sub tl
  end.

(** [str.replace(old, new)]: every non-overlapping occurrence of [old],
    scanning from the left.  [skip] counts the characters of the current
    occurrence that are still to be stepped over. *)
Fixpoint replace_from (old new : string) (skip : nat) (s : string) : string :=
  match s with
  | EmptyString =>
      match skip, old with
      | O, EmptyString => new
      | _, _ => EmptyString
      end
  | String c tl =>
      match skip with
      | S k => replace_from old new k tl
      | O =>
          if prefix old s
          then match old with
               | EmptyString => new ++ String c (replace_from old new 0 tl)
               | String _ old' => new ++ replace_from old new (String.length old') tl
               end%string
          else String c (replace_from old new 0 tl)
      end
  end.

Definition str_replace (s old new : string) : string := replace_from old new 0 s.

(** [str(n)] for an [int]. *)
Definition str_of_Z (z : Z) : string := NilZero.string_of_int (Z.to_int z).

(** ** Integers and booleans

    [bool] is a subclass of [int]: [isinstance(True, int)] holds,
    [True == 1], and [str(True)] is ["True"]. *)
Inductive intobj : Type :=
| IntObj (z : Z)
| BoolObj (b : bool).

Definition int_val (i : intobj) : Z :=
  match i with
  | IntObj z => z
  | BoolObj true => 1
  | BoolObj false => 0
  end.

Definition str_of_int (i : intobj) : string :=
  match i with
  | IntObj z => str_of_Z z
  | BoolObj true => "True"
  | BoolObj false => "False"
  end.

(** [isinstance(value, int)], with the integer object when it holds. *)
Definition as_int {float} (value : json float) : option intobj :=
  match value with
  | JInt z => Some (IntObj z)
  | JBool b => Some (BoolObj b)
  | _ => None
  end.

(** ** Dictionaries *)

Section Dict.
Context {K V : Type}.
Variable eqk : K -> K -> bool.

Fixpoint dict_get (d : list (K * V)) (k : K) : option V :=
  match d with
  | [] => None
  | (k', v) :: tl => if eqk k k' then Some v else dict_get tl k
  end.

Definition dict_has (d : list (K * V)) (k : K) : bool :=
  match dict_get d k with Some _ => true | None => false end.

(** [d[k] = v]: an existing key keeps its place, a new one goes last. *)
Fixpoint dict_set (d : list (K * V)) (k : K) (v : V) : list (K * V) :=
  match d with
  | [] => [(k, v)]
  | (k', v') :: tl =>
      if eqk k k' then (k', v) :: tl else (k', v') :: dict_set tl k v
  end.

Definition dict_keys (d : list (K * V)) : list K := map fst d.
End Dict.

Notation sget := (dict_get eqb_str).
Notation sset := (dict_set eqb_str).
Notation shas := (dict_has eqb_str).

(** Keys of a Python dict are pairwise distinct, at every depth. *)
Fixpoint nodup_keys (keys : list string) : bool :=
  match keys with
  | [] => true
  | k :: tl => negb (in_list k tl) && nodup_keys tl
  end.

Fixpoint wf_json {float} (v : json float) : bool :=
  match v with
  | JList arr => forallb wf_json arr
  | JDict items =>
      nodup_keys (map fst items) && forallb (fun kv => wf_json (snd kv)) items
  | _ => true
  end.

(** ** Dynamic operations on objects *)

Section Ops.
Context {float : Type}.
Notation json := (json float).

Definition is_str_obj (k : string) (v : json) : bool :=
  match v with JStr s => eqb_str k s | _ => false end.

(** [k in x] for a string [k]. *)
Definition py_in (k : string) (x : json) : result bool :=
  match x with
  | JDict items => Ok (shas items k)
  | JList arr => Ok (existsb (is_str_obj k) arr)
  | JStr s => Ok (str_contains k s)
  | _ => Err TypeError
  end.

(** [x[k]] for a string [k]. *)
Definition py_getitem (x : json) (k : string) : result json :=
  match x with
  | JDict items =>
      match sget items k with
      | Some v => Ok v
      | None => Err (KeyError k)
      end
  | _ => Err TypeError
  end.

(** [x[k] = v] for a string [k]; the result is [x] after the store. *)
Definition py_setitem (x : json) (k : string) (v : json) : result json :=
  match x with
  | JDict items => Ok (JDict (sset items k v))
  | _ => Err TypeError
  end.

(** [x.get(k, None)]. *)
Definition py_get (x : json) (k : string) : result json :=
  match x with
  | JDict items =>
      match sget items k with
      | Some v => Ok v
      | None => Ok JNull
      end
  | _ => Err AttributeError
  end.

(** [x.items()]. *)
Definition py_items (x : json) : result (list (string * json)) :=
  match x with
  | JDict items => Ok items
  | _ => Err AttributeError
  end.

(** The objects a [for] loop over [x] visits. *)
Definition py_iter (x : json) : result (list json) :=
  match x with
  | JList arr => Ok arr
  | JDict items => Ok (map (fun kv => JStr (fst kv)) items)
  | JStr s => Ok (map (fun c => JStr (String c EmptyString)) (list_ascii_of_string s))
  | _ => Err TypeError
  end.
End Ops.

End Py.
Export Py.

(* ================================================================== *)
(** * State and exceptions *)
(* ================================================================== *)

Module Monads.

(** Code that updates a store [W] and cannot raise. *)
Definition M (W A : Type) : Type := W -> A * W.

Definition ret {W A} (a : A) : M W A := fun w => (a, w).

Definition bind {W A B} (c : M W A) (k : A -> M W B) : M W B :=
  fun w => let (a, w') := c w in k a w'.

(** Code that updates a store [W] and may raise; what was stored before
    the exception stays stored. *)
Definition SE (W A : Type) : Type := W -> result A * W.

Definition ok {W A} (a : A) : SE W A := fun w => (Ok a, w).

Definition raise {W A} (e : exn) : SE W A := fun w => (Err e, w).

Definition bindE {W A B} (c : SE W A) (k : A -> SE W B) : SE W B :=
  fun w =>
    match c w with
    | (Ok a, w') => k a w'
    | (Err e, w') => (Err e, w')
    end.

Definition total {W A} (c : M W A) : SE W A :=
  fun w => let (a, w') := c w in (Ok a, w').

Definition pure_result {W A} (r : result A) : SE W A := fun w => (r, w).

(** Code that may raise and touches no store. *)
Definition bindR {A B} (r : result A) (k : A -> result B) : result B :=
  match r with
  | Ok a => k a
  | Err e => Err e
  end.

Section Loops.
Context {W A B : Type}.

Section ForEach.
Variable f : A -> M W B.

(** [result = []; for item in l: result.append(f(item))]. *)
Fixpoint for_each (l : list A) : M W (list B) :=
  match l with
  | [] => ret []
  | item :: rest =>
      bind (f item) (fun b => bind (for_each rest) (fun bs => ret (b :: bs)))
  end.
End ForEach.

Section ForItems.
Variable f : string -> A -> M W B.

(** [for key, value in items: result[key] = f(key, value)]. *)
Fixpoint for_items (items : list (string * A)) (result : list (string * B))
  : M W (list (string * B)) :=
  match items with
  | [] => ret result
  | (key, value) :: rest =>
      bind (f key value) (fun b => for_items rest (sset result key b))
  end.
End ForItems.

Section ForEachE.
Variable f : A -> SE W B.

Fixpoint for_eachE (l : list A) : SE W (list B) :=
  match l with
  | [] => ok []
  | item :: rest =>
      bindE (f item) (fun b => bindE (for_eachE rest) (fun bs => ok (b :: bs)))
  end.
End ForEachE.

Section ForEachR.
Variable f : A -> result B.

Fixpoint for_eachR (l : list A) : result (list B) :=
  match l with
  | [] => Ok []
  | item :: rest =>
      bindR (f item) (fun b => bindR (for_eachR rest) (fun bs => Ok (b :: bs)))
  end.
End ForEachR.

Section Fold.
Variable f : A -> B -> SE W B.

(** [for x in l: acc = f(x, acc)]. *)
Fixpoint foldE (l : list A) (acc : B) : SE W B :=
  match l with
  | [] => ok acc
  | x :: rest => bindE (f x acc) (foldE rest)
  end.
End Fold.
End Loops.

End Monads.
Export Monads.

Declare Scope py_scope.
Delimit Scope py_scope with py.
Notation "x <- c ;; k" := (bind c (fun x => k))
  (at level 61, c at next level, right associativity) : py_scope.
Notation "x <-- c ;; k" := (bindE c (fun x => k))
  (at level 61, c at next level, right associativity) : py_scope.
Open Scope py_scope.

Notation "x <~ c ;; k" := (bindR c (fun x => k))
  (at level 61, c at next level, right associativity) : py_scope.

(** The files the scripts read and write: path and content. *)
Definition FS : Type := list (string * string).

(** [open(path, 'r').read()]. *)
Definition fs_read (disk : FS) (path : string) : result string :=
  match sget disk path with
  | Some content => Ok content
  | None => Err (FileNotFoundError path)
  end.

(** [open(path, 'w').write(content)]. *)
Definition fs_write (disk : FS) (path content : string) : FS := sset disk path content.

(* ================================================================== *)
(** * scripts/sanitize_vcr_cassettes.py *)
(* ================================================================== *)

(** What the script uses of the [json] package.  [json_loads s = None]
    stands for [json.loads(s)] raising [json.JSONDecodeError]. *)
Class JsonLib (float : Type) : Type := {
  float_truth : float -> bool;
  json_loads : string -> option (json float);
  json_dumps_compact : json float -> string;
  json_dumps_indent2 : json float -> string
}.

Module Sanitize.

Definition TEST_ORG_ID : Z := 12345.
Definition TEST_USER_ID : Z := 99999.

Definition ORG_ID_FIELDS : list string := ["org_id"; "org"].

Definition USER_ID_FIELDS : list string :=
  ["owner_id"; "published_by_id"; "user_id"; "assignee_id";
   "language_okay_updated_by_id"; "infosec_program_id"].

Definition EMAIL_FIELDS : list string := ["email"].

Definition NAME_FIELDS : list string :=
  ["first_name"; "last_name"; "display_name"; "short_display_name";
   "audit_team_name"].

Definition TEST_NAMES : list (string * string) :=
  [("first_name", "Test");
   ("last_name", "User");
   ("display_name", "Test User");
   ("short_display_name", "TU");
   ("audit_team_name", "Test Audit Team")].

(** A dictionary keyed by integers: [True] and [1] are the same key. *)
Definition eqb_int (a b : intobj) : bool := int_val a =? int_val b.

Definition idmap : Type := list (intobj * Z).

Notation iget := (dict_get eqb_int).
Notation iset := (dict_set eqb_int).
Notation ihas := (dict_has eqb_int).

(** The two module-level dictionaries. *)
Record State : Type := {
  ORG_ID_MAP : idmap;
  USER_ID_MAP : idmap
}.

(** Both are empty when the module is loaded. *)
Definition initial_state : State := {| ORG_ID_MAP := []; USER_ID_MAP := [] |}.

Definition set_org (m : idmap) (st : State) : State :=
  {| ORG_ID_MAP := m; USER_ID_MAP := USER_ID_MAP st |}.

Definition set_user (m : idmap) (st : State) : State :=
  {| ORG_ID_MAP := ORG_ID_MAP st; USER_ID_MAP := m |}.

(** [isinstance(value, int) and value > 0]. *)
Definition positive_int {float} (value : json float) : option intobj :=
  match as_int value with
  | Some i => if 0 <? int_val i then Some i else None
  | None => None
  end.

(** [if value not in m: m[value] = test] followed by [return m[value]]:
    the value returned and the dictionary afterwards. *)
Definition lookup_or_register (m : idmap) (value : intobj) (test : Z) : Z * idmap :=
  match iget m value with
  | Some substitute => (substitute, m)
  | None => (test, iset m value test)
  end.

Section Rewrite.
Context {float : Type}.
Notation json := (json float).

Definition sanitize_value (obj : json) (key : string) (value : json) : M State json :=
  fun st =>
  match value with
  | JNull => (value, st)
  | _ =>
  match (if in_list key ORG_ID_FIELDS then positive_int value else None) with
  | Some i =>
      let (substitute, m) := lookup_or_register (ORG_ID_MAP st) i TEST_ORG_ID in
      (JInt substitute, set_org m st)
  | None =>
  match (if in_list key USER_ID_FIELDS then positive_int value else None) with
  | Some i =>
      let (substitute, m) := lookup_or_register (USER_ID_MAP st) i TEST_USER_ID in
      (JInt substitute, set_user m st)
  | None =>
  match value with
  | JStr s =>
      if in_list key EMAIL_FIELDS && str_contains "@" s
      then (JStr "test@example.com", st)
      else if in_list key NAME_FIELDS && negb (eqb_str s "")
      then (JStr (match sget TEST_NAMES key with
                  | Some name => name
                  | None => "Test Value"
                  end), st)
      else (value, st)
  | _ => (value, st)
  end
  end
  end
  end.

(** What the script does with one object inside a document:
    [sanitize_dict] on a dict, [sanitize_list] on a list, the object as
    it is otherwise.  This is the body of the loop of [sanitize_list]
    (lines 96-101) and the expression of line 109.  [sanitize_dict] and
    [sanitize_list] call each other on the objects inside their
    argument: their bodies stand here as the branches of one recursion
    on the document (lines 80-88 for a dict, lines 94-102 for a list),
    and the two functions are read off it below; [sanitize_dict_unfold]
    and [sanitize_list_unfold] give them back in the words of the
    script. *)
Fixpoint sanitize_item (item : json) : M State json :=
  match item with
  | JDict items =>
      result <- for_items
                  (fun key value =>
                     match value with
                     | JDict _ => sanitize_item value
                     | JList _ => sanitize_item value
                     | _ => sanitize_value item key value
                     end) items [] ;;
      ret (JDict result)
  | JList arr =>
      result <- for_each sanitize_item arr ;;
      ret (JList result)
  | _ => ret item
  end.

(** Lines 77-89: what is no dict is returned as it is. *)
Definition sanitize_dict (obj : json) : M State json :=
  match obj with
  | JDict _ => sanitize_item obj
  | _ => ret obj
  end.

(** Lines 92-102; [arr] holds the elements of the Python list. *)
Definition sanitize_list (arr : list json) : M State json :=
  sanitize_item (JList arr).

End Rewrite.

(** ** The response body and the request URL *)

Section Cassette.
Context {float : Type} {L : JsonLib float}.
Notation json := (json float).

Definition sanitize_body_string (body_str : string) : M State string :=
  match json_loads body_str with
  | Some body_obj =>
      sanitized <- match body_obj with
                   | JDict _ => sanitize_dict body_obj
                   | JList arr => sanitize_list arr
                   | _ => ret body_obj
                   end ;;
      ret (json_dumps_compact sanitized)
  | None => ret body_str
  end.

(** [bool(x)]. *)
Definition py_truth (x : json) : bool :=
  match x with
  | JNull => false
  | JBool b => b
  | JInt z => negb (z =? 0)
  | JFloat f => float_truth f
  | JStr s => negb (eqb_str s "")
  | JList arr => match arr with [] => false | _ => true end
  | JDict items => match items with [] => false | _ => true end
  end.

(** One turn of the loop over [ORG_ID_MAP.keys()]:
    [url.replace(f'/org/{real_id}/', ...)] then
    [url.replace(f'org_id={real_id}', ...)]. *)
Definition replace_org_id (real_id : intobj) (url : json) : result json :=
  match url with
  | JStr s =>
      let s1 := str_replace s
                  ("/org/" ++ str_of_int real_id ++ "/")%string
                  ("/org/" ++ str_of_Z TEST_ORG_ID ++ "/")%string in
      let s2 := str_replace s1
                  ("org_id=" ++ str_of_int real_id)%string
                  ("org_id=" ++ str_of_Z TEST_ORG_ID)%string in
      Ok (JStr s2)
  | _ => Err AttributeError
  end.

(** Lines 125-131: the request URL of one interaction. *)
Definition sanitize_request_url (interaction : json) : SE State json :=
  has_request <-- pure_result (py_in "request" interaction) ;;
  if negb has_request then ok interaction else
  request <-- pure_result (py_getitem interaction "request") ;;
  has_url <-- pure_result (py_in "url" request) ;;
  if negb has_url then ok interaction else
  url <-- pure_result (py_getitem request "url") ;;
  url' <-- (fun st =>
              foldE (fun real_id u => pure_result (replace_org_id real_id u))
                    (dict_keys (ORG_ID_MAP st)) url st) ;;
  request' <-- pure_result (py_setitem request "url" url') ;;
  pure_result (py_setitem interaction "request" request').

(** Lines 134-137: the response body of one interaction.
    [json.loads] of an object that is not a string is a [TypeError]. *)
Definition sanitize_response_body (interaction : json) : SE State json :=
  has_response <-- pure_result (py_in "response" interaction) ;;
  if negb has_response then ok interaction else
  response <-- pure_result (py_getitem interaction "response") ;;
  has_body <-- pure_result (py_in "body" response) ;;
  if negb has_body then ok interaction else
  body <-- pure_result (py_getitem response "body") ;;
  if negb (py_truth body) then ok interaction else
  body' <-- match body with
            | JStr body_str => total (sanitize_body_string body_str)
            | _ => raise TypeError
            end ;;
  response' <-- pure_result (py_setitem response "body" (JStr body')) ;;
  pure_result (py_setitem interaction "response" response').

(** The body of [for interaction in cassette['interactions']]. *)
Definition sanitize_interaction (interaction : json) : SE State json :=
  interaction1 <-- sanitize_request_url interaction ;;
  sanitize_response_body interaction1.

(** Lines 122-137 on the loaded document.  The loop updates the
    interactions where they are, so the document afterwards holds the
    rewritten interactions when [cassette['interactions']] is a list;
    iterating over a dict or a string visits strings, which no store can
    change. *)
Definition sanitize_document (cassette : json) : SE State json :=
  has_interactions <-- pure_result (py_in "interactions" cassette) ;;
  if negb has_interactions then ok cassette else
  interactions <-- pure_result (py_getitem cassette "interactions") ;;
  visited <-- pure_result (py_iter interactions) ;;
  rewritten <-- for_eachE sanitize_interaction visited ;;
  match interactions with
  | JList _ => pure_result (py_setitem cassette "interactions" (JList rewritten))
  | _ => ok cassette
  end.

End Cassette.

(** ** The discovery pattern ["field"\s*:\s*(\d+)] *)

(** [\s] and [\d] on code points below 256. *)
Definition is_space (c : ascii) : bool :=
  let n := nat_of_ascii c in
  ((9 <=? n) && (n <=? 13) || (28 <=? n) && (n <=? 32)
   || (n =? 133) || (n =? 160))%nat.

Definition is_digit (c : ascii) : bool :=
  let n := nat_of_ascii c in ((48 <=? n) && (n <=? 57))%nat.

Definition digit_val (c : ascii) : Z := Z.of_nat (nat_of_ascii c) - 48.

Fixpoint strip_prefix (p s : string) : option string :=
  match p, s with
  | EmptyString, _ => Some s
  | String a p', String b s' => if Ascii.eqb a b then strip_prefix p' s' else None
  | String _ _, EmptyString => None
  end.

Fixpoint skip_spaces (s : string) : string :=
  match s with
  | String c tl => if is_space c then skip_spaces tl else s
  | EmptyString => s
  end.

(** The longest run of digits at the head of [s], read as [int] does,
    and what follows it. *)
Fixpoint read_digits (acc : Z) (s : string) : Z * string :=
  match s with
  | String c tl => if is_digit c then read_digits (10 * acc + digit_val c) tl else (acc, s)
  | EmptyString => (acc, s)
  end.

Definition starts_with_digit (s : string) : bool :=
  match s with String c _ => is_digit c | EmptyString => false end.

(** A match of the pattern at the head of [s]: [int(match.group(1))] and
    the number of characters matched. *)
Definition match_here (field s : string) : option (Z * nat) :=
  match strip_prefix (String dquote (field ++ String dquote EmptyString))%string s with
  | None => None
  | Some s1 =>
      match strip_prefix ":" (skip_spaces s1) with
      | None => None
      | Some s2 =>
          let s3 := skip_spaces s2 in
          if starts_with_digit s3
          then let (n, s4) := read_digits 0 s3 in
               Some (n, (String.length s - String.length s4)%nat)
          else None
      end
  end.

(** [re.finditer]: matches from left to right, none overlapping an
    earlier one; [skip] is what is left of the current match. *)
Fixpoint finditer_from (field : string) (skip : nat) (s : string) : list Z :=
  match s with
  | EmptyString => []
  | String _ tl =>
      match skip with
      | S k => finditer_from field k tl
      | O =>
          match match_here field s with
          | Some (n, len) => n :: finditer_from field (len - 1) tl
          | None => finditer_from field 0 tl
          end
      end
  end.

Definition finditer (field content : string) : list Z := finditer_from field 0 content.

(** [for match in ...: if id > 0: m[id] = test]. *)
Definition register_matches (test : Z) (found : list Z) (m : idmap) : idmap :=
  fold_left (fun m id => if 0 <? id then iset m (IntObj id) test else m) found m.

(** Lines 149-165 on the text of one file. *)
Definition find_ids_in (content : string) (st : State) : State :=
  let st1 := set_org (register_matches TEST_ORG_ID (finditer "org_id" content) (ORG_ID_MAP st)) st in
  let st2 := set_org (register_matches TEST_ORG_ID (finditer "org" content) (ORG_ID_MAP st1)) st1 in
  fold_left
    (fun st field =>
       set_user (register_matches TEST_USER_ID (finditer field content) (USER_ID_MAP st)) st)
    USER_ID_FIELDS st2.

(** ** Files and the two passes *)

Record World : Type := {
  files : FS;
  ids : State
}.

Definition read_file (path : string) : SE World string :=
  fun w => (fs_read (files w) path, w).

Definition write_file (path content : string) : SE World unit :=
  fun w => (Ok tt, {| files := fs_write (files w) path content; ids := ids w |}).

(** Run code on the two dictionaries inside a world. *)
Definition on_ids {A} (c : SE State A) : SE World A :=
  fun w =>
    let (r, st) := c (ids w) in
    (r, {| files := files w; ids := st |}).

Section Passes.
Context {float : Type} {L : JsonLib float}.

Definition find_org_ids (cassette_path : string) : SE World unit :=
  content <-- read_file cassette_path ;;
  on_ids (fun st => (Ok tt, find_ids_in content st)).

Definition sanitize_cassette (cassette_path : string) : SE World unit :=
  content <-- read_file cassette_path ;;
  cassette <-- match json_loads content with
               | Some doc => ok doc
               | None => raise JSONDecodeError
               end ;;
  cassette' <-- on_ids (sanitize_document cassette) ;;
  write_file cassette_path (json_dumps_indent2 cassette').

(** The two loops of [main] over the cassette files. *)
Definition main (cassette_files : list string) : SE World unit :=
  _ <-- for_eachE find_org_ids cassette_files ;;
  _ <-- for_eachE sanitize_cassette cassette_files ;;
  ok tt.

(** A run of the script: the dictionaries start empty. *)
Definition run (cassette_files : list string) (disk : FS) : result unit * FS :=
  let (r, w) := main cassette_files {| files := disk; ids := initial_state |} in
  (r, files w).

End Passes.
End Sanitize.

(* ================================================================== *)
(** * scripts/convert_vcr_cassettes.py *)
(* ================================================================== *)

Module Convert.

Section Converter.
Context {float : Type}.
Notation json := (json float).

(** [{k: [v] for k, v in headers_dict.items()}]. *)
Definition convert_headers (headers_dict : json) : result json :=
  items <~ py_items headers_dict ;;
  Ok (JDict (fold_left (fun result kv => sset result (fst kv) (JList [snd kv]))
                       items [])).

Definition convert_interaction (json_interaction : json) : result json :=
  req <~ py_getitem json_interaction "request" ;;
  resp <~ py_getitem json_interaction "response" ;;
  req_body <~ py_get req "body" ;;
  req_headers <~ py_getitem req "headers" ;;
  req_headers' <~ convert_headers req_headers ;;
  method <~ py_getitem req "method" ;;
  uri <~ py_getitem req "url" ;;
  let govcr_request :=
    JDict [("body", req_body);
           ("form", JDict []);
           ("headers", req_headers');
           ("method", method);
           ("uri", uri)] in
  resp_body <~ py_getitem resp "body" ;;
  code <~ py_getitem resp "status_code" ;;
  resp_headers <~ py_getitem resp "headers" ;;
  resp_headers' <~ convert_headers resp_headers ;;
  let govcr_response :=
    JDict [("body", JDict [("string", resp_body)]);
           ("code", code);
           ("headers", resp_headers')] in
  Ok (JDict [("request", govcr_request); ("response", govcr_response)]).

(** Lines 94-102 on the loaded document. *)
Definition convert_document (json_data : json) : result json :=
  interactions <~ py_getitem json_data "interactions" ;;
  visited <~ py_iter interactions ;;
  govcr_interactions <~ for_eachR convert_interaction visited ;;
  Ok (JDict [("interactions", JList govcr_interactions)]).

Context {L : JsonLib float}.
Variable yaml_dump : json -> string.

Definition convert_cassette (input_file output_file : string) : SE FS unit :=
  content <-- (fun disk => (fs_read disk input_file, disk)) ;;
  json_data <-- match json_loads content with
                | Some doc => ok doc
                | None => raise JSONDecodeError
                end ;;
  govcr_cassette <-- pure_result (convert_document json_data) ;;
  fun disk => (Ok tt, fs_write disk output_file (yaml_dump govcr_cassette)).

(** The loop of [main]: every file is converted in place. *)
Definition main (argv : list string) : SE FS unit :=
  _ <-- for_eachE (fun input_file => convert_cassette input_file input_file) argv ;;
  ok tt.

End Converter.
End Convert.

(* ================================================================== *)
(** * A reference implementation of the [json] entry points *)
(* ================================================================== *)

(** The closed examples below need [json.loads] and [json.dumps] on
    actual texts.  This module implements them for documents without
    floating-point numbers (the float type is empty) and without
    characters above code point 255: on that fragment [loads] follows
    [json.decoder] and [dumps] follows [json.encoder]; a text outside the
    fragment is rejected.  The general theorems do not depend on it. *)
Module RefCodec.

Definition rjson : Type := json Empty_set.

Definition is_ws (c : ascii) : bool :=
  let n := nat_of_ascii c in ((n =? 32) || (n =? 9) || (n =? 10) || (n =? 13))%nat.

Fixpoint skip_ws (s : string) : string :=
  match s with
  | String c tl => if is_ws c then skip_ws tl else s
  | EmptyString => s
  end.

Definition hex_val (c : ascii) : option nat :=
  let n := nat_of_ascii c in
  if ((48 <=? n) && (n <=? 57))%nat then Some (n - 48)%nat
  else if ((97 <=? n) && (n <=? 102))%nat then Some (n - 87)%nat
  else if ((65 <=? n) && (n <=? 70))%nat then Some (n - 55)%nat
  else None.

Definition hex4 (a b c d : ascii) : option nat :=
  match hex_val a, hex_val b, hex_val c, hex_val d with
  | Some x, Some y, Some z, Some w => Some (((x * 16 + y) * 16 + z) * 16 + w)%nat
  | _, _, _, _ => None
  end.

Definition cons_char (c : ascii) (r : option (string * string)) : option (string * string) :=
  match r with
  | Some (str, rest) => Some (String c str, rest)
  | None => None
  end.

(** The characters of a string literal after its opening quote, and the
    text after its closing quote. *)
Fixpoint scan_string (s : string) : option (string * string) :=
  match s with
  | EmptyString => None
  | String c tl =>
      if Ascii.eqb c dquote then Some (EmptyString, tl)
      else if Ascii.eqb c "\" then
        match tl with
        | String e tl1 =>
            if Ascii.eqb e dquote then cons_char dquote (scan_string tl1)
            else if Ascii.eqb e "\" then cons_char "\" (scan_string tl1)
            else if Ascii.eqb e "/" then cons_char "/" (scan_string tl1)
            else if Ascii.eqb e "b" then cons_char (ascii_of_nat 8) (scan_string tl1)
            else if Ascii.eqb e "f" then cons_char (ascii_of_nat 12) (scan_string tl1)
            else if Ascii.eqb e "n" then cons_char (ascii_of_nat 10) (scan_string tl1)
            else if Ascii.eqb e "r" then cons_char (ascii_of_nat 13) (scan_string tl1)
            else if Ascii.eqb e "t" then cons_char (ascii_of_nat 9) (scan_string tl1)
            else if Ascii.eqb e "u" then
              match tl1 with
              | String h1 (String h2 (String h3 (String h4 tl2))) =>
                  match hex4 h1 h2 h3 h4 with
                  | Some n =>
                      if (n <? 256)%nat
                      then cons_char (ascii_of_nat n) (scan_string tl2)
                      else None
                  | None => None
                  end
              | _ => None
              end
            else None
        | EmptyString => None
        end
      else if (nat_of_ascii c <? 32)%nat then None
      else cons_char c (scan_string tl)
  end.

(** An integer literal (an optional minus sign, then a single zero or a
    run of digits that does not start with zero) not followed by a
    fraction or an exponent. *)
Definition scan_int (s : string) : option (Z * string) :=
  let (neg, s1) := match s with
                   | String "-" tl => (true, tl)
                   | _ => (false, s)
                   end in
  match s1 with
  | String c tl =>
      if Sanitize.is_digit c then
        let (n, rest) := if Ascii.eqb c "0" then (0, tl)
                         else Sanitize.read_digits 0 s1 in
        match rest with
        | String "." _ | String "e" _ | String "E" _ => None
        | _ => Some (if neg then - n else n, rest)
        end
      else None
  | EmptyString => None
  end.

Fixpoint parse_value (fuel : nat) (s : string) : option (rjson * string) :=
  match fuel with
  | O => None
  | S fuel' =>
      match s with
      | String "034" tl =>
          match scan_string tl with
          | Some (str, rest) => Some (JStr str, rest)
          | None => None
          end
      | String "{" tl =>
          match skip_ws tl with
          | String "}" rest => Some (JDict [], rest)
          | s1 =>
              match parse_pairs fuel' s1 [] with
              | Some (items, rest) => Some (JDict items, rest)
              | None => None
              end
          end
      | String "[" tl =>
          match skip_ws tl with
          | String "]" rest => Some (JList [], rest)
          | s1 =>
              match parse_elems fuel' s1 with
              | Some (arr, rest) => Some (JList arr, rest)
              | None => None
              end
          end
      | _ =>
          match Sanitize.strip_prefix "null" s,
                Sanitize.strip_prefix "true" s,
                Sanitize.strip_prefix "false" s with
          | Some rest, _, _ => Some (JNull, rest)
          | _, Some rest, _ => Some (JBool true, rest)
          | _, _, Some rest => Some (JBool false, rest)
          | _, _, _ =>
              match scan_int s with
              | Some (n, rest) => Some (JInt n, rest)
              | None => None
              end
          end
      end
  end
with parse_elems (fuel : nat) (s : string) : option (list rjson * string) :=
  match fuel with
  | O => None
  | S fuel' =>
      match parse_value fuel' s with
      | Some (v, s1) =>
          match skip_ws s1 with
          | String "]" rest => Some ([v], rest)
          | String "," rest =>
              match parse_elems fuel' (skip_ws rest) with
              | Some (vs, rest') => Some (v :: vs, rest')
              | None => None
              end
          | _ => None
          end
      | None => None
      end
  end
with parse_pairs (fuel : nat) (s : string) (pairs : list (string * rjson))
  : option (list (string * rjson) * string) :=
  match fuel with
  | O => None
  | S fuel' =>
      match s with
      | String "034" tl =>
          match scan_string tl with
          | Some (key, s1) =>
              match skip_ws s1 with
              | String ":" s2 =>
                  match parse_value fuel' (skip_ws s2) with
                  | Some (v, s3) =>
                      match skip_ws s3 with
                      | String "}" rest => Some (sset pairs key v, rest)
                      | String "," rest =>
                          parse_pairs fuel' (skip_ws rest) (sset pairs key v)
                      | _ => None
                      end
                  | None => None
                  end
              | _ => None
              end
          | None => None
          end
      | _ => None
      end
  end.

Definition loads (s : string) : option rjson :=
  match parse_value (2 * String.length s + 2) (skip_ws s) with
  | Some (v, rest) =>
      match skip_ws rest with
      | EmptyString => Some v
      | _ => None
      end
  | None => None
  end.

(** ** Encoding *)

Definition hex_digit (n : nat) : ascii :=
  if (n <? 10)%nat then ascii_of_nat (48 + n) else ascii_of_nat (87 + n).

Definition escape_char (c : ascii) : string :=
  let n := nat_of_ascii c in
  if Ascii.eqb c dquote then String "\" (String dquote EmptyString)
  else if Ascii.eqb c "\" then "\\"
  else if (n =? 10)%nat then "\n"
  else if (n =? 13)%nat then "\r"
  else if (n =? 9)%nat then "\t"
  else if (n =? 8)%nat then "\b"
  else if (n =? 12)%nat then "\f"
  else if ((32 <=? n) && (n <=? 126))%nat then String c EmptyString
  else String "\" (String "u" (String "0" (String "0"
         (String (hex_digit (n / 16)) (String (hex_digit (n mod 16)) EmptyString))))).

Fixpoint escape (s : string) : string :=
  match s with
  | EmptyString => EmptyString
  | String c tl => (escape_char c ++ escape tl)%string
  end.

Definition quote (s : string) : string :=
  (String dquote (escape s) ++ String dquote EmptyString)%string.

Fixpoint join (sep : string) (l : list string) : string :=
  match l with
  | [] => EmptyString
  | [x] => x
  | x :: tl => (x ++ sep ++ join sep tl)%string
  end.

Definition dump_scalar (v : rjson) : string :=
  match v with
  | JNull => "null"
  | JBool true => "true"
  | JBool false => "false"
  | JInt z => str_of_Z z
  | JFloat x => match (x : Empty_set) with end
  | JStr s => quote s
  | _ => EmptyString
  end.

(** [json.dumps(v, separators=(',', ':'))]. *)
Fixpoint dumps (v : rjson) : string :=
  match v with
  | JList arr => ("[" ++ join "," (map dumps arr) ++ "]")%string
  | JDict items =>
      ("{" ++ join "," (map (fun kv => quote (fst kv) ++ ":" ++ dumps (snd kv)) items)
           ++ "}")%string
  | _ => dump_scalar v
  end.

Fixpoint spaces (n : nat) : string :=
  match n with
  | O => EmptyString
  | S k => String " " (spaces k)
  end.

Definition newline_indent (level : nat) : string :=
  String (ascii_of_nat 10) (spaces (2 * level)).

(** [json.dumps(v, indent=2)] at nesting depth [level]. *)
Fixpoint dumps_indent (level : nat) (v : rjson) : string :=
  match v with
  | JList [] => "[]"
  | JList arr =>
      ("[" ++ newline_indent (S level)
           ++ join ("," ++ newline_indent (S level)) (map (dumps_indent (S level)) arr)
           ++ newline_indent level ++ "]")%string
  | JDict [] => "{}"
  | JDict items =>
      ("{" ++ newline_indent (S level)
           ++ join ("," ++ newline_indent (S level))
                   (map (fun kv => quote (fst kv) ++ ": " ++ dumps_indent (S level) (snd kv))
                        items)
           ++ newline_indent level ++ "}")%string
  | _ => dump_scalar v
  end.

#[export] Instance ref_json : JsonLib Empty_set := {|
  float_truth := fun x : Empty_set => match x with end;
  json_loads := loads;
  json_dumps_compact := dumps;
  json_dumps_indent2 := dumps_indent 0
|}.

End RefCodec.

(* ================================================================== *)
(** * The vocabulary of the properties *)
(* ================================================================== *)

(** Nothing below is code of the scripts: these are the notions the
    properties are stated with, and the fixtures they are tried on. *)

Unset Implicit Arguments.

Import Sanitize.
Import Convert.
Import RefCodec.

Section Vocabulary.
Context {float : Type} {L : JsonLib float}.
Notation json := (json float).

(** ** The structural rewrite *)

(** The loop over the items of a dict, without the accumulator. *)
Definition map_items {W A B : Type} (f : string -> A -> M W B)
           (items : list (string * A))
  : M W (list (string * B)) :=
  for_each (fun kv => bind (f (fst kv) (snd kv)) (fun b => ret (fst kv, b))) items.

(** Neither a list nor a dict. *)
Definition is_scalar (v : json) : bool :=
  match v with
  | JList _ | JDict _ => false
  | _ => true
  end.

(** The dictionaries hold nothing but the two test IDs, as they do in
    every state a run goes through. *)
Definition map_ok (st : State) : bool :=
  forallb (fun kv => snd kv =? TEST_ORG_ID) (ORG_ID_MAP st)
  && forallb (fun kv => snd kv =? TEST_USER_ID) (USER_ID_MAP st).

(** The rewritten document as a function of the document alone:
    [clean_value], [clean_dict] and [clean_list] are not in the script,
    they say which document [sanitize_value], [sanitize_dict] and
    [sanitize_list] return once the dictionaries hold nothing but the
    test IDs ([sanitize_walk_clean] below); [clean_list] is read on a
    list object [JList arr], for [sanitize_list arr]. *)
Definition clean_value (key : string) (value : json) : json :=
  match value with
  | JNull => value
  | _ =>
  match (if in_list key ORG_ID_FIELDS then positive_int value else None) with
  | Some _ => JInt TEST_ORG_ID
  | None =>
  match (if in_list key USER_ID_FIELDS then positive_int value else None) with
  | Some _ => JInt TEST_USER_ID
  | None =>
  match value with
  | JStr s =>
      if in_list key EMAIL_FIELDS && str_contains "@" s
      then JStr "test@example.com"
      else if in_list key NAME_FIELDS && negb (eqb_str s "")
      then JStr (match sget TEST_NAMES key with
                 | Some name => name
                 | None => "Test Value"
                 end)
      else value
  | _ => value
  end
  end
  end
  end.

Fixpoint clean_dict (obj : json) : json :=
  match obj with
  | JDict items =>
      JDict (map (fun kv =>
                    (fst kv,
                     match snd kv with
                     | JDict _ => clean_dict (snd kv)
                     | JList _ => clean_list (snd kv)
                     | _ => clean_value (fst kv) (snd kv)
                     end)) items)
  | _ => obj
  end
with clean_list (arr : json) : json :=
  match arr with
  | JList items =>
      JList (map (fun item =>
                    match item with
                    | JDict _ => clean_dict item
                    | JList _ => clean_list item
                    | _ => item
                    end) items)
  | _ => arr
  end.

(** The bodies of the two loops of [clean_dict] and [clean_list]. *)
Definition clean_entry (key : string) (value : json) : json :=
  match value with
  | JDict _ => clean_dict value
  | JList _ => clean_list value
  | _ => clean_value key value
  end.

Definition clean_item (item : json) : json :=
  match item with
  | JDict _ => clean_dict item
  | JList _ => clean_list item
  | _ => item
  end.

(** The key-value pairs with a scalar value, in the order the walk
    meets them. *)
Fixpoint fields_dict (obj : json) : list (string * json) :=
  match obj with
  | JDict items =>
      flat_map (fun kv =>
                  match snd kv with
                  | JDict _ => fields_dict (snd kv)
                  | JList _ => fields_list (snd kv)
                  | _ => [(fst kv, snd kv)]
                  end) items
  | _ => []
  end
with fields_list (arr : json) : list (string * json) :=
  match arr with
  | JList items =>
      flat_map (fun item =>
                  match item with
                  | JDict _ => fields_dict item
                  | JList _ => fields_list item
                  | _ => []
                  end) items
  | _ => []
  end.

Definition fields_entry (key : string) (value : json) : list (string * json) :=
  match value with
  | JDict _ => fields_dict value
  | JList _ => fields_list value
  | _ => [(key, value)]
  end.

Definition fields_item (item : json) : list (string * json) :=
  match item with
  | JDict _ => fields_dict item
  | JList _ => fields_list item
  | _ => []
  end.

(** The dictionaries after [sanitize_value] has seen one pair, and after
    it has seen a sequence of pairs. *)
Definition touch (key : string) (value : json) (st : State) : State :=
  snd (sanitize_value value key value st).

Definition touch_all (fields : list (string * json)) (st : State) : State :=
  fold_left (fun st kv => touch (fst kv) (snd kv) st) fields st.

(** ** Shapes and paths *)

(** Two documents of the same shape: scalars face scalars, lists have the
    same length and elements of the same shape in the same order, dicts
    have the same keys in the same order and values of the same shape. *)
Inductive same_shape : json -> json -> Prop :=
| shape_scalar (a b : json) :
    is_scalar a = true -> is_scalar b = true -> same_shape a b
| shape_list (xs ys : list json) :
    Forall2 same_shape xs ys -> same_shape (JList xs) (JList ys)
| shape_dict (xs ys : list (string * json)) :
    Forall2 (fun x y => fst x = fst y /\ same_shape (snd x) (snd y)) xs ys ->
    same_shape (JDict xs) (JDict ys).

(** One step down a document: into the value of a dict key or into the
    element of a list at an index. *)
Inductive step : Type :=
| Key (k : string)
| Idx (n : nat).

(** The value at the end of a path, when the document has one there. *)
Fixpoint lookup_path (path : list step) (v : json) : option json :=
  match path with
  | [] => Some v
  | Key k :: rest =>
      match v with
      | JDict items =>
          match sget items k with
          | Some child => lookup_path rest child
          | None => None
          end
      | _ => None
      end
  | Idx n :: rest =>
      match v with
      | JList arr =>
          match nth_error arr n with
          | Some child => lookup_path rest child
          | None => None
          end
      | _ => None
      end
  end.

(** What [sanitize_body_string] does with the loaded body (line 109). *)
Definition sanitize_loaded (body_obj : json) : M State json :=
  match body_obj with
  | JDict _ => sanitize_dict body_obj
  | JList arr => sanitize_list arr
  | _ => ret body_obj
  end.

(** The integer [sanitize_value] looks up in [ORG_ID_MAP], if any. *)
Definition org_hit (key : string) (value : json) : option intobj :=
  if in_list key ORG_ID_FIELDS then positive_int value else None.

(** ** The Discovery pass *)

(** Every character of [s] is white space for the pattern. *)
Fixpoint all_spaces (s : string) : bool :=
  match s with
  | EmptyString => true
  | String c tl => is_space c && all_spaces tl
  end.

(** The text of a key, a colon and the opening quote of a string value,
    with any white space around the colon. *)
Definition key_then_string (field ws1 ws2 rest : string) : string :=
  (String dquote (field ++ String dquote EmptyString)
   ++ ws1 ++ ":" ++ ws2 ++ String dquote rest)%string.

(** The document value that is the integer object [i]. *)
Definition json_of_int (i : intobj) : json :=
  match i with
  | IntObj z => JInt z
  | BoolObj b => JBool b
  end.

(** ** Interactions *)

(** The body of the response of an interaction, when it has one. *)
Definition response_body (interaction : json) : option json :=
  match interaction with
  | JDict items =>
      match sget items "response" with
      | Some (JDict response) => sget response "body"
      | _ => None
      end
  | _ => None
  end.

(** [v[part][name]] when [v] and [v[part]] are dicts that hold it. *)
Definition field (v : json) (part name : string) : option json :=
  match v with
  | JDict items =>
      match sget items part with
      | Some (JDict inner) => sget inner name
      | _ => None
      end
  | _ => None
  end.

(** A header in the nested schema: its value in a one-element list. *)
Definition one_element (kv : string * json) : string * json :=
  (fst kv, JList [snd kv]).

(** The nested request built from the fields of a flat one. *)
Definition nested_request (req_body : json) (headers : list (string * json))
           (method uri : json) : json :=
  JDict [("body", req_body);
         ("form", JDict []);
         ("headers", JDict (map one_element headers));
         ("method", method);
         ("uri", uri)].

(** The nested response built from the fields of a flat one. *)
Definition nested_response (body code : json) (headers : list (string * json)) : json :=
  JDict [("body", JDict [("string", body)]);
         ("code", code);
         ("headers", JDict (map one_element headers))].






(** ** Stores before and after a computation *)

(** [c] takes every store to one that [R] relates to it, whether it
    returns or raises. *)
Definition stepsM {W A : Type} (R : W -> W -> Prop) (c : M W A) : Prop :=
  forall w, R w (snd (c w)).

Definition stepsE {W A : Type} (R : W -> W -> Prop) (c : SE W A) : Prop :=
  forall w, R w (snd (c w)).

(** Every key of the two dictionaries is a positive integer. *)
Definition keys_positive (st : State) : bool :=
  forallb (fun kv => 0 <? int_val (fst kv)) (ORG_ID_MAP st)
  && forallb (fun kv => 0 <? int_val (fst kv)) (USER_ID_MAP st).

(** What holds of the dictionaries all along a run. *)
Definition run_inv (st : State) : bool := map_ok st && keys_positive st.

(** [st'] holds every entry of [st], with the substitute it had. *)
Definition extends (st st' : State) : Prop :=
  forall (k : intobj) (s : Z),
    (iget (ORG_ID_MAP st) k = Some s -> iget (ORG_ID_MAP st') k = Some s)
    /\ (iget (USER_ID_MAP st) k = Some s -> iget (USER_ID_MAP st') k = Some s).

(** The integer [sanitize_value] looks up in [USER_ID_MAP], if any. *)
Definition user_hit (key : string) (value : json) : option intobj :=
  match org_hit key value with
  | Some _ => None
  | None => if in_list key USER_ID_FIELDS then positive_int value else None
  end.

(** A relation on the dictionaries, read on the worlds that hold them. *)
Definition on_state (R : State -> State -> Prop) (w w' : World) : Prop :=
  R (ids w) (ids w').

(** The keys of a mapping, in order; no keys for another object. *)
Definition keys_of (v : json) : list string :=
  match v with
  | JDict items => map fst items
  | _ => []
  end.

(** [i'] is [i] but for the URL of its request and the body of its
    response: the same keys in the same order, the same value under
    every key other than [request] and [response], the same fields of
    the request other than [url], the same fields of the response other
    than [body]. *)
Definition same_but_url_and_body (i i' : json) : Prop :=
  keys_of i' = keys_of i
  /\ (forall k, k <> "request" -> k <> "response" ->
                py_getitem i' k = py_getitem i k)
  /\ (forall name, name <> "url" ->
                   field i' "request" name = field i "request" name)
  /\ (forall name, name <> "body" ->
                   field i' "response" name = field i "response" name).

(** ** The text Discovery reads *)

(** The text of a key, a colon and a number, with any white space
    around the colon. *)
Definition key_then_number (field ws1 ws2 : string) (z : Z) : string :=
  (String dquote (field ++ String dquote EmptyString)
   ++ ws1 ++ ":" ++ ws2 ++ str_of_Z z)%string.

(** No character of [s] is a double quote. *)
Fixpoint no_quote (s : string) : bool :=
  match s with
  | EmptyString => true
  | String c tl => negb (Ascii.eqb c dquote) && no_quote tl
  end.

(** The first character of [s] is white space or a colon. *)
Definition starts_blank (s : string) : bool :=
  match s with
  | String c _ => is_space c || Ascii.eqb c ":"
  | EmptyString => false
  end.

(** A field name holds no quote and starts with neither white space nor
    a colon; the ID field names are such names. *)
Definition plain_field (field : string) : bool :=
  no_quote field
  && match field with
     | String _ _ => negb (starts_blank field)
     | EmptyString => false
     end.

(** The URL after the loop of lines 128-130 over the registered
    organization IDs [keys]. *)
Definition rewritten_url (keys : list intobj) (u : string) : string :=
  fold_left
    (fun u real_id =>
       str_replace
         (str_replace u ("/org/" ++ str_of_int real_id ++ "/")
                        ("/org/" ++ str_of_Z TEST_ORG_ID ++ "/"))
         ("org_id=" ++ str_of_int real_id)
         ("org_id=" ++ str_of_Z TEST_ORG_ID))
    keys u.

(** Every character of [s] is a decimal digit. *)
Fixpoint all_digits (s : string) : bool :=
  match s with
  | EmptyString => true
  | String c tl => is_digit c && all_digits tl
  end.

(** One of the numbers found is positive and equal to the key [k]: the
    loop of [find_org_ids] over these matches registers [k]. *)
Definition matched (k : intobj) (found : list Z) : bool :=
  existsb (fun n => (0 <? n) && (int_val k =? n)) found.

End Vocabulary.

(** ** Fixtures *)

(** JSON text written with apostrophes where the file has double quotes. *)
Fixpoint json_text (s : string) : string :=
  match s with
  | EmptyString => EmptyString
  | String c tl => String (if Ascii.eqb c "'" then dquote else c) (json_text tl)
  end.

(** Two interactions ask for the members of organization 13888; each
    response body names the organization. *)
Definition members_cassette : string :=
  json_text
    "{'interactions': [{'request': {'method': 'GET', 'url': 'https://api.example.com/org/13888/members'}, 'response': {'status_code': 200, 'body': '{\'org_id\': 13888}'}}, {'request': {'method': 'GET', 'url': 'https://api.example.com/org/13888/members'}, 'response': {'status_code': 200, 'body': '{\'org_id\': 13888}'}}]}".

(** The fixture carries the organization ID 123 as a field of its own,
    next to the interactions, and in the query of a URL. *)
Definition policies_cassette : string :=
  json_text
    "{'org_id': 123, 'interactions': [{'request': {'method': 'GET', 'url': 'https://api.example.com/policies?org_id=123'}, 'response': {'status_code': 200, 'body': '[]'}}]}".

(** The Rewrite pass alone, over the files, with the dictionaries as the
    run so far has left them (the second loop of [main]). *)
Definition rewrite_pass (cassette_files : list string) : SE World unit :=
  _ <-- for_eachE (sanitize_cassette (L := ref_json)) cassette_files ;;
  ok tt.

(** The interaction carries the organization ID as a field of its own. *)
Definition tagged_cassette : string :=
  json_text
    "{'interactions': [{'org_id': 13888, 'request': {'method': 'GET', 'url': 'https://api.example.com/ping'}, 'response': {'status_code': 200, 'body': 'pong'}}]}".

(** The body of a response with an organization ID two levels down. *)
Definition nested_body : string :=
  json_text "{'data': [{'org_id': 13888, 'name': 'Acme'}]}".

(** The flat interaction of the converter's docstring. *)
Definition flat_interaction : rjson :=
  JDict [("request",
          JDict [("method", JStr "GET");
                 ("url", JStr "https://api.example.com/ping");
                 ("headers", JDict [("Accept", JStr "application/json")])]);
         ("response",
          JDict [("status_code", JInt 200);
                 ("status", JStr "200 OK");
                 ("headers", JDict [("Content-Type", JStr "application/json")]);
                 ("body", JStr "{}")])].

Definition error_page_interaction : rjson :=
  JDict [("request",
          JDict [("method", JStr "GET");
                 ("url", JStr "https://api.example.com/org/13888/members")]);
         ("response",
          JDict [("status_code", JInt 500);
                 ("body", JStr "<html>Error</html>")])].

(** The error page again, in an interaction that carries an
    organization ID as a field of its own, a user ID in its request and
    a name in its response. *)
Definition tagged_error_interaction : rjson :=
  JDict [("org_id", JInt 13888);
         ("request",
          JDict [("method", JStr "GET");
                 ("url", JStr "https://api.example.com/org/13888/members");
                 ("user_id", JInt 42)]);
         ("response",
          JDict [("status_code", JInt 500);
                 ("first_name", JStr "Jane");
                 ("body", JStr "<html>Error</html>")])].

(** The dictionaries once 13888 has been registered. *)
Definition known_13888 : State :=
  {| ORG_ID_MAP := [(IntObj 13888, TEST_ORG_ID)]; USER_ID_MAP := [] |}.

Definition sentinel_text : string :=
  json_text "{'org_id': 0, 'owner_id': 0, 'org': -1, 'user_id': -1}".

Definition sentinel_body : rjson :=
  JDict [("org_id", JInt 0); ("owner_id", JInt 0);
         ("org", JInt (-1)); ("user_id", JInt (-1))].




Definition nested_body_obj : rjson :=
  JDict [("data", JList [JDict [("org_id", JInt 13888); ("name", JStr "Acme")]])].

(** The elements of a list with a dict, a scalar and a list in it. *)
Definition nested_elements : list rjson :=
  [nested_body_obj; JInt 13888; JList [JDict [("user_id", JInt 42)]; JStr "x"]].

Definition quoted_id_text : string := json_text "{'org_id': '13888'}".


(** The members fixture on disk, beside a file that is no fixture, before
    anything has run. *)
Definition members_world : World :=
  {| files := [("members.json", members_cassette); ("notes.txt", "keep")];
     ids := initial_state |}.

(** A response body with a user, and a list stored under an ID field. *)
Definition owner_body : string :=
  json_text
    "{'owner': {'user_id': 42, 'email': 'jane@corp.example', 'first_name': 'Jane', 'role': 'admin'}, 'org_id': [13888]}".

Definition owner_body_obj : rjson :=
  JDict [("owner",
          JDict [("user_id", JInt 42);
                 ("email", JStr "jane@corp.example");
                 ("first_name", JStr "Jane");
                 ("role", JStr "admin")]);
         ("org_id", JList [JInt 13888])].

(** An interaction whose response has the body [body]. *)
Definition interaction_with_body (body : rjson) : rjson :=
  JDict [("request",
          JDict [("method", JStr "DELETE");
                 ("url", JStr "https://api.example.com/org/13888/members/7")]);
         ("response",
          JDict [("status_code", JInt 204);
                 ("body", body)])].

(** The error page, once its URL has been rewritten. *)
Definition error_page_rewritten : rjson :=
  JDict [("request",
          JDict [("method", JStr "GET");
                 ("url", JStr "https://api.example.com/org/12345/members")]);
         ("response",
          JDict [("status_code", JInt 500);
                 ("body", JStr "<html>Error</html>")])].

(** The policies fixture, loaded, and the dictionaries after Discovery
    has read it. *)
Definition policies_document : rjson :=
  JDict [("org_id", JInt 123);
         ("interactions",
          JList [JDict [("request",
                         JDict [("method", JStr "GET");
                                ("url", JStr "https://api.example.com/policies?org_id=123")]);
                        ("response",
                         JDict [("status_code", JInt 200);
                                ("body", JStr "[]")])]])].

Definition policies_rewritten : rjson :=
  JDict [("org_id", JInt 123);
         ("interactions",
          JList [JDict [("request",
                         JDict [("method", JStr "GET");
                                ("url", JStr "https://api.example.com/policies?org_id=12345")]);
                        ("response",
                         JDict [("status_code", JInt 200);
                                ("body", JStr "[]")])]])].

Definition known_123 : State :=
  {| ORG_ID_MAP := [(IntObj 123, TEST_ORG_ID)]; USER_ID_MAP := [] |}.

(** The flat interaction, converted. *)
Definition flat_converted : rjson :=
  JDict [("request",
          nested_request JNull [("Accept", JStr "application/json")]
            (JStr "GET") (JStr "https://api.example.com/ping"));
         ("response",
          nested_response (JStr "{}") (JInt 200)
            [("Content-Type", JStr "application/json")])].

(** A fixture the converter accepts, and a disk where it stands before
    and after one the converter refuses. *)
Definition flat_cassette : string :=
  json_text
    "{'interactions': [{'request': {'method': 'GET', 'url': 'https://api.example.com/ping', 'headers': {'Accept': 'application/json'}}, 'response': {'status_code': 200, 'headers': {'Content-Type': 'application/json'}, 'body': '{}'}}]}".

Definition converter_disk : FS :=
  [("first.json", flat_cassette);
   ("members.json", members_cassette);
   ("last.json", flat_cassette)].

(** A body whose organization field holds a boolean. *)
Definition flagged_body : string := json_text "{'org': true}".

Definition flagged_body_obj : rjson := JDict [("org", JBool true)].

(** A document of one flat interaction, and its conversion. *)
Definition flat_document : rjson := JDict [("interactions", JList [flat_interaction])].

Definition flat_document_converted : rjson :=
  JDict [("interactions", JList [flat_converted])].

(** A file that holds settings and no interactions. *)
Definition settings_world : World :=
  {| files := [("settings.json", json_text "{'record_mode': 'none'}")];
     ids := known_13888 |}.

(* ================================================================== *)
(** * Facts about strings, dictionaries and loops *)
(* ================================================================== *)

Lemma eqb_str_eq (a b : string) : eqb_str a b = true <-> a = b.
Proof. unfold eqb_str. apply String.eqb_eq. Qed.

Lemma eqb_str_neq (a b : string) : eqb_str a b = false <-> a <> b.
Proof. unfold eqb_str. apply String.eqb_neq. Qed.

Lemma eqb_str_refl (a : string) : eqb_str a a = true.
Proof. apply eqb_str_eq. reflexivity. Qed.

Lemma in_list_In (x : string) (l : list string) : in_list x l = true <-> In x l.
Proof.
  induction l as [|y tl IH]; simpl.
  - split; [discriminate | tauto].
  - rewrite orb_true_iff, IH, eqb_str_eq. split; intros [H|H]; auto.
Qed.

Lemma in_list_app (x : string) (l1 l2 : list string) :
  in_list x (l1 ++ l2) = in_list x l1 || in_list x l2.
Proof.
  induction l1 as [|y tl IH]; simpl; [reflexivity|].
  rewrite IH. apply orb_assoc.
Qed.

Lemma nodup_keys_NoDup (keys : list string) : nodup_keys keys = true <-> NoDup keys.
Proof.
  induction keys as [|k tl IH]; simpl.
  - split; [constructor | reflexivity].
  - rewrite andb_true_iff, negb_true_iff, IH. split.
    + intros [Hk Htl]. constructor; [|assumption].
      intro Hin. apply in_list_In in Hin. congruence.
    + intro Hnd. inversion Hnd as [|? ? Hk Htl]; subst. split; [|assumption].
      destruct (in_list k tl) eqn:E; [|reflexivity].
      apply in_list_In in E. contradiction.
Qed.

Section StringDict.
Context {V : Type}.
Implicit Types (d : list (string * V)) (k : string) (v : V).

Lemma sget_sset_same d k v : sget (sset d k v) k = Some v.
Proof.
  induction d as [|[k' v'] tl IH]; simpl.
  - rewrite eqb_str_refl. reflexivity.
  - destruct (eqb_str k k') eqn:E; simpl; rewrite E; [reflexivity | exact IH].
Qed.

Lemma sget_sset_other d k k' v : k' <> k -> sget (sset d k v) k' = sget d k'.
Proof.
  intro Hne. induction d as [|[k0 v0] tl IH]; simpl.
  - apply eqb_str_neq in Hne. rewrite Hne. reflexivity.
  - destruct (eqb_str k k0) eqn:E; simpl.
    + apply eqb_str_eq in E. subst k0.
      apply eqb_str_neq in Hne. rewrite Hne. reflexivity.
    + rewrite IH. reflexivity.
Qed.

Lemma sget_None_keys d k : sget d k = None <-> in_list k (map fst d) = false.
Proof.
  induction d as [|[k' v'] tl IH]; simpl.
  - tauto.
  - destruct (eqb_str k k'); simpl; [split; discriminate | exact IH].
Qed.

Lemma sget_In d k v : sget d k = Some v -> In (k, v) d.
Proof.
  induction d as [|[k' v'] tl IH]; simpl; [discriminate|].
  destruct (eqb_str k k') eqn:E.
  - apply eqb_str_eq in E. intro H. injection H as ->. subst. now left.
  - intro H. right. auto.
Qed.

Lemma sset_fresh d k v : in_list k (map fst d) = false -> sset d k v = d ++ [(k, v)].
Proof.
  induction d as [|[k' v'] tl IH]; simpl; [reflexivity|].
  intro H. apply orb_false_iff in H as [E Htl]. rewrite E, IH by exact Htl. reflexivity.
Qed.

Lemma sset_keys_present d k v :
  in_list k (map fst d) = true -> map fst (sset d k v) = map fst d.
Proof.
  induction d as [|[k' v'] tl IH]; simpl; [discriminate|].
  destruct (eqb_str k k') eqn:E; simpl; [reflexivity|].
  intro H. rewrite IH by exact H. reflexivity.
Qed.

Lemma sget_map (W : Type) (g : string -> V -> W) d k :
  sget (map (fun kv => (fst kv, g (fst kv) (snd kv))) d) k
  = match sget d k with Some v => Some (g k v) | None => None end.
Proof.
  induction d as [|[k' v'] tl IH]; simpl; [reflexivity|].
  destruct (eqb_str k k') eqn:E; [|exact IH].
  apply eqb_str_eq in E. subst. reflexivity.
Qed.
End StringDict.

(** ** The loops *)

Section LoopFacts.
Context {W A B : Type}.

Lemma for_items_fresh (f : string -> A -> M W B) items :
  forall acc w,
    nodup_keys (map fst acc ++ map fst items) = true ->
    for_items f items acc w
    = let (r, w') := map_items f items w in (acc ++ r, w').
Proof.
  unfold map_items.
  induction items as [|[k a] tl IH]; intros acc w Hnd; simpl.
  - unfold ret. rewrite app_nil_r. reflexivity.
  - unfold bind at 1 2 3. destruct (f k a w) as [b w1]. simpl.
    apply nodup_keys_NoDup in Hnd.
    assert (Hk : in_list k (map fst acc) = false).
    { destruct (in_list k (map fst acc)) eqn:E; [|reflexivity].
      apply in_list_In in E. apply NoDup_remove_2 in Hnd.
      exfalso. apply Hnd. apply in_or_app. now left. }
    rewrite sset_fresh by exact Hk.
    rewrite IH.
    + unfold bind, ret.
      destruct (for_each _ tl w1) as [r w2]. rewrite <- app_assoc. reflexivity.
    + apply nodup_keys_NoDup. rewrite map_app. simpl. rewrite <- app_assoc. exact Hnd.
Qed.

Lemma for_items_nodup (f : string -> A -> M W B) items w :
  nodup_keys (map fst items) = true ->
  for_items f items [] w = map_items f items w.
Proof.
  intro Hnd. rewrite for_items_fresh by exact Hnd.
  destruct (map_items f items w). reflexivity.
Qed.

Lemma for_each_ext (f g : A -> M W B) l :
  (forall x, In x l -> forall w, f x w = g x w) ->
  forall w, for_each f l w = for_each g l w.
Proof.
  induction l as [|x tl IH]; intros Hfg w; simpl; [reflexivity|].
  unfold bind. rewrite Hfg by now left.
  destruct (g x w) as [b w1]. rewrite IH; [reflexivity|].
  intros y Hy. apply Hfg. now right.
Qed.

(** A loop whose body returns [g x] and moves the store by [step x]. *)
Lemma for_each_pure (f : A -> M W B) (g : A -> B) (step : A -> W -> W)
      (Inv : W -> Prop) l :
  (forall x, In x l -> forall w, Inv w -> f x w = (g x, step x w) /\ Inv (step x w)) ->
  forall w, Inv w ->
    for_each f l w = (map g l, fold_left (fun w x => step x w) l w)
    /\ Inv (fold_left (fun w x => step x w) l w).
Proof.
  induction l as [|x tl IH]; intros Hf w Hw; simpl.
  - split; [reflexivity | exact Hw].
  - destruct (Hf x (or_introl eq_refl) w Hw) as [Hx Hinv].
    unfold bind. rewrite Hx.
    destruct (IH (fun y Hy => Hf y (or_intror Hy)) _ Hinv) as [Htl Hinv'].
    rewrite Htl. split; [reflexivity | exact Hinv'].
Qed.

Lemma for_each_Forall2 (f : A -> M W B) (R : A -> B -> Prop) l :
  (forall x, In x l -> forall w, R x (fst (f x w))) ->
  forall w, Forall2 R l (fst (for_each f l w)).
Proof.
  induction l as [|x tl IH]; intros Hf w; simpl.
  - constructor.
  - unfold bind. specialize (Hf x (or_introl eq_refl) w) as Hx.
    destruct (f x w) as [b w1]. simpl in Hx.
    specialize (IH (fun y Hy => Hf y (or_intror Hy)) w1).
    destruct (for_each f tl w1) as [bs w2]. simpl in *. constructor; assumption.
Qed.
End LoopFacts.

(* ================================================================== *)
(** * What the structural rewrite computes *)
(* ================================================================== *)

Section Structure.
Context {float : Type}.
Notation json := (json float).

(** Induction on a document, with the hypothesis for every element of a
    list and every value of a dict. *)
Lemma json_nested_ind (P : json -> Prop) :
  (forall v, is_scalar v = true -> P v) ->
  (forall arr, Forall P arr -> P (JList arr)) ->
  (forall items, Forall (fun kv => P (snd kv)) items -> P (JDict items)) ->
  forall v, P v.
Proof.
  intros Hscalar Hlist Hdict.
  fix walk 1.
  intros [ | b | z | x | s | arr | items]; try (apply Hscalar; reflexivity).
  - apply Hlist.
    exact ((fix all (l : list json) : Forall P l :=
              match l with
              | [] => Forall_nil P
              | v :: tl => Forall_cons v (walk v) (all tl)
              end) arr).
  - apply Hdict.
    exact ((fix all (l : list (string * json)) : Forall (fun kv => P (snd kv)) l :=
              match l with
              | [] => Forall_nil _
              | kv :: tl => Forall_cons kv (walk (snd kv)) (all tl)
              end) items).
Qed.

End Structure.

Section Refinement.
Context {float : Type}.
Notation json := (json float).

Lemma iget_all_test (test : Z) (m : idmap) (i : intobj) (s : Z) :
  forallb (fun kv => snd kv =? test) m = true ->
  iget m i = Some s -> s = test.
Proof.
  induction m as [|[k v] tl IH]; simpl; [discriminate|].
  intros Hall Hget. apply andb_true_iff in Hall as [Hv Htl].
  destruct (eqb_int i k).
  - injection Hget as <-. now apply Z.eqb_eq.
  - auto.
Qed.

Lemma iset_all_test (test : Z) (m : idmap) (i : intobj) :
  forallb (fun kv => snd kv =? test) m = true ->
  forallb (fun kv => snd kv =? test) (iset m i test) = true.
Proof.
  induction m as [|[k v] tl IH]; simpl; intro Hall.
  - now rewrite Z.eqb_refl.
  - apply andb_true_iff in Hall as [Hv Htl].
    destruct (eqb_int i k); simpl.
    + now rewrite Z.eqb_refl, Htl.
    + now rewrite Hv, IH.
Qed.

Lemma lookup_or_register_test (test : Z) (m : idmap) (i : intobj) :
  forallb (fun kv => snd kv =? test) m = true ->
  fst (lookup_or_register m i test) = test
  /\ forallb (fun kv => snd kv =? test) (snd (lookup_or_register m i test)) = true.
Proof.
  intro Hall. unfold lookup_or_register.
  destruct (iget m i) as [s|] eqn:E; simpl.
  - split; [eapply iget_all_test; eauto | exact Hall].
  - split; [reflexivity | now apply iset_all_test].
Qed.

(** [sanitize_value] returns [clean_value] and keeps the dictionaries in
    order. *)
Lemma sanitize_value_clean (obj : json) (key : string) (value : json) (st : State) :
  map_ok st = true ->
  sanitize_value obj key value st = (clean_value key value, touch key value st)
  /\ map_ok (touch key value st) = true.
Proof.
  intro Hok. unfold touch, sanitize_value, clean_value.
  unfold map_ok in Hok. apply andb_true_iff in Hok as [Horg Husr].
  assert (Hst : map_ok st = true) by (unfold map_ok; now rewrite Horg, Husr).
  destruct value as [ | b | z | x | s | arr | items];
    try (split; [reflexivity | exact Hst]);
    match goal with
    | |- context [positive_int ?v] => destruct (positive_int v) as [i|]
    end;
    destruct (in_list key ORG_ID_FIELDS); destruct (in_list key USER_ID_FIELDS);
    first
      [ split; [reflexivity | exact Hst]
      | destruct (lookup_or_register_test TEST_ORG_ID (ORG_ID_MAP st) i Horg) as [Hv Hm];
        destruct (lookup_or_register (ORG_ID_MAP st) i TEST_ORG_ID) as [sub m];
        simpl in Hv, Hm; subst sub;
        split; [reflexivity | unfold map_ok; simpl; now rewrite Hm, Husr]
      | destruct (lookup_or_register_test TEST_USER_ID (USER_ID_MAP st) i Husr) as [Hv Hm];
        destruct (lookup_or_register (USER_ID_MAP st) i TEST_USER_ID) as [sub m];
        simpl in Hv, Hm; subst sub;
        split; [reflexivity | unfold map_ok; simpl; now rewrite Hm, Horg]
      | destruct (in_list key EMAIL_FIELDS && str_contains "@" s);
        [split; [reflexivity | exact Hst]|];
        destruct (in_list key NAME_FIELDS && negb (eqb_str s ""));
        split; try reflexivity; exact Hst ].
Qed.

Lemma touch_all_app (l1 l2 : list (string * json)) (st : State) :
  touch_all (l1 ++ l2) st = touch_all l2 (touch_all l1 st).
Proof. unfold touch_all. apply fold_left_app. Qed.

Lemma touch_all_flat_map {A : Type} (g : A -> list (string * json)) (l : list A) :
  forall st,
    fold_left (fun st x => touch_all (g x) st) l st = touch_all (flat_map g l) st.
Proof.
  induction l as [|x tl IH]; intro st; simpl; [reflexivity|].
  rewrite touch_all_app. apply IH.
Qed.

Lemma wf_dict_inv (items : list (string * json)) :
  wf_json (JDict items) = true ->
  nodup_keys (map fst items) = true
  /\ forall kv, In kv items -> wf_json (snd kv) = true.
Proof.
  simpl. intro H. apply andb_true_iff in H as [Hk Hv]. split; [exact Hk|].
  rewrite forallb_forall in Hv. exact Hv.
Qed.

Lemma wf_list_inv (arr : list json) :
  wf_json (JList arr) = true -> forall v, In v arr -> wf_json v = true.
Proof. simpl. intro H. rewrite forallb_forall in H. exact H. Qed.

Lemma for_items_ext {A B : Type} (f g : string -> A -> M State B)
      (items : list (string * A)) :
  (forall key value w, f key value w = g key value w) ->
  forall acc w, for_items f items acc w = for_items g items acc w.
Proof.
  intro Hfg. induction items as [|[k a] tl IH]; intros acc w; simpl; [reflexivity|].
  unfold bind. rewrite Hfg. destruct (g k a w) as [b w1]. apply IH.
Qed.

(** [sanitize_dict] on a dict, in the words of the script (lines 80-88). *)
Lemma sanitize_dict_unfold (items : list (string * json)) (st : State) :
  sanitize_dict (JDict items) st
  = (result <- for_items
                 (fun key value =>
                    match value with
                    | JDict _ => sanitize_dict value
                    | JList arr => sanitize_list arr
                    | _ => sanitize_value (JDict items) key value
                    end) items [] ;;
     ret (JDict result)) st.
Proof.
  change (sanitize_dict (JDict items) st)
    with (bind (for_items (fun key value =>
                 match value with
                 | JDict _ => sanitize_item value
                 | JList _ => sanitize_item value
                 | _ => sanitize_value (JDict items) key value
                 end) items []) (fun result => ret (JDict result)) st).
  unfold bind. rewrite (for_items_ext _
    (fun key value =>
       match value with
       | JDict _ => sanitize_dict value
       | JList arr => sanitize_list arr
       | _ => sanitize_value (JDict items) key value
       end)); [reflexivity|].
  intros key value w. destruct value; reflexivity.
Qed.

(** [sanitize_list], in the words of the script (lines 94-102). *)
Lemma sanitize_list_unfold (arr : list json) (st : State) :
  sanitize_list arr st
  = (result <- for_each
                 (fun item =>
                    match item with
                    | JDict _ => sanitize_dict item
                    | JList arr' => sanitize_list arr'
                    | _ => ret item
                    end) arr ;;
     ret (JList result)) st.
Proof.
  change (sanitize_list arr st)
    with (bind (for_each sanitize_item arr) (fun result => ret (JList result)) st).
  unfold bind. rewrite (for_each_ext sanitize_item
    (fun item =>
       match item with
       | JDict _ => sanitize_dict item
       | JList arr' => sanitize_list arr'
       | _ => ret item
       end)); [reflexivity|].
  intros item _ w. destruct item; reflexivity.
Qed.

(** The refinement: on a well-formed document and dictionaries that hold
    only the test IDs, the walk returns the cleaned document and has
    registered the fields it met, in order. *)
Lemma sanitize_walk_clean (v : json) :
  wf_json v = true ->
  forall st, map_ok st = true ->
    sanitize_item v st = (clean_item v, touch_all (fields_item v) st)
    /\ map_ok (touch_all (fields_item v) st) = true.
Proof.
  induction v as [v Hs | arr IH | items IH] using json_nested_ind; intros Hwf st Hok.
  - destruct v; try discriminate Hs; simpl; auto.
  - pose proof (wf_list_inv arr Hwf) as Hwfs.
    rewrite Forall_forall in IH.
    destruct (for_each_pure sanitize_item
                clean_item (fun item => touch_all (fields_item item))
                (fun st => map_ok st = true) arr) with (w := st) as [Hrun Hinv].
    + intros x Hx w Hw. exact (IH x Hx (Hwfs x Hx) w Hw).
    + exact Hok.
    + rewrite touch_all_flat_map in Hrun, Hinv.
      split; [|exact Hinv].
      change (sanitize_item (JList arr) st)
        with (bind (for_each sanitize_item arr) (fun result => ret (JList result)) st).
      unfold bind. rewrite Hrun. reflexivity.
  - destruct (wf_dict_inv items Hwf) as [Hnd Hwfs].
    rewrite Forall_forall in IH.
    destruct (for_each_pure
                (fun kv : string * json =>
                   bind (match snd kv with
                         | JDict _ => sanitize_item (snd kv)
                         | JList _ => sanitize_item (snd kv)
                         | _ => sanitize_value (JDict items) (fst kv) (snd kv)
                         end) (fun b => ret (fst kv, b)))
                (fun kv => (fst kv, clean_entry (fst kv) (snd kv)))
                (fun kv => touch_all (fields_entry (fst kv) (snd kv)))
                (fun st => map_ok st = true) items) with (w := st) as [Hrun Hinv].
    + intros [k x] Hx w Hw. simpl.
      specialize (IH (k, x) Hx (Hwfs (k, x) Hx) w Hw) as [Hi Hiok].
      simpl in Hi, Hiok.
      destruct (sanitize_value_clean (JDict items) k x w Hw) as [Hv Hvok].
      unfold bind, clean_entry, fields_entry.
      destruct x; cbv beta iota;
        try (rewrite Hv; split; [reflexivity | exact Hvok]);
        rewrite Hi; split; solve [reflexivity | exact Hiok].
    + exact Hok.
    + rewrite touch_all_flat_map in Hrun, Hinv.
      split; [|exact Hinv].
      change (sanitize_item (JDict items) st)
        with (bind (for_items (fun key value =>
                   match value with
                   | JDict _ => sanitize_item value
                   | JList _ => sanitize_item value
                   | _ => sanitize_value (JDict items) key value
                   end) items []) (fun result => ret (JDict result)) st).
      unfold bind. rewrite for_items_nodup by exact Hnd.
      unfold map_items. rewrite Hrun. reflexivity.
Qed.

End Refinement.

(* ================================================================== *)
(** * The shape of a document *)
(* ================================================================== *)

Section Shape.
Context {float : Type}.
Notation json := (json float).

Lemma same_shape_refl (v : json) : same_shape v v.
Proof.
  induction v as [v Hs | arr IH | items IH] using json_nested_ind.
  - now apply shape_scalar.
  - apply shape_list. induction IH; constructor; assumption.
  - apply shape_dict. induction IH; constructor; auto.
Qed.

Lemma same_shape_list_length (xs : list json) (w : json) :
  same_shape (JList xs) w ->
  exists ys, w = JList ys /\ List.length ys = List.length xs.
Proof.
  intro H. inversion H as [a b Ha Hb | xs' ys Hall | xs' ys Hall]; subst.
  - discriminate Ha.
  - exists ys. split; [reflexivity|]. symmetry. eapply Forall2_length; eauto.
Qed.

Lemma same_shape_dict_keys (xs : list (string * json)) (w : json) :
  same_shape (JDict xs) w ->
  exists ys, w = JDict ys /\ map fst ys = map fst xs.
Proof.
  intro H. inversion H as [a b Ha Hb | xs' ys Hall | xs' ys Hall]; subst.
  - discriminate Ha.
  - exists ys. split; [reflexivity|].
    clear H. induction Hall as [|x y xs' ys' [Hk _] _ IH]; simpl; [reflexivity|].
    now rewrite Hk, IH.
Qed.

Lemma sanitize_value_scalar (obj : json) (key : string) (value : json) (st : State) :
  is_scalar value = true ->
  is_scalar (fst (sanitize_value obj key value st)) = true.
Proof.
  intro Hs. unfold sanitize_value.
  destruct value as [ | b | z | x | s | arr | items]; try discriminate Hs;
    try reflexivity;
    match goal with
    | |- context [positive_int ?v] => destruct (positive_int v) as [i|]
    end;
    destruct (in_list key ORG_ID_FIELDS); destruct (in_list key USER_ID_FIELDS);
    try reflexivity;
    try (destruct (lookup_or_register (ORG_ID_MAP st) i TEST_ORG_ID); reflexivity);
    try (destruct (lookup_or_register (USER_ID_MAP st) i TEST_USER_ID); reflexivity);
    destruct (in_list key EMAIL_FIELDS && str_contains "@" s); try reflexivity;
    destruct (in_list key NAME_FIELDS && negb (eqb_str s "")); reflexivity.
Qed.

Lemma fst_bind {W A B : Type} (c : M W A) (k : A -> B) (w : W) :
  fst (bind c (fun a => ret (k a)) w) = k (fst (c w)).
Proof. unfold bind, ret. destruct (c w). reflexivity. Qed.

(** The walk returns a document of the shape of the one it is given. *)
Lemma sanitize_item_shape (v : json) :
  wf_json v = true -> forall st, same_shape v (fst (sanitize_item v st)).
Proof.
  induction v as [v Hs | arr IH | items IH] using json_nested_ind; intros Hwf st.
  - destruct v; try discriminate Hs; now apply shape_scalar.
  - pose proof (wf_list_inv arr Hwf) as Hwfs.
    rewrite Forall_forall in IH.
    change (sanitize_item (JList arr) st)
      with (bind (for_each sanitize_item arr) (fun result => ret (JList result)) st).
    rewrite fst_bind. apply shape_list.
    apply for_each_Forall2. intros x Hx w. exact (IH x Hx (Hwfs x Hx) w).
  - destruct (wf_dict_inv items Hwf) as [Hnd Hwfs].
    rewrite Forall_forall in IH.
    change (sanitize_item (JDict items) st)
      with (bind (for_items (fun key value =>
                 match value with
                 | JDict _ => sanitize_item value
                 | JList _ => sanitize_item value
                 | _ => sanitize_value (JDict items) key value
                 end) items []) (fun result => ret (JDict result)) st).
    rewrite fst_bind. rewrite for_items_nodup by exact Hnd.
    apply shape_dict. unfold map_items.
    apply for_each_Forall2. intros [k x] Hx w.
    pose proof (IH (k, x) Hx (Hwfs (k, x) Hx) w) as Hi. simpl in Hi.
    rewrite fst_bind. simpl fst. simpl snd. split; [reflexivity|].
    pose proof (sanitize_value_scalar (JDict items) k x w) as Hv.
    destruct x; try (apply shape_scalar; [reflexivity | now apply Hv]); assumption.
Qed.

(** C9.  [sanitize_dict] and [sanitize_list] preserve the shape of the
    document: a dict comes back from [sanitize_dict] as a dict with
    exactly the same keys in the same order, a list from [sanitize_list]
    as a list of the same length with its elements in the same order,
    and this at every depth; only scalar leaves may differ from the
    input.  ([sanitize_dict] returns what is no dict as it is.) *)
Theorem sanitize_preserves_shape (v : json) (arr : list json) (st : State) :
  wf_json v = true ->
  wf_json (JList arr) = true ->
  same_shape v (fst (sanitize_dict v st))
  /\ same_shape (JList arr) (fst (sanitize_list arr st)).
Proof.
  intros Hv Harr. split.
  - destruct v; try apply same_shape_refl.
    now apply (sanitize_item_shape (JDict items)).
  - now apply (sanitize_item_shape (JList arr)).
Qed.

End Shape.

(* ================================================================== *)
(** * Key-value pairs reachable in a document *)
(* ================================================================== *)

Section Paths.
Context {float : Type}.
Notation json := (json float).

Lemma sanitize_body_string_loaded {L : JsonLib float} (body_str : string)
      (body_obj : json) (st : State) :
  json_loads body_str = Some body_obj ->
  sanitize_body_string body_str st
  = (json_dumps_compact (fst (sanitize_loaded body_obj st)),
     snd (sanitize_loaded body_obj st)).
Proof.
  intro Hload. unfold sanitize_body_string. rewrite Hload.
  unfold bind, ret, sanitize_loaded.
  destruct body_obj as [ | b | z | x | s | arr | items]; cbv beta iota;
    try reflexivity.
  - destruct (sanitize_list arr st); reflexivity.
  - destruct (sanitize_dict (JDict items) st); reflexivity.
Qed.

Lemma sanitize_loaded_clean (v : json) (st : State) :
  wf_json v = true -> map_ok st = true ->
  sanitize_loaded v st = (clean_item v, touch_all (fields_item v) st)
  /\ map_ok (touch_all (fields_item v) st) = true.
Proof.
  intros Hwf Hok.
  destruct (sanitize_walk_clean v Hwf st Hok) as [Hrun Hinv].
  destruct v; simpl; auto.
Qed.

Lemma lookup_nonempty_container (path : list step) (s : step) (v x : json) :
  lookup_path (path ++ [s]) v = Some x -> is_scalar v = false.
Proof.
  destruct path as [|[k|n] rest]; simpl;
    destruct s as [k'|n']; destruct v; try discriminate; reflexivity.
Qed.

Lemma clean_entry_container (key : string) (v : json) :
  is_scalar v = false -> clean_entry key v = clean_item v.
Proof. destruct v; try discriminate; reflexivity. Qed.

Lemma clean_entry_scalar (key : string) (v : json) :
  is_scalar v = true -> clean_entry key v = clean_value key v.
Proof. destruct v; try discriminate; reflexivity. Qed.

Lemma fields_entry_container (key : string) (v : json) :
  is_scalar v = false -> fields_entry key v = fields_item v.
Proof. destruct v; try discriminate; reflexivity. Qed.

Lemma clean_dict_items (items : list (string * json)) :
  clean_item (JDict items)
  = JDict (map (fun kv => (fst kv, clean_entry (fst kv) (snd kv))) items).
Proof. reflexivity. Qed.

Lemma clean_list_items (arr : list json) :
  clean_item (JList arr) = JList (map clean_item arr).
Proof. reflexivity. Qed.

(** A scalar stored under [key] anywhere in the document is found at the
    same place in the cleaned document, as [clean_value key] of it. *)
Lemma lookup_clean_field (path : list step) :
  forall (v : json) (key : string) (x : json),
    lookup_path (path ++ [Key key]) v = Some x ->
    is_scalar x = true ->
    lookup_path (path ++ [Key key]) (clean_item v) = Some (clean_value key x).
Proof.
  induction path as [|s rest IH]; intros v key x Hlook Hx.
  - simpl in Hlook. destruct v; try discriminate Hlook.
    destruct (sget items key) as [c|] eqn:E; [|discriminate].
    injection Hlook as ->.
    rewrite clean_dict_items. simpl.
    rewrite (sget_map _ clean_entry items key), E.
    now rewrite clean_entry_scalar.
  - destruct s as [k|n]; simpl in Hlook.
    + destruct v; try discriminate Hlook.
      destruct (sget items k) as [c|] eqn:E; [|discriminate].
      rewrite clean_dict_items.
      change (lookup_path ((Key k :: rest) ++ [Key key]) (JDict ?d))
        with (match sget d k with
              | Some child => lookup_path (rest ++ [Key key]) child
              | None => None
              end).
      rewrite (sget_map _ clean_entry items k), E.
      rewrite clean_entry_container
        by (eapply lookup_nonempty_container; exact Hlook).
      now apply IH.
    + destruct v; try discriminate Hlook.
      destruct (nth_error arr n) as [c|] eqn:E; [|discriminate].
      rewrite clean_list_items.
      change (lookup_path ((Idx n :: rest) ++ [Key key]) (JList ?l))
        with (match nth_error l n with
              | Some child => lookup_path (rest ++ [Key key]) child
              | None => None
              end).
      rewrite nth_error_map, E. simpl.
      now apply IH.
Qed.

(** ... and the walk has met it. *)
Lemma lookup_in_fields (path : list step) :
  forall (v : json) (key : string) (x : json),
    lookup_path (path ++ [Key key]) v = Some x ->
    is_scalar x = true ->
    In (key, x) (fields_item v).
Proof.
  induction path as [|s rest IH]; intros v key x Hlook Hx.
  - simpl in Hlook. destruct v; try discriminate Hlook.
    destruct (sget items key) as [c|] eqn:E; [|discriminate].
    injection Hlook as ->.
    change (fields_item (JDict items))
      with (flat_map (fun kv => fields_entry (fst kv) (snd kv)) items).
    apply in_flat_map. exists (key, x). split; [now apply sget_In|].
    simpl. destruct x; try discriminate Hx; now left.
  - destruct s as [k|n]; simpl in Hlook.
    + destruct v; try discriminate Hlook.
      destruct (sget items k) as [c|] eqn:E; [|discriminate].
      change (fields_item (JDict items))
        with (flat_map (fun kv => fields_entry (fst kv) (snd kv)) items).
      apply in_flat_map. exists (k, c). split; [now apply sget_In|].
      simpl. rewrite fields_entry_container
        by (eapply lookup_nonempty_container; exact Hlook).
      now apply IH.
    + destruct v; try discriminate Hlook.
      destruct (nth_error arr n) as [c|] eqn:E; [|discriminate].
      change (fields_item (JList arr)) with (flat_map fields_item arr).
      apply in_flat_map. exists c. split; [eapply nth_error_In; exact E|].
      now apply IH.
Qed.

End Paths.

(* ================================================================== *)
(** * Rewriting a rewritten body *)
(* ================================================================== *)

Section Stability.
Context {float : Type}.
Notation json := (json float).

Lemma clean_value_scalar (key : string) (v : json) :
  is_scalar v = true -> is_scalar (clean_value key v) = true.
Proof.
  intro Hs. unfold clean_value.
  destruct v as [ | b | z | x | s | arr | items]; try discriminate Hs; try reflexivity;
    match goal with
    | |- context [positive_int ?v] => destruct (positive_int v)
    end;
    destruct (in_list key ORG_ID_FIELDS); destruct (in_list key USER_ID_FIELDS);
    try reflexivity;
    destruct (in_list key EMAIL_FIELDS && str_contains "@" s); try reflexivity;
    destruct (in_list key NAME_FIELDS && negb (eqb_str s "")); reflexivity.
Qed.

Lemma clean_value_str (key s : string) :
  clean_value key (JStr s : json)
  = if in_list key EMAIL_FIELDS && str_contains "@" s
    then JStr "test@example.com"
    else if in_list key NAME_FIELDS && negb (eqb_str s "")
         then JStr (match sget TEST_NAMES key with
                    | Some name => name
                    | None => "Test Value"
                    end)
         else JStr s.
Proof.
  unfold clean_value, positive_int. cbn [as_int].
  destruct (in_list key ORG_ID_FIELDS); destruct (in_list key USER_ID_FIELDS);
    reflexivity.
Qed.

Lemma clean_value_idem (key : string) (v : json) :
  clean_value key (clean_value key v) = clean_value key v.
Proof.
  destruct v as [ | b | z | x | s | arr | items]; try reflexivity.
  4: {
    rewrite (clean_value_str key s).
    destruct (in_list key EMAIL_FIELDS) eqn:Eem; cbn [andb].
    - destruct (str_contains "@" s) eqn:Eat.
      + rewrite clean_value_str, Eem. reflexivity.
      + destruct (in_list key NAME_FIELDS) eqn:Enm; cbn [andb].
        * destruct (negb (eqb_str s "")) eqn:Ene.
          -- apply in_list_In in Enm. simpl in Enm.
             repeat (destruct Enm as [<-|Enm]; [reflexivity|]). contradiction.
          -- rewrite clean_value_str, Eem, Enm, Eat, Ene. reflexivity.
        * rewrite clean_value_str, Eem, Enm, Eat. reflexivity.
    - destruct (in_list key NAME_FIELDS) eqn:Enm; cbn [andb].
      + destruct (negb (eqb_str s "")) eqn:Ene.
        * apply in_list_In in Enm. simpl in Enm.
          repeat (destruct Enm as [<-|Enm]; [reflexivity|]). contradiction.
        * rewrite clean_value_str, Eem, Enm, Ene. reflexivity.
      + rewrite clean_value_str, Eem, Enm. reflexivity. }
  all: unfold clean_value at 2;
    match goal with
    | |- context [positive_int ?v] => destruct (positive_int v) eqn:Epos
    end;
    destruct (in_list key ORG_ID_FIELDS) eqn:Eorg;
    destruct (in_list key USER_ID_FIELDS) eqn:Eusr;
    unfold clean_value; rewrite ?Eorg, ?Eusr, ?Epos; reflexivity.
Qed.

Lemma clean_entry_idem (key : string) (v : json) :
  clean_dict (clean_dict v) = clean_dict v ->
  clean_list (clean_list v) = clean_list v ->
  clean_entry key (clean_entry key v) = clean_entry key v.
Proof.
  intros Hd Hl.
  destruct v as [ | b | z | x | s | arr | items];
    try (change (clean_entry key ?w) with (clean_value key w) at 2;
         rewrite clean_entry_scalar by (now apply clean_value_scalar);
         apply clean_value_idem).
  - exact Hl.
  - exact Hd.
Qed.

(** Cleaning a cleaned document changes nothing. *)
Lemma clean_idem (v : json) :
  clean_dict (clean_dict v) = clean_dict v
  /\ clean_list (clean_list v) = clean_list v.
Proof.
  induction v as [v Hs | arr IH | items IH] using json_nested_ind.
  - destruct v; try discriminate Hs; split; reflexivity.
  - split; [reflexivity|].
    change (clean_list (JList arr)) with (JList (map clean_item arr)).
    change (clean_list (JList (map clean_item arr)))
      with (JList (map clean_item (map clean_item arr))).
    f_equal. rewrite map_map. apply map_ext_in. intros x Hx.
    rewrite Forall_forall in IH. destruct (IH x Hx) as [Hd Hl].
    destruct x; try reflexivity; assumption.
  - split; [|reflexivity].
    change (clean_dict (JDict items))
      with (JDict (map (fun kv => (fst kv, clean_entry (fst kv) (snd kv))) items)).
    change (clean_dict (JDict (map (fun kv => (fst kv, clean_entry (fst kv) (snd kv))) items)))
      with (JDict (map (fun kv => (fst kv, clean_entry (fst kv) (snd kv)))
                       (map (fun kv => (fst kv, clean_entry (fst kv) (snd kv))) items))).
    f_equal. rewrite map_map. apply map_ext_in. intros [k x] Hx. simpl.
    rewrite Forall_forall in IH. destruct (IH (k, x) Hx) as [Hd Hl].
    f_equal. now apply clean_entry_idem.
Qed.

Lemma clean_item_idem (v : json) : clean_item (clean_item v) = clean_item v.
Proof.
  destruct (clean_idem v) as [Hd Hl].
  destruct v; try reflexivity; assumption.
Qed.

Lemma scalar_wf (v : json) : is_scalar v = true -> wf_json v = true.
Proof. destruct v; try discriminate; reflexivity. Qed.

Lemma wf_clean_walk (v : json) :
  wf_json v = true ->
  wf_json (clean_dict v) = true /\ wf_json (clean_list v) = true.
Proof.
  induction v as [v Hs | arr IH | items IH] using json_nested_ind; intro Hwf.
  - destruct v; try discriminate Hs; split; reflexivity.
  - split; [exact Hwf|].
    change (clean_list (JList arr)) with (JList (map clean_item arr)).
    pose proof (wf_list_inv arr Hwf) as Hwfs. rewrite Forall_forall in IH.
    simpl. apply forallb_forall. intros z Hz.
    apply in_map_iff in Hz as (x & <- & Hx).
    destruct (IH x Hx (Hwfs x Hx)) as [Hd Hl].
    destruct x; try reflexivity; assumption.
  - split; [|exact Hwf].
    change (clean_dict (JDict items))
      with (JDict (map (fun kv => (fst kv, clean_entry (fst kv) (snd kv))) items)).
    destruct (wf_dict_inv items Hwf) as [Hnd Hwfs]. rewrite Forall_forall in IH.
    assert (Hkeys : map fst (map (fun kv : string * json =>
                                    (fst kv, clean_entry (fst kv) (snd kv))) items)
                    = map fst items)
      by (rewrite map_map; apply map_ext; reflexivity).
    cbn [wf_json]. rewrite Hkeys, Hnd. cbn [andb].
    apply forallb_forall. intros z Hz.
    apply in_map_iff in Hz as ([k x] & <- & Hx). cbn [fst snd].
    destruct (IH (k, x) Hx (Hwfs (k, x) Hx)) as [Hd Hl]. cbn [snd] in Hd, Hl.
    destruct x;
      try (apply scalar_wf; apply clean_value_scalar; reflexivity);
      [exact Hl | exact Hd].
Qed.

Lemma wf_clean (v : json) : wf_json v = true -> wf_json (clean_item v) = true.
Proof.
  intro Hwf. destruct (wf_clean_walk v Hwf) as [Hd Hl].
  destruct v; try reflexivity; assumption.
Qed.

(** X19.  The body the Rewrite pass writes is stable: when it is rewritten
    again, from any dictionaries that hold only the test IDs, it comes
    back as it is.  The hypothesis on the [json] package is that the
    compact text it dumps loads back to the same document. *)
Lemma rewritten_body_stable {L : JsonLib float}
      (body_str : string) (body_obj : json) (st st2 : State) :
  json_loads body_str = Some body_obj ->
  wf_json body_obj = true ->
  map_ok st = true ->
  map_ok st2 = true ->
  json_loads (fst (sanitize_body_string body_str st))
  = Some (fst (sanitize_loaded body_obj st)) ->
  fst (sanitize_body_string (fst (sanitize_body_string body_str st)) st2)
  = fst (sanitize_body_string body_str st).
Proof.
  intros Hload Hwf Hok Hok2 Hback.
  destruct (sanitize_loaded_clean body_obj st Hwf Hok) as [Hrun _].
  rewrite (sanitize_body_string_loaded body_str body_obj st Hload) in *.
  rewrite Hrun in *. simpl fst in *.
  rewrite (sanitize_body_string_loaded _ (clean_item body_obj) st2 Hback).
  destruct (sanitize_loaded_clean (clean_item body_obj) st2
              (wf_clean body_obj Hwf) Hok2) as [Hrun2 _].
  rewrite Hrun2. simpl fst. now rewrite clean_item_idem.
Qed.

End Stability.

(* ================================================================== *)
(** * The two dictionaries *)
(* ================================================================== *)

Lemma eqb_int_refl (i : intobj) : eqb_int i i = true.
Proof. unfold eqb_int. apply Z.eqb_refl. Qed.

Lemma ihas_iget (m : idmap) (k : intobj) :
  ihas m k = true <-> exists s, iget m k = Some s.
Proof.
  unfold dict_has. destruct (iget m k) as [s|].
  - split; [eauto | reflexivity].
  - split; [discriminate | intros [s H]; discriminate].
Qed.

Lemma ihas_iset (m : idmap) (i k : intobj) (t : Z) :
  ihas (iset m i t) k = ihas m k || eqb_int k i.
Proof.
  unfold dict_has.
  induction m as [|[k' v'] tl IH]; simpl.
  - destruct (eqb_int k i); reflexivity.
  - destruct (eqb_int i k') eqn:Ei; simpl.
    + destruct (eqb_int k k') eqn:Ek; [reflexivity|].
      assert (Hki : eqb_int k i = false).
      { unfold eqb_int in *. apply Z.eqb_eq in Ei. apply Z.eqb_neq in Ek.
        apply Z.eqb_neq. congruence. }
      rewrite Hki, orb_false_r. reflexivity.
    + destruct (eqb_int k k'); [reflexivity | exact IH].
Qed.

Lemma lookup_or_register_has (m : idmap) (i k : intobj) (t : Z) :
  ihas (snd (lookup_or_register m i t)) k = ihas m k || eqb_int k i.
Proof.
  unfold lookup_or_register.
  destruct (iget m i) as [s|] eqn:E; simpl; [|apply ihas_iset].
  destruct (eqb_int k i) eqn:Ek; [|now rewrite orb_false_r].
  rewrite orb_true_r.
  assert (Hm : ihas m i = true) by (apply ihas_iget; eauto).
  unfold dict_has in *.
  revert Hm. clear E. induction m as [|[k' v'] tl IH]; simpl; [discriminate|].
  assert (Hsame : eqb_int k k' = eqb_int i k').
  { unfold eqb_int in *. apply Z.eqb_eq in Ek. now rewrite Ek. }
  rewrite Hsame. destruct (eqb_int i k'); [reflexivity | exact IH].
Qed.

Section Registration.
Context {float : Type}.
Notation json := (json float).

Lemma touch_org (key : string) (value : json) (st : State) :
  ORG_ID_MAP (touch key value st)
  = match org_hit key value with
    | Some i => snd (lookup_or_register (ORG_ID_MAP st) i TEST_ORG_ID)
    | None => ORG_ID_MAP st
    end.
Proof.
  unfold touch, sanitize_value, org_hit.
  destruct value as [ | b | z | x | s | arr | items];
    try (destruct (in_list key ORG_ID_FIELDS); reflexivity);
    match goal with
    | |- context [positive_int ?v] => destruct (positive_int v) as [i|]
    end;
    destruct (in_list key ORG_ID_FIELDS); destruct (in_list key USER_ID_FIELDS);
    try reflexivity;
    try (destruct (lookup_or_register (ORG_ID_MAP st) i TEST_ORG_ID); reflexivity);
    try (destruct (lookup_or_register (USER_ID_MAP st) i TEST_USER_ID); reflexivity);
    destruct (in_list key EMAIL_FIELDS && str_contains "@" s); try reflexivity;
    destruct (in_list key NAME_FIELDS && negb (eqb_str s "")); reflexivity.
Qed.

Lemma touch_org_mono (key : string) (value : json) (st : State) (k : intobj) :
  ihas (ORG_ID_MAP st) k = true ->
  ihas (ORG_ID_MAP (touch key value st)) k = true.
Proof.
  intro H. rewrite touch_org. destruct (org_hit key value) as [i|]; [|exact H].
  rewrite lookup_or_register_has, H. reflexivity.
Qed.

Lemma touch_all_org_mono (fields : list (string * json)) :
  forall (st : State) (k : intobj),
    ihas (ORG_ID_MAP st) k = true ->
    ihas (ORG_ID_MAP (touch_all fields st)) k = true.
Proof.
  induction fields as [|[key x] tl IH]; intros st k H; simpl; [exact H|].
  apply IH. now apply touch_org_mono.
Qed.

Lemma touch_all_registers (fields : list (string * json)) :
  forall (st : State) (key : string) (x : json) (i : intobj),
    In (key, x) fields ->
    org_hit key x = Some i ->
    ihas (ORG_ID_MAP (touch_all fields st)) i = true.
Proof.
  induction fields as [|[key' x'] tl IH]; intros st key x i Hin Hhit; [contradiction|].
  simpl. destruct Hin as [Heq|Hin].
  - injection Heq as -> ->. apply touch_all_org_mono.
    rewrite touch_org, Hhit, lookup_or_register_has, eqb_int_refl.
    apply orb_true_r.
  - eapply IH; eauto.
Qed.

(** C2, as amended.  The Rewrite pass walks the mapping and sequence
    structure of a response body that parses as JSON: for every key-value
    pair reachable in the parsed body, if the key is an organization-ID
    field name and the value is a positive integer, the value is
    replaced by the substitute through [ORG_ID_MAP], and the real value
    is registered there on the way when it was not yet, so the walk
    never fails on an unmapped value. *)
Theorem rewrite_replaces_org_ids_in_body {L : JsonLib float}
        (body_str : string) (body_obj : json) (path : list step)
        (key : string) (z : Z) (st : State) :
  json_loads body_str = Some body_obj ->
  wf_json body_obj = true ->
  map_ok st = true ->
  In key ORG_ID_FIELDS ->
  0 < z ->
  lookup_path (path ++ [Key key]) body_obj = Some (JInt z) ->
  exists (out : json) (st' : State),
    sanitize_body_string body_str st = (json_dumps_compact out, st')
    /\ lookup_path (path ++ [Key key]) out = Some (JInt TEST_ORG_ID)
    /\ iget (ORG_ID_MAP st') (IntObj z) = Some TEST_ORG_ID
    /\ map_ok st' = true.
Proof.
  intros Hload Hwf Hok Hkey Hz Hlook.
  destruct (sanitize_loaded_clean body_obj st Hwf Hok) as [Hrun Hok'].
  exists (clean_item body_obj), (touch_all (fields_item body_obj) st).
  assert (Hhit : org_hit key (JInt z : json) = Some (IntObj z)).
  { unfold org_hit, positive_int. apply in_list_In in Hkey. rewrite Hkey. simpl.
    apply Z.ltb_lt in Hz. now rewrite Hz. }
  split; [|split; [|split]].
  - rewrite (sanitize_body_string_loaded body_str body_obj st Hload), Hrun.
    reflexivity.
  - rewrite (lookup_clean_field path body_obj key (JInt z) Hlook eq_refl).
    unfold clean_value. unfold org_hit in Hhit. rewrite Hhit. reflexivity.
  - assert (Hhas : ihas (ORG_ID_MAP (touch_all (fields_item body_obj) st)) (IntObj z) = true).
    { eapply touch_all_registers; [|exact Hhit].
      now apply (lookup_in_fields path body_obj key (JInt z)). }
    apply ihas_iget in Hhas as [s Hs]. rewrite Hs. f_equal.
    unfold map_ok in Hok'. apply andb_true_iff in Hok' as [Horg _].
    eapply iget_all_test; eauto.
  - exact Hok'.
Qed.

End Registration.

(* ================================================================== *)
(** * The Discovery pass *)
(* ================================================================== *)

Lemma register_matches_nonpositive (test : Z) (found : list Z) :
  forall (m : idmap) (i : intobj),
    int_val i <= 0 ->
    ihas (register_matches test found m) i = ihas m i.
Proof.
  unfold register_matches.
  induction found as [|id tl IH]; intros m i Hi; simpl; [reflexivity|].
  rewrite IH by exact Hi.
  destruct (0 <? id) eqn:E; [|reflexivity].
  rewrite ihas_iset. apply Z.ltb_lt in E.
  assert (Hne : eqb_int i (IntObj id) = false).
  { unfold eqb_int. simpl. apply Z.eqb_neq. lia. }
  rewrite Hne. apply orb_false_r.
Qed.

Lemma user_pass_maps (content : string) (fields : list string) :
  forall (st : State) (i : intobj),
    int_val i <= 0 ->
    let st' :=
      fold_left
        (fun st field =>
           set_user (register_matches TEST_USER_ID (finditer field content)
                                      (USER_ID_MAP st)) st)
        fields st in
    ORG_ID_MAP st' = ORG_ID_MAP st
    /\ ihas (USER_ID_MAP st') i = ihas (USER_ID_MAP st) i.
Proof.
  induction fields as [|f tl IH]; intros st i Hi; simpl; [split; reflexivity|].
  destruct (IH (set_user (register_matches TEST_USER_ID (finditer f content)
                                           (USER_ID_MAP st)) st) i Hi) as [Ho Hu].
  simpl in Ho, Hu. split; [exact Ho|].
  rewrite Hu. now apply register_matches_nonpositive.
Qed.

Lemma find_ids_in_nonpositive (content : string) (st : State) (i : intobj) :
  int_val i <= 0 ->
  ihas (ORG_ID_MAP (find_ids_in content st)) i = ihas (ORG_ID_MAP st) i
  /\ ihas (USER_ID_MAP (find_ids_in content st)) i = ihas (USER_ID_MAP st) i.
Proof.
  intro Hi. unfold find_ids_in.
  match goal with
  | |- context [fold_left _ USER_ID_FIELDS ?s] =>
      destruct (user_pass_maps content USER_ID_FIELDS s i Hi) as [Ho Hu]
  end.
  cbv zeta in Ho, Hu. rewrite Ho, Hu. simpl.
  rewrite !register_matches_nonpositive by exact Hi. split; reflexivity.
Qed.

(** ** The pattern at a key whose value is not a number *)

Lemma strip_prefix_app (p s : string) : strip_prefix p (p ++ s)%string = Some s.
Proof.
  induction p as [|c p IH]; simpl; [destruct s; reflexivity|].
  now rewrite Ascii.eqb_refl.
Qed.

Lemma skip_spaces_app (ws s : string) :
  all_spaces ws = true -> skip_spaces (ws ++ s)%string = skip_spaces s.
Proof.
  induction ws as [|c ws IH]; simpl; [reflexivity|].
  intro H. apply andb_true_iff in H as [Hc Hws]. rewrite Hc. now apply IH.
Qed.

Lemma match_here_string_value (field ws1 ws2 rest : string) :
  all_spaces ws1 = true ->
  all_spaces ws2 = true ->
  match_here field (key_then_string field ws1 ws2 rest) = None.
Proof.
  intros H1 H2. unfold match_here, key_then_string.
  rewrite strip_prefix_app.
  rewrite skip_spaces_app by exact H1.
  change (skip_spaces (":" ++ ws2 ++ String dquote rest)%string)
    with (String ":" (ws2 ++ String dquote rest)%string).
  change (strip_prefix ":" (String ":" (ws2 ++ String dquote rest)%string))
    with (Some (ws2 ++ String dquote rest)%string).
  cbv beta iota.
  rewrite skip_spaces_app by exact H2.
  reflexivity.
Qed.

Section Policy.
Context {float : Type}.
Notation json := (json float).

Lemma positive_int_nonpositive (i : intobj) :
  int_val i <= 0 -> positive_int (json_of_int i : json) = None.
Proof.
  intro Hi. unfold positive_int.
  assert (Has : as_int (json_of_int i : json) = Some i) by (destruct i; reflexivity).
  rewrite Has. destruct (0 <? int_val i) eqn:E; [|reflexivity].
  apply Z.ltb_lt in E. lia.
Qed.

Lemma sanitize_value_not_int (obj : json) (key : string) (value : json) (st : State) :
  positive_int value = None ->
  (forall s, value = JStr s ->
             in_list key EMAIL_FIELDS = false /\ in_list key NAME_FIELDS = false) ->
  sanitize_value obj key value st = (value, st)
  /\ clean_value key value = value.
Proof.
  intros Hpos Hstr. unfold sanitize_value, clean_value. rewrite Hpos.
  destruct (in_list key ORG_ID_FIELDS); destruct (in_list key USER_ID_FIELDS);
    destruct value as [ | b | z | x | s | arr | items]; try (split; reflexivity);
    destruct (Hstr s eq_refl) as [He Hn]; rewrite He, Hn; split; reflexivity.
Qed.

Lemma id_field_not_text (key : string) :
  In key (ORG_ID_FIELDS ++ USER_ID_FIELDS) ->
  in_list key EMAIL_FIELDS = false /\ in_list key NAME_FIELDS = false.
Proof.
  intro H. simpl in H.
  repeat (destruct H as [<-|H]; [split; reflexivity|]). contradiction.
Qed.

(** C6.  A value of zero or a negative integer is never inserted into
    either dictionary by the Discovery pass, and the Rewrite pass never
    alters it: [sanitize_value] returns it as it is and leaves the
    dictionaries alone, and so it stands unchanged at its place in the
    rewritten body. *)
Theorem nonpositive_ids_untouched
        (content : string) (obj : json) (key : string) (i : intobj) (st : State) :
  int_val i <= 0 ->
  ihas (ORG_ID_MAP (find_ids_in content st)) i = ihas (ORG_ID_MAP st) i
  /\ ihas (USER_ID_MAP (find_ids_in content st)) i = ihas (USER_ID_MAP st) i
  /\ sanitize_value obj key (json_of_int i) st = (json_of_int i, st)
  /\ (forall (body_obj : json) (path : list step),
        wf_json body_obj = true ->
        map_ok st = true ->
        lookup_path (path ++ [Key key]) body_obj = Some (json_of_int i) ->
        lookup_path (path ++ [Key key]) (fst (sanitize_loaded body_obj st))
        = Some (json_of_int i)).
Proof.
  intro Hi.
  destruct (find_ids_in_nonpositive content st i Hi) as [Ho Hu].
  assert (Hval : forall (o : json) s,
             sanitize_value o key (json_of_int i) s = (json_of_int i, s)
             /\ clean_value key (json_of_int i : json) = json_of_int i).
  { intros o s. apply sanitize_value_not_int.
    - now apply positive_int_nonpositive.
    - intros str Heq. destruct i; discriminate Heq. }
  split; [exact Ho|]. split; [exact Hu|]. split; [apply Hval|].
  intros body_obj path Hwf Hok Hlook.
  destruct (sanitize_loaded_clean body_obj st Hwf Hok) as [Hrun _].
  rewrite Hrun. simpl fst.
  rewrite (lookup_clean_field path body_obj key (json_of_int i) Hlook)
    by (destruct i; reflexivity).
  f_equal. apply (Hval obj st).
Qed.

End Policy.

(* ================================================================== *)
(** * One interaction *)
(* ================================================================== *)

Lemma sset_same {V : Type} (d : list (string * V)) (k : string) (v : V) :
  sget d k = Some v -> sset d k v = d.
Proof.
  induction d as [|[k' v'] tl IH]; simpl; [discriminate|].
  destruct (eqb_str k k') eqn:E.
  - intro H. injection H as ->. reflexivity.
  - intro H. now rewrite IH.
Qed.

Lemma shas_sget {V : Type} (d : list (string * V)) (k : string) (v : V) :
  sget d k = Some v -> shas d k = true.
Proof. unfold dict_has. now intros ->. Qed.

Lemma sset_keys_same {V : Type} (d : list (string * V)) (k : string) (v v' : V) :
  sget d k = Some v -> map fst (sset d k v') = map fst d.
Proof.
  intro H. apply sset_keys_present.
  destruct (in_list k (map fst d)) eqn:E; [reflexivity|].
  apply sget_None_keys in E. congruence.
Qed.

Section Interaction.
Context {float : Type} {L : JsonLib float}.
Notation json := (json float).

Lemma foldE_pure {A B : Type} (g : A -> B -> result B) (l : list A) :
  forall (acc : B) (st : State),
    snd (foldE (fun x u => pure_result (g x u)) l acc st) = st.
Proof.
  induction l as [|x tl IH]; intros acc st; simpl; [reflexivity|].
  unfold bindE, pure_result at 1. destruct (g x acc) as [u|e]; [apply IH | reflexivity].
Qed.

(** The URL step stores nothing in the dictionaries and does not touch
    the response. *)
Lemma sanitize_request_url_response (interaction i1 : json) (st st1 : State) :
  sanitize_request_url interaction st = (Ok i1, st1) ->
  st1 = st /\ response_body i1 = response_body interaction.
Proof.
  unfold sanitize_request_url, bindE, pure_result, ok.
  destruct (py_in "request" interaction) as [has_request|e]; [|discriminate].
  destruct has_request; cbv beta iota delta [negb];
    [|intro H; injection H as <- <-; split; reflexivity].
  destruct (py_getitem interaction "request") as [request|e]; [|discriminate].
  destruct (py_in "url" request) as [has_url|e]; [|discriminate].
  destruct has_url; cbv beta iota delta [negb];
    [|intro H; injection H as <- <-; split; reflexivity].
  destruct (py_getitem request "url") as [url|e]; [|discriminate].
  pose proof (foldE_pure replace_org_id (dict_keys (ORG_ID_MAP st)) url st) as Hst.
  unfold pure_result in Hst.
  destruct (foldE _ (dict_keys (ORG_ID_MAP st)) url st) as [[url'|e] st2];
    [|discriminate].
  simpl in Hst. subst st2.
  destruct (py_setitem request "url" url') as [request'|e]; [|discriminate].
  destruct interaction as [ | b | z | x | s | arr | items]; simpl; try discriminate.
  intro H. injection H as <- <-. split; [reflexivity|].
  simpl. rewrite sget_sset_other by discriminate. reflexivity.
Qed.

Lemma sanitize_body_string_not_json (body : string) (st : State) :
  json_loads body = None -> sanitize_body_string body st = (body, st).
Proof. intro H. unfold sanitize_body_string. now rewrite H. Qed.

Lemma sanitize_response_body_not_json (interaction : json) (body : string) (st : State) :
  response_body interaction = Some (JStr body) ->
  json_loads body = None ->
  sanitize_response_body interaction st = (Ok interaction, st).
Proof.
  intros Hbody Hload. unfold response_body in Hbody.
  destruct interaction as [ | b | z | x | s | arr | items]; try discriminate Hbody.
  destruct (sget items "response") as [response|] eqn:Eresp; [|discriminate].
  destruct response as [ | b | z | x | s | arr | ritems]; try discriminate Hbody.
  unfold sanitize_response_body, bindE, pure_result, ok, total, raise.
  unfold py_in at 1. rewrite (shas_sget items "response" _ Eresp).
  cbv beta iota delta [negb].
  unfold py_getitem at 1. rewrite Eresp. cbv beta iota.
  unfold py_in. rewrite (shas_sget ritems "body" _ Hbody).
  cbv beta iota delta [negb].
  unfold py_getitem. rewrite Hbody. cbv beta iota.
  unfold py_truth.
  destruct (negb (eqb_str body "")); cbv beta iota delta [negb]; [|reflexivity].
  rewrite (sanitize_body_string_not_json body st Hload). cbv beta iota.
  unfold py_setitem. rewrite (sset_same ritems "body" _ Hbody).
  rewrite (sset_same items "response" _ Eresp). reflexivity.
Qed.

Lemma same_but_refl (i : json) : same_but_url_and_body i i.
Proof. repeat split. Qed.

Lemma same_but_trans (i1 i2 i3 : json) :
  same_but_url_and_body i1 i2 -> same_but_url_and_body i2 i3 ->
  same_but_url_and_body i1 i3.
Proof.
  intros (Hk & Hg & Hq & Hp) (Hk' & Hg' & Hq' & Hp').
  split; [congruence|]. split; [|split].
  - intros k H1 H2. rewrite Hg', Hg by assumption. reflexivity.
  - intros name H. rewrite Hq', Hq by assumption. reflexivity.
  - intros name H. rewrite Hp', Hp by assumption. reflexivity.
Qed.

(** Storing a field of one part of an interaction. *)
Lemma same_but_store (items inner : list (string * json))
      (part name : string) (old new : json) :
  sget items part = Some (JDict inner) ->
  sget inner name = Some old ->
  (part = "request" /\ name = "url") \/ (part = "response" /\ name = "body") ->
  same_but_url_and_body (JDict items)
    (JDict (sset items part (JDict (sset inner name new)))).
Proof.
  intros Hpart Hname Hwhich.
  assert (Hother : forall part' : string,
             part' <> part ->
             sget (sset items part (JDict (sset inner name new))) part'
             = sget items part')
    by (intros part' Hne; now apply sget_sset_other).
  assert (Hsame : forall name' : string,
             name' <> name ->
             field (JDict (sset items part (JDict (sset inner name new)))) part name'
             = field (JDict items) part name').
  { intros name' Hne. unfold field. rewrite sget_sset_same, Hpart.
    now apply sget_sset_other. }
  assert (Hfar : forall part' name' : string,
             part' <> part ->
             field (JDict (sset items part (JDict (sset inner name new)))) part' name'
             = field (JDict items) part' name').
  { intros part' name' Hne. unfold field. now rewrite Hother. }
  split; [simpl; now apply (sset_keys_same items part (JDict inner))|].
  split; [|split].
  - intros k H1 H2. unfold py_getitem. rewrite Hother; [reflexivity|].
    destruct Hwhich as [[-> _]|[-> _]]; assumption.
  - intros name' Hne. destruct Hwhich as [[-> ->]|[-> ->]].
    + now apply Hsame.
    + apply Hfar. discriminate.
  - intros name' Hne. destruct Hwhich as [[-> ->]|[-> ->]].
    + apply Hfar. discriminate.
    + now apply Hsame.
Qed.

Lemma sanitize_request_url_same_but (interaction i1 : json) (st st1 : State) :
  sanitize_request_url interaction st = (Ok i1, st1) ->
  same_but_url_and_body interaction i1.
Proof.
  unfold sanitize_request_url, bindE, pure_result, ok.
  destruct (py_in "request" interaction) as [has_request|e]; [|discriminate].
  destruct has_request; cbv beta iota delta [negb];
    [|intro H; injection H as <- _; apply same_but_refl].
  destruct (py_getitem interaction "request") as [request|e] eqn:Ereq; [|discriminate].
  destruct (py_in "url" request) as [has_url|e]; [|discriminate].
  destruct has_url; cbv beta iota delta [negb];
    [|intro H; injection H as <- _; apply same_but_refl].
  destruct (py_getitem request "url") as [url|e] eqn:Eurl; [|discriminate].
  destruct (foldE _ (dict_keys (ORG_ID_MAP st)) url st) as [[url'|e] st2];
    [|discriminate].
  unfold py_getitem in Ereq, Eurl.
  destruct interaction as [ | b | z | x | s | arr | items]; try discriminate Ereq.
  destruct (sget items "request") as [r|] eqn:Er; [|discriminate].
  injection Ereq as ->.
  destruct request as [ | b | z | x | s | arr | ritems]; try discriminate Eurl.
  destruct (sget ritems "url") as [u|] eqn:Eu; [|discriminate].
  simpl. intro H. injection H as <- _.
  apply (same_but_store items ritems "request" "url" u url' Er Eu). now left.
Qed.

Lemma sanitize_response_body_same_but (interaction i1 : json) (st st1 : State) :
  sanitize_response_body interaction st = (Ok i1, st1) ->
  same_but_url_and_body interaction i1.
Proof.
  unfold sanitize_response_body, bindE, pure_result, ok.
  destruct (py_in "response" interaction) as [has_response|e]; [|discriminate].
  destruct has_response; cbv beta iota delta [negb];
    [|intro H; injection H as <- _; apply same_but_refl].
  destruct (py_getitem interaction "response") as [response|e] eqn:Eresp;
    [|discriminate].
  destruct (py_in "body" response) as [has_body|e]; [|discriminate].
  destruct has_body; cbv beta iota delta [negb];
    [|intro H; injection H as <- _; apply same_but_refl].
  destruct (py_getitem response "body") as [body|e] eqn:Ebody; [|discriminate].
  destruct (py_truth body); cbv beta iota delta [negb];
    [|intro H; injection H as <- _; apply same_but_refl].
  destruct (match body with
            | JStr body_str => total (sanitize_body_string body_str)
            | _ => raise TypeError
            end st) as [[body'|e] st2]; [|discriminate].
  unfold py_getitem in Eresp, Ebody.
  destruct interaction as [ | b | z | x | s | arr | items]; try discriminate Eresp.
  destruct (sget items "response") as [r|] eqn:Er; [|discriminate].
  injection Eresp as ->.
  destruct response as [ | b | z | x | s | arr | ritems]; try discriminate Ebody.
  destruct (sget ritems "body") as [u|] eqn:Eu; [|discriminate].
  simpl. intro H. injection H as <- _.
  apply (same_but_store items ritems "response" "body" u (JStr body') Er Eu).
  now right.
Qed.

(** The URL step leaves the response of the interaction as it is. *)
Lemma sanitize_request_url_keeps_response (interaction i1 : json) (st st1 : State) :
  sanitize_request_url interaction st = (Ok i1, st1) ->
  py_getitem i1 "response" = py_getitem interaction "response".
Proof.
  unfold sanitize_request_url, bindE, pure_result, ok.
  destruct (py_in "request" interaction) as [has_request|e]; [|discriminate].
  destruct has_request; cbv beta iota delta [negb];
    [|intro H; injection H as <- _; reflexivity].
  destruct (py_getitem interaction "request") as [request|e]; [|discriminate].
  destruct (py_in "url" request) as [has_url|e]; [|discriminate].
  destruct has_url; cbv beta iota delta [negb];
    [|intro H; injection H as <- _; reflexivity].
  destruct (py_getitem request "url") as [url|e]; [|discriminate].
  destruct (foldE _ (dict_keys (ORG_ID_MAP st)) url st) as [[url'|e] st2];
    [|discriminate].
  destruct (py_setitem request "url" url') as [request'|e]; [|discriminate].
  destruct interaction as [ | b | z | x | s | arr | items]; simpl; try discriminate.
  intro H. injection H as <- _.
  simpl. rewrite sget_sset_other by discriminate. reflexivity.
Qed.

(** The loop over the registered IDs, on a URL that is a string. *)
Lemma fold_replace_url (keys : list intobj) :
  forall (u : string) (st : State),
    foldE (fun real_id url (w : State) => (replace_org_id real_id url, w))
          keys (JStr u : json) st
    = (Ok (JStr (rewritten_url keys u)), st).
Proof.
  induction keys as [|k tl IH]; intros u st; cbn [foldE]; [reflexivity|].
  unfold bindE. cbn [replace_org_id]. cbv zeta. apply IH.
Qed.

(** The URL step on an interaction whose request has a string for URL. *)
Lemma sanitize_request_url_string (interaction : json) (u : string) (st : State) :
  field interaction "request" "url" = Some (JStr u) ->
  exists i1 : json,
    sanitize_request_url interaction st = (Ok i1, st)
    /\ field i1 "request" "url"
       = Some (JStr (rewritten_url (dict_keys (ORG_ID_MAP st)) u)).
Proof.
  intro Hurl. unfold field in Hurl.
  destruct interaction as [ | b | z | x | s | arr | items]; try discriminate Hurl.
  destruct (sget items "request") as [request|] eqn:Ereq; [|discriminate].
  destruct request as [ | b | z | x | s | arr | ritems]; try discriminate Hurl.
  exists (JDict (sset items "request"
                   (JDict (sset ritems "url"
                             (JStr (rewritten_url (dict_keys (ORG_ID_MAP st)) u)))))).
  split.
  - unfold sanitize_request_url, bindE, pure_result, ok.
    unfold py_in at 1. rewrite (shas_sget items "request" _ Ereq).
    cbv beta iota delta [negb].
    unfold py_getitem at 1. rewrite Ereq. cbv beta iota.
    unfold py_in. rewrite (shas_sget ritems "url" _ Hurl).
    cbv beta iota delta [negb].
    unfold py_getitem. rewrite Hurl. cbv beta iota.
    rewrite (fold_replace_url (dict_keys (ORG_ID_MAP st)) u st). reflexivity.
  - unfold field. now rewrite !sget_sset_same.
Qed.

(** C5.  A response body that does not parse as JSON is returned
    unchanged and without an error, and the dictionaries stay as they
    are.  Of the rest of the interaction the Rewrite pass rewrites the
    URL of the request, as it does for any interaction, and nothing
    else: the interaction comes out exactly as the rewrite of its URL
    leaves it, with the dictionaries as they were, the response as it
    was, and every other field of the interaction and of its request
    as it was, a field that holds an identifier included.  When the URL
    is a string the pass returns, with the URL the loop over the
    registered organization IDs makes of it. *)
Theorem non_json_body_left_unchanged
        (interaction : json) (body : string) (st : State) :
  response_body interaction = Some (JStr body) ->
  json_loads body = None ->
  sanitize_body_string body st = (body, st)
  /\ sanitize_response_body interaction st = (Ok interaction, st)
  /\ sanitize_interaction interaction st = sanitize_request_url interaction st
  /\ (forall (i' : json) (st' : State),
        sanitize_interaction interaction st = (Ok i', st') ->
        st' = st
        /\ response_body i' = Some (JStr body)
        /\ py_getitem i' "response" = py_getitem interaction "response"
        /\ same_but_url_and_body interaction i')
  /\ (forall u : string,
        field interaction "request" "url" = Some (JStr u) ->
        exists i' : json,
          sanitize_interaction interaction st = (Ok i', st)
          /\ field i' "request" "url"
             = Some (JStr (rewritten_url (dict_keys (ORG_ID_MAP st)) u))).
Proof.
  intros Hbody Hload.
  assert (Hwhole : sanitize_interaction interaction st
                   = sanitize_request_url interaction st).
  { unfold sanitize_interaction, bindE.
    destruct (sanitize_request_url interaction st) as [[i1|e] st1] eqn:Eurl;
      [|reflexivity].
    destruct (sanitize_request_url_response interaction i1 st st1 Eurl) as [-> Hresp].
    apply (sanitize_response_body_not_json i1 body st); [|exact Hload].
    now rewrite Hresp. }
  split; [now apply sanitize_body_string_not_json|].
  split; [exact (sanitize_response_body_not_json interaction body st Hbody Hload)|].
  split; [exact Hwhole|]. split.
  - intros i' st' Hrun. rewrite Hwhole in Hrun.
    destruct (sanitize_request_url_response interaction i' st st' Hrun) as [Hst Hresp].
    split; [exact Hst|]. split; [now rewrite Hresp|].
    split; [exact (sanitize_request_url_keeps_response interaction i' st st' Hrun)|].
    exact (sanitize_request_url_same_but interaction i' st st' Hrun).
  - intros u Hurl. rewrite Hwhole. now apply sanitize_request_url_string.
Qed.

End Interaction.

(* ================================================================== *)
(** * The converter *)
(* ================================================================== *)

Section ConverterFacts.
Context {float : Type}.
Notation json := (json float).

Lemma headers_fold_fresh (items : list (string * json)) :
  forall acc : list (string * json),
    nodup_keys (map fst acc ++ map fst items) = true ->
    fold_left (fun result kv => sset result (fst kv) (JList [snd kv])) items acc
    = acc ++ map one_element items.
Proof.
  induction items as [|[k v] tl IH]; intros acc Hnd; simpl.
  - now rewrite app_nil_r.
  - apply nodup_keys_NoDup in Hnd.
    assert (Hk : in_list k (map fst acc) = false).
    { destruct (in_list k (map fst acc)) eqn:E; [|reflexivity].
      apply in_list_In in E. apply NoDup_remove_2 in Hnd.
      exfalso. apply Hnd. apply in_or_app. now left. }
    rewrite sset_fresh by exact Hk. rewrite IH.
    + rewrite <- app_assoc. reflexivity.
    + apply nodup_keys_NoDup. rewrite map_app. simpl. rewrite <- app_assoc. exact Hnd.
Qed.

Lemma convert_headers_nodup (items : list (string * json)) :
  nodup_keys (map fst items) = true ->
  convert_headers (JDict items) = Ok (JDict (map one_element items)).
Proof.
  intro Hnd. unfold convert_headers. simpl.
  rewrite (headers_fold_fresh items []) by exact Hnd. reflexivity.
Qed.

Lemma wf_sget (items : list (string * json)) (k : string) (v : json) :
  wf_json (JDict items) = true -> sget items k = Some v -> wf_json v = true.
Proof.
  intros Hwf Hget. destruct (wf_dict_inv items Hwf) as [_ Hall].
  apply (Hall (k, v)). now apply sget_In.
Qed.

Lemma wf_field (v : json) (part name : string) (x : json) :
  wf_json v = true -> field v part name = Some x -> wf_json x = true.
Proof.
  unfold field. destruct v as [ | | | | | | items]; try discriminate.
  intros Hwf. destruct (sget items part) as [[ | | | | | | inner]|] eqn:E; try discriminate.
  intro H. eapply wf_sget; [|exact H]. eapply wf_sget; eauto.
Qed.

(** A flat interaction that has every field the converter reads is
    converted, and this is the nested interaction it becomes. *)
Lemma convert_interaction_complete
      (i : json) (req_headers resp_headers : list (string * json))
      (method url body code : json) :
  wf_json i = true ->
  field i "request" "headers" = Some (JDict req_headers) ->
  field i "request" "method" = Some method ->
  field i "request" "url" = Some url ->
  field i "response" "body" = Some body ->
  field i "response" "status_code" = Some code ->
  field i "response" "headers" = Some (JDict resp_headers) ->
  convert_interaction i
  = Ok (JDict [("request",
                nested_request
                  (match field i "request" "body" with
                   | Some b => b
                   | None => JNull
                   end) req_headers method url);
               ("response", nested_response body code resp_headers)]).
Proof.
  intros Hwf Hrh Hm Hu Hb Hc Hph.
  pose proof (wf_field i _ _ _ Hwf Hrh) as Hwrh.
  pose proof (wf_field i _ _ _ Hwf Hph) as Hwph.
  apply wf_dict_inv in Hwrh as [Hnrh _]. apply wf_dict_inv in Hwph as [Hnph _].
  unfold field in *.
  destruct i as [ | | | | | | items]; try discriminate Hrh.
  destruct (sget items "request") as [[ | | | | | | req]|] eqn:Ereq; try discriminate Hrh.
  destruct (sget items "response") as [[ | | | | | | resp]|] eqn:Eresp; try discriminate Hb.
  unfold convert_interaction, bindR, py_getitem, py_get.
  rewrite Ereq, Eresp, Hrh, Hm, Hu, Hb, Hc, Hph.
  rewrite !convert_headers_nodup by assumption.
  destruct (sget req "body"); reflexivity.
Qed.

(** C8.  Converting a flat interaction turns each header pair into the
    same name with the value in a one-element list, for the request and
    for the response alike; the request comes with the empty mapping as
    its form, and with a body that is the flat body, or an explicit null
    when the flat request has none. *)
Theorem convert_headers_form_body
        (i : json) (req_headers resp_headers : list (string * json))
        (method url body code : json) :
  wf_json i = true ->
  field i "request" "headers" = Some (JDict req_headers) ->
  field i "request" "method" = Some method ->
  field i "request" "url" = Some url ->
  field i "response" "body" = Some body ->
  field i "response" "status_code" = Some code ->
  field i "response" "headers" = Some (JDict resp_headers) ->
  exists o : json,
    convert_interaction i = Ok o
    /\ field o "request" "headers" = Some (JDict (map one_element req_headers))
    /\ field o "response" "headers" = Some (JDict (map one_element resp_headers))
    /\ field o "request" "form" = Some (JDict [])
    /\ field o "request" "body"
       = Some (match field i "request" "body" with
               | Some b => b
               | None => JNull
               end).
Proof.
  intros Hwf Hrh Hm Hu Hb Hc Hph.
  eexists. split.
  - apply (convert_interaction_complete i req_headers resp_headers method url body code);
      assumption.
  - repeat split; reflexivity.
Qed.

(** C3, as amended.  The numeric status code of the response is passed
    through, as [code]; the status text is not: the converted response
    has a body, a code and headers and nothing else, whether the flat
    response carries a status text or not, and the conversion does not
    ask for one. *)
Theorem convert_response_code_only
        (i : json) (req_headers resp_headers : list (string * json))
        (method url body code : json) :
  wf_json i = true ->
  field i "request" "headers" = Some (JDict req_headers) ->
  field i "request" "method" = Some method ->
  field i "request" "url" = Some url ->
  field i "response" "body" = Some body ->
  field i "response" "status_code" = Some code ->
  field i "response" "headers" = Some (JDict resp_headers) ->
  exists o : json,
    convert_interaction i = Ok o
    /\ py_getitem o "response" = Ok (nested_response body code resp_headers)
    /\ field o "response" "code" = Some code
    /\ field o "response" "status" = None.
Proof.
  intros Hwf Hrh Hm Hu Hb Hc Hph.
  eexists. split.
  - apply (convert_interaction_complete i req_headers resp_headers method url body code);
      assumption.
  - repeat split; reflexivity.
Qed.

End ConverterFacts.

Section ConverterFailure.
Context {float : Type} {L : JsonLib float}.
Notation json := (json float).
Variable yaml_dump : json -> string.






End ConverterFailure.

(* ================================================================== *)
(** * Runs on actual fixtures *)
(* ================================================================== *)

(** ** A real ID that stays in a URL (C1) *)

(** C1 fails on the code.  In the text of a fixture the fields of a
    response body stand behind escaped quotes, so the discovery pattern
    finds no organization ID in [members_cassette]; the Rewrite pass
    reaches the first URL with an empty [ORG_ID_MAP] and leaves 13888 in
    it, registers 13888 when it rewrites the first body, and only then
    rewrites the second URL.  The same real ID comes out as 13888 in one
    place and as 12345 in three. *)
Theorem real_id_left_in_first_url :
  finditer "org_id" members_cassette = []
  /\ exists (out : string) (doc : rjson),
       Sanitize.run ["members.json"] [("members.json", members_cassette)]
       = (Ok tt, [("members.json", out)])
       /\ loads out = Some doc
       /\ lookup_path [Key "interactions"; Idx 0; Key "request"; Key "url"] doc
          = Some (JStr "https://api.example.com/org/13888/members")
       /\ lookup_path [Key "interactions"; Idx 0; Key "response"; Key "body"] doc
          = Some (JStr (json_text "{'org_id':12345}"))
       /\ lookup_path [Key "interactions"; Idx 1; Key "request"; Key "url"] doc
          = Some (JStr "https://api.example.com/org/12345/members")
       /\ lookup_path [Key "interactions"; Idx 1; Key "response"; Key "body"] doc
          = Some (JStr (json_text "{'org_id':12345}")).
Proof.
  split; [vm_compute; reflexivity|].
  eexists. eexists.
  split; [vm_compute; reflexivity|].
  split; [vm_compute; reflexivity|].
  repeat split; vm_compute; reflexivity.
Qed.

(** ** A second run that changes a sanitized fixture (C4) *)

(** C4 fails on the code.  (a) Two runs of the script, each with fresh
    dictionaries: the first turns [org_id=123] into [org_id=12345]; the
    second finds 123 again (the Rewrite pass never touches a field
    outside the URL and the body), takes the first eight characters of
    [org_id=12345] for an occurrence of it, and writes
    [org_id=1234545].  (b) The Rewrite pass run twice within one run
    over [members_cassette]: the first pass leaves 13888 in the first
    URL, the second, with 13888 now registered, replaces it. *)
Theorem second_run_changes_sanitized_fixture :
  (exists (out1 out2 : string) (doc1 doc2 : rjson),
     Sanitize.run ["policies.json"] [("policies.json", policies_cassette)]
     = (Ok tt, [("policies.json", out1)])
     /\ Sanitize.run ["policies.json"] [("policies.json", out1)]
        = (Ok tt, [("policies.json", out2)])
     /\ String.eqb out1 out2 = false
     /\ loads out1 = Some doc1
     /\ loads out2 = Some doc2
     /\ lookup_path [Key "interactions"; Idx 0; Key "request"; Key "url"] doc1
        = Some (JStr "https://api.example.com/policies?org_id=12345")
     /\ lookup_path [Key "interactions"; Idx 0; Key "request"; Key "url"] doc2
        = Some (JStr "https://api.example.com/policies?org_id=1234545"))
  /\ (exists (w1 w2 : World) (out1 out2 : string),
        Sanitize.main ["members.json"]
          {| files := [("members.json", members_cassette)]; ids := initial_state |}
        = (Ok tt, w1)
        /\ rewrite_pass ["members.json"] w1 = (Ok tt, w2)
        /\ files w1 = [("members.json", out1)]
        /\ files w2 = [("members.json", out2)]
        /\ String.eqb out1 out2 = false).
Proof.
  split.
  - do 4 eexists.
    split; [vm_compute; reflexivity|].
    split; [vm_compute; reflexivity|].
    split; [vm_compute; reflexivity|].
    split; [vm_compute; reflexivity|].
    split; [vm_compute; reflexivity|].
    split; vm_compute; reflexivity.
  - do 4 eexists.
    split; [vm_compute; reflexivity|].
    split; [vm_compute; reflexivity|].
    split; [vm_compute; reflexivity|].
    split; vm_compute; reflexivity.
Qed.

(** ** A field outside the body that the Rewrite pass does not reach (C2) *)

(** C2 as stated fails: the pair [org_id: 13888] is reachable in the
    fixture document, its key is an organization-ID field name and its
    value a positive integer, the Discovery pass has registered 13888,
    and the fixture the run writes still holds 13888 there. *)
Lemma field_outside_body_not_rewritten :
  finditer "org_id" tagged_cassette = [13888]
  /\ exists (out : string) (doc : rjson),
       Sanitize.run ["ping.json"] [("ping.json", tagged_cassette)]
       = (Ok tt, [("ping.json", out)])
       /\ loads out = Some doc
       /\ lookup_path [Key "interactions"; Idx 0; Key "org_id"] doc
          = Some (JInt 13888).
Proof.
  split; [vm_compute; reflexivity|].
  do 2 eexists.
  split; [vm_compute; reflexivity|].
  split; vm_compute; reflexivity.
Qed.

Lemma rewrite_replaces_org_ids_in_body_witness :
  exists (out : rjson) (st' : State),
    sanitize_body_string nested_body initial_state = (dumps out, st')
    /\ lookup_path ([Key "data"; Idx 0%nat] ++ [Key "org_id"]) out
       = Some (JInt TEST_ORG_ID)
    /\ iget (ORG_ID_MAP st') (IntObj 13888) = Some TEST_ORG_ID
    /\ map_ok st' = true.
Proof.
  apply (rewrite_replaces_org_ids_in_body (L := ref_json) nested_body
           (JDict [("data", JList [JDict [("org_id", JInt 13888);
                                          ("name", JStr "Acme")]])])
           [Key "data"; Idx 0%nat] "org_id" 13888 initial_state).
  - vm_compute. reflexivity.
  - reflexivity.
  - reflexivity.
  - simpl. tauto.
  - lia.
  - reflexivity.
Defined.

(** ** The status text of a response (C3) *)

(** C3 as stated fails: the flat response supplies the status text
    ["200 OK"], the conversion succeeds, and the converted response has
    no status text. *)
Lemma status_text_dropped :
  field flat_interaction "response" "status" = Some (JStr "200 OK")
  /\ exists o : rjson,
       convert_interaction flat_interaction = Ok o
       /\ field o "response" "status" = None
       /\ py_getitem o "response"
          = Ok (JDict [("body", JDict [("string", JStr "{}")]);
                       ("code", JInt 200);
                       ("headers",
                        JDict [("Content-Type", JList [JStr "application/json"])])]).
Proof.
  split; [reflexivity|].
  eexists. split; [vm_compute; reflexivity|].
  split; reflexivity.
Qed.

Lemma convert_response_code_only_witness :
  exists o : rjson,
    convert_interaction flat_interaction = Ok o
    /\ py_getitem o "response"
       = Ok (nested_response (JStr "{}") (JInt 200)
               [("Content-Type", JStr "application/json")])
    /\ field o "response" "code" = Some (JInt 200)
    /\ field o "response" "status" = None.
Proof.
  apply (convert_response_code_only flat_interaction
           [("Accept", JStr "application/json")]
           [("Content-Type", JStr "application/json")]
           (JStr "GET") (JStr "https://api.example.com/ping") (JStr "{}") (JInt 200));
    reflexivity.
Defined.

(** ** The scenario of the specification for headers (C8) *)

Lemma convert_headers_form_body_witness :
  exists o : rjson,
    convert_interaction flat_interaction = Ok o
    /\ field o "request" "headers"
       = Some (JDict (map one_element [("Accept", JStr "application/json")]))
    /\ field o "response" "headers"
       = Some (JDict (map one_element [("Content-Type", JStr "application/json")]))
    /\ field o "request" "form" = Some (JDict [])
    /\ field o "request" "body"
       = Some (match field flat_interaction "request" "body" with
               | Some b => b
               | None => JNull
               end).
Proof.
  apply (convert_headers_form_body flat_interaction
           [("Accept", JStr "application/json")]
           [("Content-Type", JStr "application/json")]
           (JStr "GET") (JStr "https://api.example.com/ping") (JStr "{}") (JInt 200));
    reflexivity.
Defined.

Example convert_accept_header :
  convert_headers (JDict [("Accept", JStr "application/json")] : rjson)
  = Ok (JDict [("Accept", JList [JStr "application/json"])]).
Proof. reflexivity. Qed.

Example convert_absent_body_is_null :
  exists o : rjson,
    convert_interaction flat_interaction = Ok o
    /\ field flat_interaction "request" "body" = None
    /\ field o "request" "body" = Some JNull.
Proof. eexists. split; [vm_compute; reflexivity|]. split; reflexivity. Qed.

(** ** A response body that is not JSON (C5) *)

Lemma non_json_body_left_unchanged_witness :
  sanitize_body_string "<html>Error</html>" known_13888
  = ("<html>Error</html>", known_13888)
  /\ sanitize_response_body error_page_interaction known_13888
     = (Ok error_page_interaction, known_13888)
  /\ sanitize_interaction error_page_interaction known_13888
     = sanitize_request_url error_page_interaction known_13888
  /\ (forall (i' : rjson) (st' : State),
        sanitize_interaction error_page_interaction known_13888 = (Ok i', st') ->
        st' = known_13888
        /\ response_body i' = Some (JStr "<html>Error</html>")
        /\ py_getitem i' "response" = py_getitem error_page_interaction "response"
        /\ same_but_url_and_body error_page_interaction i')
  /\ (forall u : string,
        field error_page_interaction "request" "url" = Some (JStr u) ->
        exists i' : rjson,
          sanitize_interaction error_page_interaction known_13888
          = (Ok i', known_13888)
          /\ field i' "request" "url"
             = Some (JStr (rewritten_url (dict_keys (ORG_ID_MAP known_13888)) u))).
Proof.
  apply (non_json_body_left_unchanged (L := ref_json)
           error_page_interaction "<html>Error</html>" known_13888).
  - reflexivity.
  - vm_compute. reflexivity.
Defined.

(** C5 as stated fails.  The interaction carries the organization ID
    13888 as a field of its own, a user ID in its request and a name in
    its response, beside a body that is an error page; 13888 is
    registered.  The Rewrite pass rewrites the URL and leaves the body,
    as the claim says, and leaves the three fields as they are: no
    other field of the interaction is sanitized. *)
Lemma fields_beside_html_body_not_sanitized :
  response_body tagged_error_interaction = Some (JStr "<html>Error</html>")
  /\ loads "<html>Error</html>" = None
  /\ iget (ORG_ID_MAP known_13888) (IntObj 13888) = Some TEST_ORG_ID
  /\ exists i' : rjson,
       sanitize_interaction tagged_error_interaction known_13888
       = (Ok i', known_13888)
       /\ field i' "request" "url"
          = Some (JStr "https://api.example.com/org/12345/members")
       /\ response_body i' = Some (JStr "<html>Error</html>")
       /\ py_getitem i' "org_id" = Ok (JInt 13888)
       /\ field i' "request" "user_id" = Some (JInt 42)
       /\ field i' "response" "first_name" = Some (JStr "Jane").
Proof.
  split; [reflexivity|]. split; [vm_compute; reflexivity|].
  split; [reflexivity|].
  eexists. split; [vm_compute; reflexivity|].
  repeat split; reflexivity.
Qed.

Example error_page_url_still_rewritten :
  sanitize_interaction error_page_interaction known_13888
  = (Ok (JDict [("request",
                 JDict [("method", JStr "GET");
                        ("url", JStr "https://api.example.com/org/12345/members")]);
                ("response",
                 JDict [("status_code", JInt 500);
                        ("body", JStr "<html>Error</html>")])]),
     known_13888).
Proof. vm_compute. reflexivity. Qed.

(** ** Zero and negative values (C6) *)

Lemma nonpositive_ids_untouched_witness :
  ihas (ORG_ID_MAP (find_ids_in sentinel_text initial_state)) (IntObj 0)
  = ihas (ORG_ID_MAP initial_state) (IntObj 0)
  /\ ihas (USER_ID_MAP (find_ids_in sentinel_text initial_state)) (IntObj 0)
     = ihas (USER_ID_MAP initial_state) (IntObj 0)
  /\ sanitize_value sentinel_body "org_id" (json_of_int (IntObj 0)) initial_state
     = (json_of_int (IntObj 0) : rjson, initial_state)
  /\ lookup_path ([] ++ [Key "org_id"]) (fst (sanitize_loaded sentinel_body initial_state))
     = Some (json_of_int (IntObj 0)).
Proof.
  assert (Hi : int_val (IntObj 0) <= 0) by (simpl; lia).
  destruct (nonpositive_ids_untouched sentinel_text sentinel_body "org_id"
              (IntObj 0) initial_state Hi) as (Horg & Husr & Hval & Hdoc).
  split; [exact Horg|]. split; [exact Husr|]. split; [exact Hval|].
  apply Hdoc; reflexivity.
Defined.

Example sentinels_discovered_nowhere :
  loads sentinel_text = Some sentinel_body
  /\ find_ids_in sentinel_text initial_state = initial_state
  /\ sanitize_body_string sentinel_text initial_state
     = (json_text "{'org_id':0,'owner_id':0,'org':-1,'user_id':-1}", initial_state).
Proof. repeat split; vm_compute; reflexivity. Qed.

(** ** An interaction without a method (C7) *)



(** ** The shape of a rewritten body (C9) *)

Lemma sanitize_preserves_shape_witness :
  same_shape nested_body_obj (fst (sanitize_dict nested_body_obj initial_state))
  /\ same_shape (JList nested_elements)
       (fst (sanitize_list nested_elements initial_state)).
Proof.
  apply (sanitize_preserves_shape nested_body_obj nested_elements initial_state);
    reflexivity.
Defined.

Example nested_elements_rewritten :
  fst (sanitize_list nested_elements initial_state)
  = JList [JDict [("data", JList [JDict [("org_id", JInt 12345);
                                         ("name", JStr "Acme")]])];
           JInt 13888;
           JList [JDict [("user_id", JInt 99999)]; JStr "x"]].
Proof. vm_compute. reflexivity. Qed.

Example nested_body_rewritten :
  loads nested_body = Some nested_body_obj
  /\ fst (sanitize_dict nested_body_obj initial_state)
     = JDict [("data", JList [JDict [("org_id", JInt 12345); ("name", JStr "Acme")]])].
Proof. split; vm_compute; reflexivity. Qed.

(** [True] is an instance of [int]: under an ID field name it is
    substituted like the integer 1. *)
Example true_is_an_int :
  sanitize_value (JDict [("org_id", JBool true)] : rjson) "org_id" (JBool true)
    initial_state
  = (JInt 12345, {| ORG_ID_MAP := [(BoolObj true, 12345)]; USER_ID_MAP := [] |}).
Proof. reflexivity. Qed.

(* ================================================================== *)
(** * Stores along a computation *)
(* ================================================================== *)

Section Steps.
Context {W : Type}.
Variable R : W -> W -> Prop.
Hypothesis R_refl : forall w, R w w.
Hypothesis R_trans : forall w1 w2 w3, R w1 w2 -> R w2 w3 -> R w1 w3.

Lemma stepsM_ret {A : Type} (a : A) : stepsM R (ret a).
Proof. intro w. apply R_refl. Qed.

Lemma stepsM_bind {A B : Type} (c : M W A) (k : A -> M W B) :
  stepsM R c -> (forall a, stepsM R (k a)) -> stepsM R (bind c k).
Proof.
  intros Hc Hk w. unfold bind. specialize (Hc w).
  destruct (c w) as [a w1]. simpl in Hc.
  eapply R_trans; [exact Hc | apply Hk].
Qed.

Lemma stepsM_for_each {A B : Type} (f : A -> M W B) (l : list A) :
  (forall x, In x l -> stepsM R (f x)) -> stepsM R (for_each f l).
Proof.
  induction l as [|x tl IH]; intro Hf; simpl.
  - apply stepsM_ret.
  - apply stepsM_bind; [apply Hf; now left|]. intro b.
    apply stepsM_bind; [apply IH; intros y Hy; apply Hf; now right|].
    intro bs. apply stepsM_ret.
Qed.

Lemma stepsM_for_items {A B : Type} (f : string -> A -> M W B)
      (items : list (string * A)) :
  (forall k x, In (k, x) items -> stepsM R (f k x)) ->
  forall acc, stepsM R (for_items f items acc).
Proof.
  induction items as [|[k x] tl IH]; intros Hf acc; simpl.
  - apply stepsM_ret.
  - apply stepsM_bind; [apply Hf; now left|]. intro b.
    apply IH. intros k' x' Hin. apply Hf. now right.
Qed.

Lemma stepsE_ok {A : Type} (a : A) : stepsE R (ok a).
Proof. intro w. apply R_refl. Qed.

Lemma stepsE_raise {A : Type} (e : exn) : stepsE R (raise (A := A) e).
Proof. intro w. apply R_refl. Qed.

Lemma stepsE_pure_result {A : Type} (r : result A) : stepsE R (pure_result r).
Proof. intro w. apply R_refl. Qed.

Lemma stepsE_bindE {A B : Type} (c : SE W A) (k : A -> SE W B) :
  stepsE R c -> (forall a, stepsE R (k a)) -> stepsE R (bindE c k).
Proof.
  intros Hc Hk w. unfold bindE. specialize (Hc w).
  destruct (c w) as [[a|e] w1]; simpl in Hc.
  - eapply R_trans; [exact Hc | apply Hk].
  - exact Hc.
Qed.

Lemma stepsE_total {A : Type} (c : M W A) : stepsM R c -> stepsE R (total c).
Proof.
  intros Hc w. unfold total. specialize (Hc w). destruct (c w). exact Hc.
Qed.

Lemma stepsE_for_eachE {A B : Type} (f : A -> SE W B) (l : list A) :
  (forall x, In x l -> stepsE R (f x)) -> stepsE R (for_eachE f l).
Proof.
  induction l as [|x tl IH]; intro Hf; simpl.
  - apply stepsE_ok.
  - apply stepsE_bindE; [apply Hf; now left|]. intro b.
    apply stepsE_bindE; [apply IH; intros y Hy; apply Hf; now right|].
    intro bs. apply stepsE_ok.
Qed.

Lemma stepsE_if {A : Type} (b : bool) (c1 c2 : SE W A) :
  stepsE R c1 -> stepsE R c2 -> stepsE R (if b then c1 else c2).
Proof. destruct b; auto. Qed.
End Steps.

Section WalkSteps.
Context {float : Type}.
Notation json := (json float).
Variable R : State -> State -> Prop.
Hypothesis R_refl : forall st, R st st.
Hypothesis R_trans : forall s1 s2 s3, R s1 s2 -> R s2 s3 -> R s1 s3.
Hypothesis R_value :
  forall (obj : json) (key : string) (value : json),
    stepsM R (sanitize_value obj key value).

(** What every call of [sanitize_value] does to the dictionaries, the
    walk does: for any document, well-formed or not. *)
Lemma sanitize_walk_steps (v : json) : stepsM R (sanitize_item v).
Proof.
  induction v as [v Hs | arr IH | items IH] using json_nested_ind.
  - destruct v; try discriminate Hs; apply (stepsM_ret R R_refl).
  - rewrite Forall_forall in IH.
    change (sanitize_item (JList arr))
      with (bind (for_each sanitize_item arr) (fun result => ret (JList result))).
    apply (stepsM_bind R R_trans); [|intro; apply (stepsM_ret R R_refl)].
    apply (stepsM_for_each R R_refl R_trans). exact IH.
  - rewrite Forall_forall in IH.
    change (sanitize_item (JDict items))
      with (bind (for_items (fun key value =>
                 match value with
                 | JDict _ => sanitize_item value
                 | JList _ => sanitize_item value
                 | _ => sanitize_value (JDict items) key value
                 end) items []) (fun result => ret (JDict result))).
    apply (stepsM_bind R R_trans); [|intro; apply (stepsM_ret R R_refl)].
    apply (stepsM_for_items R R_refl R_trans). intros k x Hx.
    pose proof (IH (k, x) Hx) as Hi. simpl in Hi.
    destruct x; try apply R_value; assumption.
Qed.

Lemma sanitize_body_string_steps {L : JsonLib float} (body_str : string) :
  stepsM R (sanitize_body_string body_str).
Proof.
  unfold sanitize_body_string.
  destruct (json_loads body_str) as [body_obj|]; [|apply (stepsM_ret R R_refl)].
  apply (stepsM_bind R R_trans); [|intro; apply (stepsM_ret R R_refl)].
  pose proof (sanitize_walk_steps body_obj) as Hi.
  destruct body_obj; try apply (stepsM_ret R R_refl); assumption.
Qed.

Lemma sanitize_request_url_steps {L : JsonLib float} (interaction : json) :
  stepsE R (sanitize_request_url interaction).
Proof.
  intro st. unfold sanitize_request_url, bindE, pure_result, ok.
  destruct (py_in "request" interaction) as [[|]|e]; cbv beta iota delta [negb];
    try apply R_refl.
  destruct (py_getitem interaction "request") as [request|e]; [|apply R_refl].
  destruct (py_in "url" request) as [[|]|e]; cbv beta iota delta [negb];
    try apply R_refl.
  destruct (py_getitem request "url") as [url|e]; [|apply R_refl].
  pose proof (foldE_pure replace_org_id (dict_keys (ORG_ID_MAP st)) url st) as Hst.
  unfold pure_result in Hst.
  destruct (foldE _ (dict_keys (ORG_ID_MAP st)) url st) as [[url'|e] st2];
    simpl in Hst; subst st2; [|apply R_refl].
  destruct (py_setitem request "url" url') as [request'|e]; apply R_refl.
Qed.

Lemma sanitize_response_body_steps {L : JsonLib float} (interaction : json) :
  stepsE R (sanitize_response_body interaction).
Proof.
  unfold sanitize_response_body.
  apply (stepsE_bindE R R_trans); [apply (stepsE_pure_result R R_refl)|].
  intro has_response. apply stepsE_if; [apply (stepsE_ok R R_refl)|].
  apply (stepsE_bindE R R_trans); [apply (stepsE_pure_result R R_refl)|].
  intro response.
  apply (stepsE_bindE R R_trans); [apply (stepsE_pure_result R R_refl)|].
  intro has_body. apply stepsE_if; [apply (stepsE_ok R R_refl)|].
  apply (stepsE_bindE R R_trans); [apply (stepsE_pure_result R R_refl)|].
  intro body. apply stepsE_if; [apply (stepsE_ok R R_refl)|].
  apply (stepsE_bindE R R_trans).
  - destruct body; try apply (stepsE_raise R R_refl).
    apply stepsE_total. apply sanitize_body_string_steps.
  - intro body'.
    apply (stepsE_bindE R R_trans); [apply (stepsE_pure_result R R_refl)|].
    intro response'. apply (stepsE_pure_result R R_refl).
Qed.

Lemma sanitize_document_steps {L : JsonLib float} (cassette : json) :
  stepsE R (sanitize_document cassette).
Proof.
  unfold sanitize_document.
  apply (stepsE_bindE R R_trans); [apply (stepsE_pure_result R R_refl)|].
  intro has. apply stepsE_if; [apply (stepsE_ok R R_refl)|].
  apply (stepsE_bindE R R_trans); [apply (stepsE_pure_result R R_refl)|].
  intro interactions.
  apply (stepsE_bindE R R_trans); [apply (stepsE_pure_result R R_refl)|].
  intro visited.
  apply (stepsE_bindE R R_trans).
  - apply (stepsE_for_eachE R R_refl R_trans). intros x _.
    unfold sanitize_interaction.
    apply (stepsE_bindE R R_trans); [apply sanitize_request_url_steps|].
    intro i1. apply sanitize_response_body_steps.
  - intro rewritten.
    destruct interactions;
      try apply (stepsE_ok R R_refl); apply (stepsE_pure_result R R_refl).
Qed.

End WalkSteps.

(* ================================================================== *)
(** * What a run keeps true of the dictionaries *)
(* ================================================================== *)

Lemma eqb_int_trans (a b c : intobj) :
  eqb_int a b = true -> eqb_int b c = true -> eqb_int a c = true.
Proof. unfold eqb_int. rewrite !Z.eqb_eq. congruence. Qed.

Lemma eqb_int_sym (a b : intobj) : eqb_int a b = eqb_int b a.
Proof. unfold eqb_int. apply Z.eqb_sym. Qed.

Lemma iget_eqb (m : idmap) (k i : intobj) :
  eqb_int k i = true -> iget m k = iget m i.
Proof.
  intro Hki. induction m as [|[k' v'] tl IH]; simpl; [reflexivity|].
  assert (Hsame : eqb_int k k' = eqb_int i k').
  { unfold eqb_int in *. apply Z.eqb_eq in Hki. now rewrite Hki. }
  rewrite Hsame, IH. reflexivity.
Qed.

Lemma iget_iset (m : idmap) (i k : intobj) (t : Z) :
  iget (iset m i t) k = if eqb_int k i then Some t else iget m k.
Proof.
  induction m as [|[k' v'] tl IH]; simpl.
  - destruct (eqb_int k i); reflexivity.
  - destruct (eqb_int i k') eqn:Ei; simpl.
    + destruct (eqb_int k k') eqn:Ek.
      * rewrite (eqb_int_trans k k' i Ek) by (now rewrite eqb_int_sym). reflexivity.
      * destruct (eqb_int k i) eqn:Eki; [|reflexivity].
        rewrite (eqb_int_trans k i k' Eki Ei) in Ek. discriminate.
    + destruct (eqb_int k k') eqn:Ek; [|exact IH].
      destruct (eqb_int k i) eqn:Eki; [|reflexivity].
      rewrite eqb_int_sym in Eki. rewrite (eqb_int_trans i k k' Eki Ek) in Ei.
      discriminate.
Qed.

Lemma iset_same (m : idmap) (i : intobj) (t : Z) :
  iget m i = Some t -> iset m i t = m.
Proof.
  induction m as [|[k' v'] tl IH]; simpl; [discriminate|].
  destruct (eqb_int i k').
  - intro H. injection H as ->. reflexivity.
  - intro H. now rewrite IH.
Qed.

Lemma lookup_or_register_keeps (m : idmap) (i k : intobj) (t s : Z) :
  iget m k = Some s -> iget (snd (lookup_or_register m i t)) k = Some s.
Proof.
  intro Hk. unfold lookup_or_register.
  destruct (iget m i) as [s'|] eqn:Ei; simpl; [exact Hk|].
  rewrite iget_iset. destruct (eqb_int k i) eqn:Eki; [|exact Hk].
  rewrite (iget_eqb m k i Eki), Ei in Hk. discriminate.
Qed.

Lemma iset_keys_positive (m : idmap) (i : intobj) (t : Z) :
  0 < int_val i ->
  forallb (fun kv => 0 <? int_val (fst kv)) m = true ->
  forallb (fun kv => 0 <? int_val (fst kv)) (iset m i t) = true.
Proof.
  intros Hi. induction m as [|[k' v'] tl IH]; simpl; intro Hall.
  - apply Z.ltb_lt in Hi. now rewrite Hi.
  - apply andb_true_iff in Hall as [Hk Htl].
    destruct (eqb_int i k'); simpl; rewrite Hk; [exact Htl | now apply IH].
Qed.

Lemma lookup_or_register_keys_positive (m : idmap) (i : intobj) (t : Z) :
  0 < int_val i ->
  forallb (fun kv => 0 <? int_val (fst kv)) m = true ->
  forallb (fun kv => 0 <? int_val (fst kv)) (snd (lookup_or_register m i t)) = true.
Proof.
  intros Hi Hall. unfold lookup_or_register.
  destruct (iget m i); simpl; [exact Hall | now apply iset_keys_positive].
Qed.

Section RunInvariant.
Context {float : Type}.
Notation json := (json float).

Lemma positive_int_pos (value : json) (i : intobj) :
  positive_int value = Some i -> 0 < int_val i.
Proof.
  unfold positive_int. destruct (as_int value) as [j|]; [|discriminate].
  destruct (0 <? int_val j) eqn:E; [|discriminate].
  intro H. injection H as <-. now apply Z.ltb_lt.
Qed.

Lemma org_hit_pos (key : string) (value : json) (i : intobj) :
  org_hit key value = Some i -> 0 < int_val i.
Proof.
  unfold org_hit. destruct (in_list key ORG_ID_FIELDS); [|discriminate].
  apply positive_int_pos.
Qed.

Lemma user_hit_pos (key : string) (value : json) (i : intobj) :
  user_hit key value = Some i -> 0 < int_val i.
Proof.
  unfold user_hit. destruct (org_hit key value); [discriminate|].
  destruct (in_list key USER_ID_FIELDS); [|discriminate].
  apply positive_int_pos.
Qed.

Lemma touch_user (key : string) (value : json) (st : State) :
  USER_ID_MAP (touch key value st)
  = match user_hit key value with
    | Some i => snd (lookup_or_register (USER_ID_MAP st) i TEST_USER_ID)
    | None => USER_ID_MAP st
    end.
Proof.
  unfold touch, sanitize_value, user_hit, org_hit.
  destruct value as [ | b | z | x | s | arr | items];
    try (destruct (in_list key ORG_ID_FIELDS); destruct (in_list key USER_ID_FIELDS);
         reflexivity);
    match goal with
    | |- context [positive_int ?v] => destruct (positive_int v) as [i|]
    end;
    destruct (in_list key ORG_ID_FIELDS); destruct (in_list key USER_ID_FIELDS);
    try reflexivity;
    try (destruct (lookup_or_register (ORG_ID_MAP st) i TEST_ORG_ID); reflexivity);
    try (destruct (lookup_or_register (USER_ID_MAP st) i TEST_USER_ID); reflexivity);
    destruct (in_list key EMAIL_FIELDS && str_contains "@" s); try reflexivity;
    destruct (in_list key NAME_FIELDS && negb (eqb_str s "")); reflexivity.
Qed.

Lemma sanitize_value_touch (obj : json) (key : string) (value : json) (st : State) :
  snd (sanitize_value obj key value st) = touch key value st.
Proof. reflexivity. Qed.

Lemma touch_keys_positive (key : string) (value : json) (st : State) :
  keys_positive st = true -> keys_positive (touch key value st) = true.
Proof.
  unfold keys_positive. intro H. apply andb_true_iff in H as [Ho Hu].
  rewrite touch_org, touch_user. apply andb_true_iff. split.
  - destruct (org_hit key value) as [i|] eqn:E; [|exact Ho].
    apply lookup_or_register_keys_positive; [eapply org_hit_pos; eauto | exact Ho].
  - destruct (user_hit key value) as [i|] eqn:E; [|exact Hu].
    apply lookup_or_register_keys_positive; [eapply user_hit_pos; eauto | exact Hu].
Qed.

Lemma touch_run_inv (key : string) (value : json) (st : State) :
  run_inv st = true -> run_inv (touch key value st) = true.
Proof.
  unfold run_inv. intro H. apply andb_true_iff in H as [Hok Hpos].
  apply andb_true_iff. split.
  - now destruct (sanitize_value_clean value key value st Hok) as [_ H].
  - now apply touch_keys_positive.
Qed.

Lemma touch_extends (key : string) (value : json) (st : State) :
  extends st (touch key value st).
Proof.
  intros k s. rewrite touch_org, touch_user. split; intro H.
  - destruct (org_hit key value); [now apply lookup_or_register_keeps | exact H].
  - destruct (user_hit key value); [now apply lookup_or_register_keeps | exact H].
Qed.

Lemma extends_refl (st : State) : extends st st.
Proof. intros k s. split; auto. Qed.

Lemma extends_trans (s1 s2 s3 : State) :
  extends s1 s2 -> extends s2 s3 -> extends s1 s3.
Proof.
  intros H12 H23 k s. destruct (H12 k s) as [Ho Hu]. destruct (H23 k s) as [Ho' Hu'].
  split; auto.
Qed.

(** ** The Discovery pass *)

Lemma register_matches_values (test : Z) (found : list Z) :
  forall m : idmap,
    forallb (fun kv => snd kv =? test) m = true ->
    forallb (fun kv => snd kv =? test) (register_matches test found m) = true.
Proof.
  unfold register_matches.
  induction found as [|id tl IH]; intros m Hm; simpl; [exact Hm|].
  apply IH. destruct (0 <? id); [now apply iset_all_test | exact Hm].
Qed.

Lemma register_matches_keys (test : Z) (found : list Z) :
  forall m : idmap,
    forallb (fun kv => 0 <? int_val (fst kv)) m = true ->
    forallb (fun kv => 0 <? int_val (fst kv)) (register_matches test found m) = true.
Proof.
  unfold register_matches.
  induction found as [|id tl IH]; intros m Hm; simpl; [exact Hm|].
  apply IH. destruct (0 <? id) eqn:E; [|exact Hm].
  apply iset_keys_positive; [simpl; now apply Z.ltb_lt | exact Hm].
Qed.

Lemma user_pass_run_inv (content : string) (fields : list string) :
  forall st : State,
    run_inv st = true ->
    run_inv (fold_left
               (fun st field =>
                  set_user (register_matches TEST_USER_ID (finditer field content)
                                             (USER_ID_MAP st)) st)
               fields st) = true.
Proof.
  induction fields as [|f tl IH]; intros st Hst; simpl; [exact Hst|].
  apply IH. unfold run_inv, map_ok, keys_positive in *. simpl.
  apply andb_true_iff in Hst as [Hok Hpos].
  apply andb_true_iff in Hok as [Ho Hu]. apply andb_true_iff in Hpos as [Hpo Hpu].
  rewrite Ho, Hpo, register_matches_values, register_matches_keys by assumption.
  reflexivity.
Qed.

Lemma org_step_run_inv (found : list Z) (st : State) :
  run_inv st = true ->
  run_inv (set_org (register_matches TEST_ORG_ID found (ORG_ID_MAP st)) st) = true.
Proof.
  intro Hst. unfold run_inv, map_ok, keys_positive in *. simpl.
  apply andb_true_iff in Hst as [Hok Hpos].
  apply andb_true_iff in Hok as [Ho Hu]. apply andb_true_iff in Hpos as [Hpo Hpu].
  rewrite Hu, Hpu, register_matches_values, register_matches_keys by assumption.
  reflexivity.
Qed.

Lemma find_ids_in_run_inv (content : string) (st : State) :
  run_inv st = true -> run_inv (find_ids_in content st) = true.
Proof.
  intro Hst. unfold find_ids_in. apply user_pass_run_inv.
  apply (org_step_run_inv (finditer "org" content)).
  now apply (org_step_run_inv (finditer "org_id" content)).
Qed.

(** ** The passes *)

Context {L : JsonLib float}.

Lemma on_ids_steps {A : Type} (R : State -> State -> Prop) (c : SE State A) :
  stepsE R c -> stepsE (on_state R) (on_ids c).
Proof.
  intros Hc w. unfold on_ids, on_state. specialize (Hc (ids w)).
  destruct (c (ids w)) as [r st]. exact Hc.
Qed.

Lemma sanitize_cassette_steps (R : State -> State -> Prop) (cassette_path : string) :
  (forall st, R st st) ->
  (forall s1 s2 s3, R s1 s2 -> R s2 s3 -> R s1 s3) ->
  (forall (obj : json) key value, stepsM R (sanitize_value obj key value)) ->
  stepsE (on_state R) (sanitize_cassette cassette_path).
Proof.
  intros Hrefl Htrans Hval.
  assert (Hr : forall w, on_state R w w) by (intro w; apply Hrefl).
  assert (Ht : forall w1 w2 w3, on_state R w1 w2 -> on_state R w2 w3 -> on_state R w1 w3)
    by (intros w1 w2 w3; apply Htrans).
  unfold sanitize_cassette.
  apply (stepsE_bindE _ Ht); [intro w; apply Hr|]. intro content.
  apply (stepsE_bindE _ Ht).
  { destruct (json_loads content); [apply (stepsE_ok _ Hr) | apply (stepsE_raise _ Hr)]. }
  intro cassette.
  apply (stepsE_bindE _ Ht).
  { apply on_ids_steps. now apply sanitize_document_steps. }
  intro cassette'. intro w. unfold on_state. simpl. apply Hrefl.
Qed.

(** X1.  The Rewrite pass never removes an entry from [ORG_ID_MAP] or
    [USER_ID_MAP] and never changes the substitute of one: whatever the
    fixture holds, and whether [sanitize_cassette] returns or raises, an
    identifier registered before is registered after, with the same
    substitute. *)
Theorem sanitize_cassette_keeps_entries (cassette_path : string) (w : World) :
  extends (ids w) (ids (snd (sanitize_cassette cassette_path w))).
Proof.
  apply (sanitize_cassette_steps extends cassette_path
           extends_refl extends_trans).
  intros obj key value st. rewrite sanitize_value_touch. apply touch_extends.
Qed.

Lemma find_org_ids_run_inv (cassette_path : string) :
  stepsE (on_state (fun st st' => run_inv st = true -> run_inv st' = true))
         (find_org_ids cassette_path).
Proof.
  intro w. unfold find_org_ids, bindE, read_file, on_ids, on_state.
  destruct (fs_read (files w) cassette_path) as [content|e]; simpl; [|auto].
  apply find_ids_in_run_inv.
Qed.

(** X2.  All along a run the two dictionaries hold only positive
    integers as keys and only the two test IDs as substitutes: if they
    do before [main], they do after it, whatever the files hold and
    whether the run completes or raises.  They do at the start, when
    both are empty. *)
Theorem main_keeps_dictionaries_in_order (cassette_files : list string) (w : World) :
  run_inv (ids w) = true ->
  run_inv (ids (snd (Sanitize.main cassette_files w))) = true.
Proof.
  set (R := fun st st' : State => run_inv st = true -> run_inv st' = true).
  assert (Hrefl : forall st, R st st) by (intros st H; exact H).
  assert (Htrans : forall s1 s2 s3, R s1 s2 -> R s2 s3 -> R s1 s3)
    by (intros s1 s2 s3 H12 H23 H; auto).
  assert (Hr : forall w, on_state R w w) by (intro w0; apply Hrefl).
  assert (Ht : forall w1 w2 w3, on_state R w1 w2 -> on_state R w2 w3 -> on_state R w1 w3)
    by (intros w1 w2 w3; apply Htrans).
  assert (Hmain : stepsE (on_state R) (Sanitize.main cassette_files)).
  { unfold Sanitize.main.
    apply (stepsE_bindE _ Ht).
    { apply (stepsE_for_eachE _ Hr Ht). intros p _. apply find_org_ids_run_inv. }
    intros _. apply (stepsE_bindE _ Ht); [|intros _; apply (stepsE_ok _ Hr)].
    apply (stepsE_for_eachE _ Hr Ht). intros p _.
    apply sanitize_cassette_steps; [exact Hrefl | exact Htrans|].
    intros obj key value st Hst. rewrite sanitize_value_touch.
    now apply touch_run_inv. }
  exact (Hmain w).
Qed.

End RunInvariant.

(* ================================================================== *)
(** * What the Discovery pass registers *)
(* ================================================================== *)

Lemma register_matches_keeps_test (test : Z) (found : list Z) :
  forall (m : idmap) (k : intobj),
    iget m k = Some test -> iget (register_matches test found m) k = Some test.
Proof.
  unfold register_matches.
  induction found as [|id tl IH]; intros m k Hk; simpl; [exact Hk|].
  apply IH. destruct (0 <? id); [|exact Hk].
  rewrite iget_iset. destruct (eqb_int k (IntObj id)); [reflexivity | exact Hk].
Qed.

Lemma register_matches_registers (test : Z) (found : list Z) (n : Z) :
  forall m : idmap,
    In n found -> 0 < n ->
    iget (register_matches test found m) (IntObj n) = Some test.
Proof.
  induction found as [|id tl IH]; intros m Hin Hn; [contradiction|].
  destruct Hin as [->|Hin].
  - unfold register_matches. simpl. apply Z.ltb_lt in Hn. rewrite Hn.
    apply (register_matches_keeps_test test tl).
    now rewrite iget_iset, eqb_int_refl.
  - unfold register_matches. simpl. now apply IH.
Qed.

Lemma register_matches_fixed (test : Z) (found : list Z) :
  forall m : idmap,
    (forall n, In n found -> 0 < n -> iget m (IntObj n) = Some test) ->
    register_matches test found m = m.
Proof.
  unfold register_matches.
  induction found as [|id tl IH]; intros m Hall; simpl; [reflexivity|].
  destruct (0 <? id) eqn:E.
  - rewrite iset_same by (apply Hall; [now left | now apply Z.ltb_lt]).
    apply IH. intros n Hn. apply Hall. now right.
  - apply IH. intros n Hn. apply Hall. now right.
Qed.

Lemma user_pass_org (content : string) (fields : list string) :
  forall st : State,
    ORG_ID_MAP (fold_left
                  (fun st field =>
                     set_user (register_matches TEST_USER_ID (finditer field content)
                                                (USER_ID_MAP st)) st)
                  fields st)
    = ORG_ID_MAP st.
Proof.
  induction fields as [|f tl IH]; intro st; simpl; [reflexivity|].
  now rewrite IH.
Qed.

Lemma user_pass_keeps (content : string) (fields : list string) :
  forall (st : State) (k : intobj),
    iget (USER_ID_MAP st) k = Some TEST_USER_ID ->
    iget (USER_ID_MAP
            (fold_left
               (fun st field =>
                  set_user (register_matches TEST_USER_ID (finditer field content)
                                             (USER_ID_MAP st)) st)
               fields st)) k
    = Some TEST_USER_ID.
Proof.
  induction fields as [|f tl IH]; intros st k Hk; simpl; [exact Hk|].
  apply IH. simpl. now apply register_matches_keeps_test.
Qed.

Lemma user_pass_registers (content : string) (fields : list string) (field : string) (n : Z) :
  forall st : State,
    In field fields -> In n (finditer field content) -> 0 < n ->
    iget (USER_ID_MAP
            (fold_left
               (fun st field =>
                  set_user (register_matches TEST_USER_ID (finditer field content)
                                             (USER_ID_MAP st)) st)
               fields st)) (IntObj n)
    = Some TEST_USER_ID.
Proof.
  induction fields as [|f tl IH]; intros st Hf Hn Hpos; [contradiction|].
  simpl. destruct Hf as [->|Hf].
  - apply user_pass_keeps. simpl. now apply register_matches_registers.
  - now apply IH.
Qed.

Lemma user_pass_fixed (content : string) (fields : list string) :
  forall st : State,
    (forall field n, In field fields -> In n (finditer field content) -> 0 < n ->
                     iget (USER_ID_MAP st) (IntObj n) = Some TEST_USER_ID) ->
    fold_left
      (fun st field =>
         set_user (register_matches TEST_USER_ID (finditer field content)
                                    (USER_ID_MAP st)) st)
      fields st
    = st.
Proof.
  induction fields as [|f tl IH]; intros st Hall; simpl; [reflexivity|].
  rewrite register_matches_fixed
    by (intros n Hn Hpos; apply (Hall f n); [now left | exact Hn | exact Hpos]).
  assert (Hst : set_user (USER_ID_MAP st) st = st) by (destruct st; reflexivity).
  rewrite Hst. apply IH. intros field n Hf. apply Hall. now right.
Qed.

Lemma find_ids_in_org_registered (content field : string) (n : Z) (st : State) :
  In field ORG_ID_FIELDS -> In n (finditer field content) -> 0 < n ->
  iget (ORG_ID_MAP (find_ids_in content st)) (IntObj n) = Some TEST_ORG_ID.
Proof.
  intros Hf Hn Hpos. unfold find_ids_in.
  rewrite user_pass_org. simpl ORG_ID_MAP.
  simpl in Hf. destruct Hf as [<-|[<-|[]]].
  - apply register_matches_keeps_test. now apply register_matches_registers.
  - now apply register_matches_registers.
Qed.

Lemma find_ids_in_user_registered (content field : string) (n : Z) (st : State) :
  In field USER_ID_FIELDS -> In n (finditer field content) -> 0 < n ->
  iget (USER_ID_MAP (find_ids_in content st)) (IntObj n) = Some TEST_USER_ID.
Proof.
  intros Hf Hn Hpos. unfold find_ids_in.
  now apply (user_pass_registers content USER_ID_FIELDS field).
Qed.

(** X3.  The Discovery pass registers every positive number the pattern
    finds: a match of an organization-ID field ends up in [ORG_ID_MAP]
    with the test organization ID, a match of a user-ID field in
    [USER_ID_MAP] with the test user ID, whatever the dictionaries held
    before. *)
Theorem discovery_registers_matches
        (content field : string) (n : Z) (st : State) :
  In n (finditer field content) ->
  0 < n ->
  (In field ORG_ID_FIELDS ->
   iget (ORG_ID_MAP (find_ids_in content st)) (IntObj n) = Some TEST_ORG_ID)
  /\ (In field USER_ID_FIELDS ->
      iget (USER_ID_MAP (find_ids_in content st)) (IntObj n) = Some TEST_USER_ID).
Proof.
  intros Hn Hpos. split; intro Hf.
  - now apply (find_ids_in_org_registered content field).
  - now apply (find_ids_in_user_registered content field).
Qed.

(** X4.  Discovery is idempotent: scanning the same text a second time
    leaves both dictionaries exactly as the first scan left them. *)
Theorem discovery_idempotent (content : string) (st : State) :
  find_ids_in content (find_ids_in content st) = find_ids_in content st.
Proof.
  set (st1 := find_ids_in content st).
  assert (Horg : forall field n, In field ORG_ID_FIELDS ->
                   In n (finditer field content) -> 0 < n ->
                   iget (ORG_ID_MAP st1) (IntObj n) = Some TEST_ORG_ID).
  { intros field n Hf Hn Hpos.
    now apply (find_ids_in_org_registered content field). }
  assert (Husr : forall field n, In field USER_ID_FIELDS ->
                   In n (finditer field content) -> 0 < n ->
                   iget (USER_ID_MAP st1) (IntObj n) = Some TEST_USER_ID).
  { intros field n Hf Hn Hpos.
    now apply (find_ids_in_user_registered content field). }
  assert (Hset : set_org (ORG_ID_MAP st1) st1 = st1) by (destruct st1; reflexivity).
  unfold find_ids_in at 1.
  rewrite (register_matches_fixed TEST_ORG_ID (finditer "org_id" content) (ORG_ID_MAP st1))
    by (intros n Hn Hpos; apply (Horg "org_id"); [now left | exact Hn | exact Hpos]).
  rewrite Hset.
  rewrite (register_matches_fixed TEST_ORG_ID (finditer "org" content) (ORG_ID_MAP st1))
    by (intros n Hn Hpos; apply (Horg "org"); [right; now left | exact Hn | exact Hpos]).
  rewrite Hset.
  apply user_pass_fixed. exact Husr.
Qed.

(* ================================================================== *)
(** * What a run does to the files *)
(* ================================================================== *)

Section Files.
Context {float : Type} {L : JsonLib float}.
Notation json := (json float).

Lemma fs_write_other (disk : FS) (path p content : string) :
  p <> path -> sget (fs_write disk path content) p = sget disk p.
Proof. intro Hne. unfold fs_write. now apply sget_sset_other. Qed.

Lemma sanitize_cassette_other_path (cassette_path p : string) (w : World) :
  p <> cassette_path ->
  sget (files (snd (sanitize_cassette cassette_path w))) p = sget (files w) p.
Proof.
  intro Hp.
  unfold sanitize_cassette, bindE, read_file, on_ids, write_file, ok, raise.
  destruct (fs_read (files w) cassette_path) as [content|e]; simpl; [|reflexivity].
  destruct (json_loads content) as [cassette|]; simpl; [|reflexivity].
  destruct (sanitize_document cassette (ids w)) as [[cassette'|e] st']; simpl;
    [now apply fs_write_other | reflexivity].
Qed.

(** X5.  [sanitize_cassette] writes last and writes one file: when it
    raises (the file is missing, its text is not JSON, or the rewrite
    of an interaction raises) no file has changed, and in every case a
    file at another path has the content it had. *)
Theorem sanitize_cassette_writes_last (cassette_path : string) (w : World) :
  (is_ok (fst (sanitize_cassette cassette_path w)) = false ->
   files (snd (sanitize_cassette cassette_path w)) = files w)
  /\ (forall p, p <> cassette_path ->
                sget (files (snd (sanitize_cassette cassette_path w))) p
                = sget (files w) p).
Proof.
  unfold sanitize_cassette, bindE, read_file, on_ids, write_file, ok, raise.
  destruct (fs_read (files w) cassette_path) as [content|e]; simpl;
    [|split; reflexivity].
  destruct (json_loads content) as [cassette|]; simpl; [|split; reflexivity].
  destruct (sanitize_document cassette (ids w)) as [[cassette'|e] st']; simpl.
  - split; [discriminate|]. intros p Hp. now apply fs_write_other.
  - split; reflexivity.
Qed.

Lemma find_org_ids_files (cassette_path : string) :
  stepsE (fun w w' : World => files w' = files w) (find_org_ids cassette_path).
Proof.
  intro w. unfold find_org_ids, bindE, read_file, on_ids.
  destruct (fs_read (files w) cassette_path); reflexivity.
Qed.

Lemma discovery_pass_files (cassette_files : list string) (w : World) :
  files (snd (for_eachE find_org_ids cassette_files w)) = files w.
Proof.
  apply (stepsE_for_eachE (fun w w' : World => files w' = files w)).
  - reflexivity.
  - intros w1 w2 w3 H12 H23. congruence.
  - intros p _. apply find_org_ids_files.
Qed.

Lemma discovery_pass_missing (cassette_files : list string) (p : string) :
  forall w : World,
    In p cassette_files -> sget (files w) p = None ->
    exists q, fst (for_eachE find_org_ids cassette_files w) = Err (FileNotFoundError q)
              /\ In q cassette_files /\ sget (files w) q = None.
Proof.
  induction cassette_files as [|x tl IH]; intros w Hin Hp; [contradiction|].
  simpl. unfold bindE at 1.
  pose proof (find_org_ids_files x w) as Hfiles.
  destruct (find_org_ids x w) as [[u|e] w1] eqn:Ex; simpl in Hfiles.
  - assert (Hx : sget (files w) x <> None).
    { intro Hnone. unfold find_org_ids, bindE, read_file, fs_read in Ex.
      rewrite Hnone in Ex. discriminate. }
    destruct Hin as [->|Hin]; [contradiction|].
    destruct (IH w1 Hin) as (q & Hq & Hinq & Hnone); [now rewrite Hfiles|].
    exists q. unfold bindE. destruct (for_eachE find_org_ids tl w1) as [[r|e] w2].
    + discriminate Hq.
    + simpl in Hq. simpl. split; [exact Hq|]. split; [now right|].
      now rewrite <- Hfiles.
  - unfold find_org_ids, bindE, read_file, fs_read, on_ids in Ex.
    destruct (sget (files w) x) as [content|] eqn:Eread.
    + discriminate Ex.
    + injection Ex as <- <-. exists x. simpl. split; [reflexivity|].
      split; [now left | exact Eread].
Qed.

(** X6.  Discovery comes before any rewrite: when one of the files
    handed to [main] does not exist, [main] raises [FileNotFoundError]
    for a missing file of the list and no file at all has been
    changed. *)
Theorem main_fails_in_discovery_on_missing_file
        (cassette_files : list string) (p : string) (w : World) :
  In p cassette_files ->
  sget (files w) p = None ->
  exists q,
    fst (Sanitize.main cassette_files w) = Err (FileNotFoundError q)
    /\ In q cassette_files
    /\ sget (files w) q = None
    /\ files (snd (Sanitize.main cassette_files w)) = files w.
Proof.
  intros Hin Hp.
  destruct (discovery_pass_missing cassette_files p w Hin Hp) as (q & Hq & Hinq & Hnone).
  pose proof (discovery_pass_files cassette_files w) as Hfiles.
  exists q. unfold Sanitize.main, bindE.
  destruct (for_eachE find_org_ids cassette_files w) as [[r|e] w1]; simpl in *.
  - discriminate Hq.
  - injection Hq as ->.
    split; [reflexivity|]. split; [exact Hinq|]. split; [exact Hnone | exact Hfiles].
Qed.

(** X7.  [main] touches no file outside the list it is given: whether
    it completes or raises, such a file has the content it had. *)
Theorem main_leaves_other_files
        (cassette_files : list string) (p : string) (w : World) :
  ~ In p cassette_files ->
  sget (files (snd (Sanitize.main cassette_files w))) p = sget (files w) p.
Proof.
  intro Hnot.
  set (R := fun w w' : World => sget (files w') p = sget (files w) p).
  assert (Hr : forall w0, R w0 w0) by reflexivity.
  assert (Ht : forall w1 w2 w3, R w1 w2 -> R w2 w3 -> R w1 w3)
    by (unfold R; intros w1 w2 w3 H12 H23; congruence).
  assert (Hmain : stepsE R (Sanitize.main cassette_files)).
  { unfold Sanitize.main.
    apply (stepsE_bindE _ Ht).
    { apply (stepsE_for_eachE _ Hr Ht). intros x _ w0. unfold R.
      now rewrite (find_org_ids_files x w0). }
    intros _. apply (stepsE_bindE _ Ht); [|intros _; apply (stepsE_ok _ Hr)].
    apply (stepsE_for_eachE _ Hr Ht). intros x Hx w0.
    apply (sanitize_cassette_other_path x p w0).
    intros ->. contradiction. }
  exact (Hmain w).
Qed.

End Files.

(* ================================================================== *)
(** * Edges of the rewrite of one interaction *)
(* ================================================================== *)

Lemma str_replace_absent (old new s : string) :
  str_contains old s = false -> str_replace s old new = s.
Proof.
  unfold str_replace. induction s as [|c tl IH]; simpl; intro H.
  - rewrite orb_false_r in H. destruct old; [discriminate H | reflexivity].
  - apply orb_false_iff in H as [Hpre Htl].
    simpl in Hpre. rewrite Hpre. now rewrite IH.
Qed.

Section InteractionEdges.
Context {float : Type} {L : JsonLib float}.
Notation json := (json float).

Lemma replace_org_id_absent (real_id : intobj) (u : string) :
  str_contains ("/org/" ++ str_of_int real_id ++ "/")%string u = false ->
  str_contains ("org_id=" ++ str_of_int real_id)%string u = false ->
  replace_org_id real_id (JStr u : json) = Ok (JStr u).
Proof.
  intros Hpath Hquery. unfold replace_org_id.
  rewrite (str_replace_absent _ _ u Hpath).
  now rewrite (str_replace_absent _ _ u Hquery).
Qed.

Lemma fold_replace_absent (keys : list intobj) (u : string) (st : State) :
  (forall k, In k keys ->
             str_contains ("/org/" ++ str_of_int k ++ "/")%string u = false
             /\ str_contains ("org_id=" ++ str_of_int k)%string u = false) ->
  foldE (fun real_id url (w : State) => (replace_org_id real_id url, w)) keys
        (JStr u : json) st
  = (Ok (JStr u), st).
Proof.
  induction keys as [|k tl IH]; intro Hall; cbn [foldE]; [reflexivity|].
  unfold bindE.
  destruct (Hall k (or_introl eq_refl)) as [Hpath Hquery].
  rewrite (replace_org_id_absent k u Hpath Hquery).
  apply IH. intros k' Hk'. apply Hall. now right.
Qed.

(** X8.  A request URL in which no registered organization ID occurs, in
    neither of the two forms the loop looks for, comes out of the URL
    step as it went in, and so does the whole interaction; the
    dictionaries are not touched.  In particular nothing is rewritten
    while [ORG_ID_MAP] is empty. *)
Theorem url_without_known_id_unchanged (interaction : json) (u : string) (st : State) :
  field interaction "request" "url" = Some (JStr u) ->
  (forall k, In k (dict_keys (ORG_ID_MAP st)) ->
             str_contains ("/org/" ++ str_of_int k ++ "/")%string u = false
             /\ str_contains ("org_id=" ++ str_of_int k)%string u = false) ->
  sanitize_request_url interaction st = (Ok interaction, st).
Proof.
  intros Hurl Hall. unfold field in Hurl.
  destruct interaction as [ | b | z | x | s | arr | items]; try discriminate Hurl.
  destruct (sget items "request") as [request|] eqn:Ereq; [|discriminate].
  destruct request as [ | b | z | x | s | arr | ritems]; try discriminate Hurl.
  unfold sanitize_request_url, bindE, pure_result, ok.
  unfold py_in at 1. rewrite (shas_sget items "request" _ Ereq).
  cbv beta iota delta [negb].
  unfold py_getitem at 1. rewrite Ereq. cbv beta iota.
  unfold py_in. rewrite (shas_sget ritems "url" _ Hurl).
  cbv beta iota delta [negb].
  unfold py_getitem. rewrite Hurl. cbv beta iota.
  rewrite (fold_replace_absent (dict_keys (ORG_ID_MAP st)) u st Hall).
  cbv beta iota. unfold py_setitem.
  rewrite (sset_same ritems "url" _ Hurl).
  rewrite (sset_same items "request" _ Ereq). reflexivity.
Qed.

(** X9.  The guard [if body:] and what lies behind it: a response body
    that is falsy (null, the empty string, zero, an empty list or
    mapping) is skipped, so the interaction and the dictionaries stay as
    they are; a body that is truthy and not a string reaches
    [json.loads] and makes the rewrite raise [TypeError], with the
    dictionaries as they were. *)
Theorem body_guard (interaction body : json) (st : State) :
  response_body interaction = Some body ->
  (py_truth body = false ->
   sanitize_response_body interaction st = (Ok interaction, st))
  /\ (py_truth body = true ->
      (forall s, body <> JStr s) ->
      sanitize_response_body interaction st = (Err TypeError, st)).
Proof.
  intro Hbody. unfold response_body in Hbody.
  destruct interaction as [ | b | z | x | s | arr | items]; try discriminate Hbody.
  destruct (sget items "response") as [response|] eqn:Eresp; [|discriminate].
  destruct response as [ | b | z | x | s | arr | ritems]; try discriminate Hbody.
  assert (Hrun : sanitize_response_body (JDict items) st
                 = if negb (py_truth body) then (Ok (JDict items), st)
                   else match
                          match body with
                          | JStr body_str => total (sanitize_body_string body_str) st
                          | _ => (Err TypeError, st)
                          end
                        with
                        | (Ok body', st') =>
                            (Ok (JDict (sset items "response"
                                          (JDict (sset ritems "body" (JStr body'))))), st')
                        | (Err e, st') => (Err e, st')
                        end).
  { unfold sanitize_response_body, bindE, pure_result, ok, raise.
    unfold py_in at 1. rewrite (shas_sget items "response" _ Eresp).
    cbv beta iota delta [negb].
    unfold py_getitem at 1. rewrite Eresp. cbv beta iota.
    unfold py_in. rewrite (shas_sget ritems "body" _ Hbody).
    cbv beta iota delta [negb].
    unfold py_getitem. rewrite Hbody. cbv beta iota.
    destruct (py_truth body); cbv beta iota; [|reflexivity].
    destruct body; reflexivity. }
  rewrite Hrun. split.
  - intros ->. reflexivity.
  - intros -> Hnot. simpl negb. cbv iota.
    destruct body; try reflexivity. exfalso. now apply (Hnot s).
Qed.

End InteractionEdges.

(* ================================================================== *)
(** * The fields of a rewritten body *)
(* ================================================================== *)

Section BodyFields.
Context {float : Type} {L : JsonLib float}.
Notation json := (json float).

(** The rewritten body holds [clean_value key x] where the body held the
    scalar [x] under [key]. *)
Lemma body_field_clean (body_str : string) (body_obj : json) (path : list step)
      (key : string) (x : json) (st : State) :
  json_loads body_str = Some body_obj ->
  wf_json body_obj = true ->
  map_ok st = true ->
  lookup_path (path ++ [Key key]) body_obj = Some x ->
  is_scalar x = true ->
  sanitize_body_string body_str st
  = (json_dumps_compact (clean_item body_obj), touch_all (fields_item body_obj) st)
  /\ lookup_path (path ++ [Key key]) (clean_item body_obj) = Some (clean_value key x)
  /\ In (key, x) (fields_item body_obj)
  /\ map_ok (touch_all (fields_item body_obj) st) = true.
Proof.
  intros Hload Hwf Hok Hlook Hx.
  destruct (sanitize_loaded_clean body_obj st Hwf Hok) as [Hrun Hok'].
  split; [|split; [|split]].
  - rewrite (sanitize_body_string_loaded body_str body_obj st Hload), Hrun.
    reflexivity.
  - now apply lookup_clean_field.
  - now apply (lookup_in_fields path).
  - exact Hok'.
Qed.

Lemma touch_user_mono (key : string) (value : json) (st : State) (k : intobj) :
  ihas (USER_ID_MAP st) k = true ->
  ihas (USER_ID_MAP (touch key value st)) k = true.
Proof.
  intro H. rewrite touch_user. destruct (user_hit key value) as [i|]; [|exact H].
  rewrite lookup_or_register_has, H. reflexivity.
Qed.

Lemma touch_all_user_mono (fields : list (string * json)) :
  forall (st : State) (k : intobj),
    ihas (USER_ID_MAP st) k = true ->
    ihas (USER_ID_MAP (touch_all fields st)) k = true.
Proof.
  induction fields as [|[key x] tl IH]; intros st k H; simpl; [exact H|].
  apply IH. now apply touch_user_mono.
Qed.

Lemma touch_all_registers_user (fields : list (string * json)) :
  forall (st : State) (key : string) (x : json) (i : intobj),
    In (key, x) fields ->
    user_hit key x = Some i ->
    ihas (USER_ID_MAP (touch_all fields st)) i = true.
Proof.
  induction fields as [|[key' x'] tl IH]; intros st key x i Hin Hhit; [contradiction|].
  simpl. destruct Hin as [Heq|Hin].
  - injection Heq as -> ->. apply touch_all_user_mono.
    rewrite touch_user, Hhit, lookup_or_register_has, eqb_int_refl.
    apply orb_true_r.
  - eapply IH; eauto.
Qed.

Lemma user_field_not_org (key : string) :
  In key USER_ID_FIELDS ->
  in_list key ORG_ID_FIELDS = false /\ in_list key USER_ID_FIELDS = true.
Proof.
  intro H. simpl in H.
  repeat (destruct H as [<-|H]; [split; reflexivity|]). contradiction.
Qed.

(** X10.  User IDs in a response body: for every key-value pair
    reachable in a body that parses as JSON, if the key is one of the
    user-ID field names and the value a positive integer, the rewritten
    body holds the test user ID at that place, and the real value is
    registered in [USER_ID_MAP] with it. *)
Theorem rewrite_replaces_user_ids_in_body
        (body_str : string) (body_obj : json) (path : list step)
        (key : string) (z : Z) (st : State) :
  json_loads body_str = Some body_obj ->
  wf_json body_obj = true ->
  map_ok st = true ->
  In key USER_ID_FIELDS ->
  0 < z ->
  lookup_path (path ++ [Key key]) body_obj = Some (JInt z) ->
  exists (out : json) (st' : State),
    sanitize_body_string body_str st = (json_dumps_compact out, st')
    /\ lookup_path (path ++ [Key key]) out = Some (JInt TEST_USER_ID)
    /\ iget (USER_ID_MAP st') (IntObj z) = Some TEST_USER_ID
    /\ map_ok st' = true.
Proof.
  intros Hload Hwf Hok Hkey Hz Hlook.
  destruct (body_field_clean body_str body_obj path key (JInt z) st
              Hload Hwf Hok Hlook eq_refl) as (Hrun & Hout & Hin & Hok').
  destruct (user_field_not_org key Hkey) as [Hno Hyes].
  assert (Hpos : positive_int (JInt z : json) = Some (IntObj z)).
  { unfold positive_int. simpl. apply Z.ltb_lt in Hz. now rewrite Hz. }
  exists (clean_item body_obj), (touch_all (fields_item body_obj) st).
  split; [exact Hrun|]. split; [|split; [|exact Hok']].
  - rewrite Hout. unfold clean_value. now rewrite Hno, Hyes, Hpos.
  - assert (Hhas : ihas (USER_ID_MAP (touch_all (fields_item body_obj) st)) (IntObj z)
                   = true).
    { apply (touch_all_registers_user _ st key (JInt z)); [exact Hin|].
      unfold user_hit, org_hit. now rewrite Hno, Hyes, Hpos. }
    apply ihas_iget in Hhas as [s Hs]. rewrite Hs. f_equal.
    unfold map_ok in Hok'. apply andb_true_iff in Hok' as [_ Husr].
    eapply iget_all_test; eauto.
Qed.

(** X11.  Emails in a response body: a string stored under [email]
    anywhere in a body that parses as JSON comes out as the placeholder
    address when it contains an at sign, and as it is when it contains
    none. *)
Theorem rewrite_replaces_emails_in_body
        (body_str : string) (body_obj : json) (path : list step)
        (s : string) (st : State) :
  json_loads body_str = Some body_obj ->
  wf_json body_obj = true ->
  map_ok st = true ->
  lookup_path (path ++ [Key "email"]) body_obj = Some (JStr s) ->
  exists (out : json) (st' : State),
    sanitize_body_string body_str st = (json_dumps_compact out, st')
    /\ lookup_path (path ++ [Key "email"]) out
       = Some (JStr (if str_contains "@" s then "test@example.com" else s)).
Proof.
  intros Hload Hwf Hok Hlook.
  destruct (body_field_clean body_str body_obj path "email" (JStr s) st
              Hload Hwf Hok Hlook eq_refl) as (Hrun & Hout & _ & _).
  exists (clean_item body_obj), (touch_all (fields_item body_obj) st).
  split; [exact Hrun|]. rewrite Hout, clean_value_str. f_equal.
  change (in_list "email" EMAIL_FIELDS) with true.
  change (in_list "email" NAME_FIELDS) with false.
  cbn [andb]. destruct (str_contains "@" s); reflexivity.
Qed.

(** X12.  Names in a response body: a string stored under one of the
    name fields anywhere in a body that parses as JSON comes out as the
    placeholder of that field when it is not empty, and stays empty when
    it is.  Every name field has a placeholder of its own in
    [TEST_NAMES], so the fallback ['Test Value'] is never written. *)
Theorem rewrite_replaces_names_in_body
        (body_str : string) (body_obj : json) (path : list step)
        (key s : string) (st : State) :
  json_loads body_str = Some body_obj ->
  wf_json body_obj = true ->
  map_ok st = true ->
  In key NAME_FIELDS ->
  lookup_path (path ++ [Key key]) body_obj = Some (JStr s) ->
  exists (out : json) (st' : State) (name : string),
    sanitize_body_string body_str st = (json_dumps_compact out, st')
    /\ sget TEST_NAMES key = Some name
    /\ lookup_path (path ++ [Key key]) out
       = Some (JStr (if eqb_str s "" then s else name)).
Proof.
  intros Hload Hwf Hok Hkey Hlook.
  destruct (body_field_clean body_str body_obj path key (JStr s) st
              Hload Hwf Hok Hlook eq_refl) as (Hrun & Hout & _ & _).
  exists (clean_item body_obj), (touch_all (fields_item body_obj) st).
  rewrite Hout, clean_value_str. simpl in Hkey.
  repeat (destruct Hkey as [<-|Hkey];
          [eexists; split; [exact Hrun|]; split; [reflexivity|];
           cbn [in_list eqb_str String.eqb Ascii.eqb Bool.eqb orb andb];
           destruct (eqb_str s ""); reflexivity|]).
  contradiction.
Qed.

(** X13.  What the walk leaves alone: a scalar stored under a key that
    is none of the recognized field names, and a null under any key,
    stand unchanged at their place in the rewritten body. *)
Theorem rewrite_leaves_other_fields
        (body_str : string) (body_obj : json) (path : list step)
        (key : string) (x : json) (st : State) :
  json_loads body_str = Some body_obj ->
  wf_json body_obj = true ->
  map_ok st = true ->
  lookup_path (path ++ [Key key]) body_obj = Some x ->
  is_scalar x = true ->
  in_list key (ORG_ID_FIELDS ++ USER_ID_FIELDS ++ EMAIL_FIELDS ++ NAME_FIELDS) = false
  \/ x = JNull ->
  exists (out : json) (st' : State),
    sanitize_body_string body_str st = (json_dumps_compact out, st')
    /\ lookup_path (path ++ [Key key]) out = Some x.
Proof.
  intros Hload Hwf Hok Hlook Hx Hcase.
  destruct (body_field_clean body_str body_obj path key x st
              Hload Hwf Hok Hlook Hx) as (Hrun & Hout & _ & _).
  exists (clean_item body_obj), (touch_all (fields_item body_obj) st).
  split; [exact Hrun|]. rewrite Hout. f_equal.
  destruct Hcase as [Hkey| ->]; [|reflexivity].
  rewrite !in_list_app in Hkey.
  apply orb_false_iff in Hkey as [Ho Hkey].
  apply orb_false_iff in Hkey as [Hu Hkey].
  apply orb_false_iff in Hkey as [He Hn].
  unfold clean_value. rewrite Ho, Hu, He, Hn.
  destruct x; reflexivity.
Qed.

(** A scalar element of a list is found unchanged at the same place in
    the cleaned document. *)
Lemma lookup_clean_elem (path : list step) :
  forall (v : json) (n : nat) (x : json),
    lookup_path (path ++ [Idx n]) v = Some x ->
    is_scalar x = true ->
    lookup_path (path ++ [Idx n]) (clean_item v) = Some x.
Proof.
  induction path as [|s rest IH]; intros v n x Hlook Hx.
  - simpl in Hlook. destruct v; try discriminate Hlook.
    destruct (nth_error arr n) as [c|] eqn:E; [|discriminate].
    injection Hlook as ->.
    rewrite clean_list_items. simpl. rewrite nth_error_map, E. simpl.
    destruct x; try discriminate Hx; reflexivity.
  - destruct s as [k|m]; simpl in Hlook.
    + destruct v; try discriminate Hlook.
      destruct (sget items k) as [c|] eqn:E; [|discriminate].
      rewrite clean_dict_items.
      change (lookup_path ((Key k :: rest) ++ [Idx n]) (JDict ?d))
        with (match sget d k with
              | Some child => lookup_path (rest ++ [Idx n]) child
              | None => None
              end).
      rewrite (sget_map _ clean_entry items k), E.
      rewrite clean_entry_container
        by (eapply lookup_nonempty_container; exact Hlook).
      now apply IH.
    + destruct v; try discriminate Hlook.
      destruct (nth_error arr m) as [c|] eqn:E; [|discriminate].
      rewrite clean_list_items.
      change (lookup_path ((Idx m :: rest) ++ [Idx n]) (JList ?l))
        with (match nth_error l m with
              | Some child => lookup_path (rest ++ [Idx n]) child
              | None => None
              end).
      rewrite nth_error_map, E. simpl.
      now apply IH.
Qed.

(** X14.  The elements of a list are rewritten only when they are lists
    or mappings themselves: a scalar element stands unchanged at its
    place in the rewritten body, whatever the key the list is stored
    under, an ID field name included. *)
Theorem rewrite_leaves_list_elements
        (body_str : string) (body_obj : json) (path : list step)
        (n : nat) (x : json) (st : State) :
  json_loads body_str = Some body_obj ->
  wf_json body_obj = true ->
  map_ok st = true ->
  lookup_path (path ++ [Idx n]) body_obj = Some x ->
  is_scalar x = true ->
  exists (out : json) (st' : State),
    sanitize_body_string body_str st = (json_dumps_compact out, st')
    /\ lookup_path (path ++ [Idx n]) out = Some x.
Proof.
  intros Hload Hwf Hok Hlook Hx.
  destruct (sanitize_loaded_clean body_obj st Hwf Hok) as [Hrun _].
  exists (clean_item body_obj), (touch_all (fields_item body_obj) st).
  split.
  - rewrite (sanitize_body_string_loaded body_str body_obj st Hload), Hrun.
    reflexivity.
  - now apply lookup_clean_elem.
Qed.

End BodyFields.

(* ================================================================== *)
(** * The converter, file by file *)
(* ================================================================== *)

Lemma for_eachR_Forall2 {A B : Type} (f : A -> result B) (l : list A) :
  forall l', for_eachR f l = Ok l' -> Forall2 (fun x y => f x = Ok y) l l'.
Proof.
  induction l as [|x tl IH]; intros l' H; simpl in H.
  - injection H as <-. constructor.
  - destruct (f x) as [b|e] eqn:Ex; [|discriminate]. simpl in H.
    destruct (for_eachR f tl) as [bs|e]; [|discriminate]. simpl in H.
    injection H as <-. constructor; [exact Ex | now apply IH].
Qed.

Lemma for_eachE_app_fail {W A B : Type} (g : A -> SE W B) (pre : list A) :
  forall (x : A) (rest : list A) (w w1 w2 : W) (rs : list B) (e : exn),
    for_eachE g pre w = (Ok rs, w1) ->
    g x w1 = (Err e, w2) ->
    for_eachE g (pre ++ x :: rest) w = (Err e, w2).
Proof.
  induction pre as [|y tl IH]; intros x rest w w1 w2 rs e Hpre Hx; simpl in *.
  - unfold ok in Hpre. injection Hpre as <- <-. unfold bindE. now rewrite Hx.
  - unfold bindE in *. destruct (g y w) as [[b|e'] w'] eqn:Ey; [|discriminate].
    destruct (for_eachE g tl w') as [[bs|e'] w''] eqn:Etl; [|discriminate].
    unfold ok in Hpre. injection Hpre as <- <-.
    now rewrite (IH x rest w' w'' w2 bs e Etl Hx).
Qed.

Section ConverterFiles.
Context {float : Type} {L : JsonLib float}.
Notation json := (json float).
Variable yaml_dump : json -> string.

(** X15.  The converter keeps the interactions in order and in number:
    when a document is converted, the converted interactions are, one by
    one and in the order of the document, the conversions of its
    interactions; none is dropped, added or moved. *)
Theorem convert_document_pointwise (json_data out : json) :
  convert_document json_data = Ok out ->
  exists (interactions : json) (visited converted : list json),
    py_getitem json_data "interactions" = Ok interactions
    /\ py_iter interactions = Ok visited
    /\ out = JDict [("interactions", JList converted)]
    /\ Forall2 (fun i o => convert_interaction i = Ok o) visited converted
    /\ List.length converted = List.length visited.
Proof.
  unfold convert_document, bindR. intro H.
  destruct (py_getitem json_data "interactions") as [interactions|e]; [|discriminate].
  destruct (py_iter interactions) as [visited|e] eqn:Eiter; [|discriminate].
  destruct (for_eachR convert_interaction visited) as [converted|e] eqn:E;
    [|discriminate].
  injection H as <-. exists interactions, visited, converted.
  pose proof (for_eachR_Forall2 convert_interaction visited converted E) as Hall.
  split; [reflexivity|]. split; [exact Eiter|]. split; [reflexivity|].
  split; [exact Hall|].
  symmetry. eapply Forall2_length; eauto.
Qed.

(** X16.  What a conversion passes through unchanged: the method of the
    request, its URL (as [uri]), its body when it has one, and the body
    of the response, which is found under the key [string]. *)
Theorem convert_passes_fields_through
        (i : json) (req_headers resp_headers : list (string * json))
        (method url body code : json) :
  wf_json i = true ->
  field i "request" "headers" = Some (JDict req_headers) ->
  field i "request" "method" = Some method ->
  field i "request" "url" = Some url ->
  field i "response" "body" = Some body ->
  field i "response" "status_code" = Some code ->
  field i "response" "headers" = Some (JDict resp_headers) ->
  exists o : json,
    convert_interaction i = Ok o
    /\ field o "request" "method" = Some method
    /\ field o "request" "uri" = Some url
    /\ field o "response" "body" = Some (JDict [("string", body)])
    /\ (forall b, field i "request" "body" = Some b ->
                  field o "request" "body" = Some b).
Proof.
  intros Hwf Hrh Hm Hu Hb Hc Hph.
  eexists. split.
  - apply (convert_interaction_complete i req_headers resp_headers method url body code);
      assumption.
  - split; [reflexivity|]. split; [reflexivity|]. split; [reflexivity|].
    intros b Hbody. rewrite Hbody. reflexivity.
Qed.

Lemma convert_cassette_error (input_file output_file : string) (disk disk' : FS)
      (e : exn) :
  convert_cassette yaml_dump input_file output_file disk = (Err e, disk') ->
  disk' = disk.
Proof.
  unfold convert_cassette, bindE, pure_result, ok, raise.
  destruct (fs_read disk input_file) as [content|e1]; [|now intros [= _ <-]].
  destruct (json_loads content) as [json_data|]; [|now intros [= _ <-]].
  destruct (convert_document json_data) as [out|e1]; [discriminate|].
  now intros [= _ <-].
Qed.

(** X17.  [convert_cassette] writes last and writes one file.  Whatever
    makes it raise (a missing input file, text that is not JSON, a
    document without interactions, an interaction that cannot be
    converted), the file system is the one before the call; when it
    returns, the file system differs from that one by the output file
    alone, which holds the dump of the converted document. *)
Theorem convert_cassette_writes_last (input_file output_file : string) (disk : FS) :
  (is_ok (fst (convert_cassette yaml_dump input_file output_file disk)) = false ->
   snd (convert_cassette yaml_dump input_file output_file disk) = disk)
  /\ (is_ok (fst (convert_cassette yaml_dump input_file output_file disk)) = true ->
      exists (content : string) (json_data out : json),
        fs_read disk input_file = Ok content
        /\ json_loads content = Some json_data
        /\ convert_document json_data = Ok out
        /\ snd (convert_cassette yaml_dump input_file output_file disk)
           = fs_write disk output_file (yaml_dump out)).
Proof.
  unfold convert_cassette, bindE, pure_result, ok, raise.
  destruct (fs_read disk input_file) as [content|e1]; simpl;
    [|split; [reflexivity | discriminate]].
  destruct (json_loads content) as [json_data|] eqn:Eload; simpl;
    [|split; [reflexivity | discriminate]].
  destruct (convert_document json_data) as [out|e1] eqn:Edoc; simpl.
  - split; [discriminate|]. intros _. exists content, json_data, out.
    repeat split; assumption.
  - split; [reflexivity | discriminate].
Qed.

(** X18.  [main] of the converter stops at the first file it cannot
    convert: the files before it have been converted in place, the file
    itself and every file after it are as they were, and [main] raises
    what the conversion of that file raised. *)
Theorem convert_main_stops_at_first_failure
        (pre rest : list string) (input_file : string) (disk done : FS) (e : exn) :
  Convert.main yaml_dump pre disk = (Ok tt, done) ->
  fst (convert_cassette yaml_dump input_file input_file done) = Err e ->
  Convert.main yaml_dump (pre ++ input_file :: rest) disk = (Err e, done).
Proof.
  intros Hpre Hfail. unfold Convert.main, bindE in *.
  destruct (for_eachE (fun f => convert_cassette yaml_dump f f) pre disk)
    as [[rs|e1] d1] eqn:Epre; [|discriminate].
  unfold ok in Hpre. injection Hpre as <-.
  destruct (convert_cassette yaml_dump input_file input_file d1) as [r d2] eqn:Ex.
  simpl in Hfail. subst r.
  pose proof (convert_cassette_error input_file input_file d1 d2 e Ex) as ->.
  now rewrite (for_eachE_app_fail (fun f => convert_cassette yaml_dump f f)
                 pre input_file rest disk d1 d1 rs e Epre Ex).
Qed.

End ConverterFiles.

(* ================================================================== *)
(** * What the Rewrite pass leaves of a fixture *)
(* ================================================================== *)

Lemma for_eachE_Forall2 {W A B : Type} (f : A -> SE W B) (P : A -> B -> Prop)
      (l : list A) :
  (forall x w y w', f x w = (Ok y, w') -> P x y) ->
  forall w l' w', for_eachE f l w = (Ok l', w') -> Forall2 P l l'.
Proof.
  intro Hf. induction l as [|x tl IH]; intros w l' w' H; simpl in H.
  - unfold ok in H. injection H as <- _. constructor.
  - unfold bindE in H. destruct (f x w) as [[y|e] w1] eqn:Ex; [|discriminate].
    destruct (for_eachE f tl w1) as [[ys|e] w2] eqn:Etl; [|discriminate].
    unfold ok in H. injection H as <- _.
    constructor; [eapply Hf; eauto | eapply IH; eauto].
Qed.

Section Untouched.
Context {float : Type} {L : JsonLib float}.
Notation json := (json float).

(** X20.  The rewrite of an interaction changes nothing of it but the
    URL of its request and the body of its response: it comes out with
    the same keys in the same order, the same value under every other
    key, and the same other fields in its request and in its response;
    a field of the interaction that holds an identifier is among what
    stays. *)
Theorem rewrite_touches_url_and_body_only
        (interaction i' : json) (st st' : State) :
  sanitize_interaction interaction st = (Ok i', st') ->
  same_but_url_and_body interaction i'.
Proof.
  unfold sanitize_interaction, bindE.
  destruct (sanitize_request_url interaction st) as [[i1|e] st1] eqn:Eurl;
    [|discriminate].
  intro Hbody.
  apply (same_but_trans interaction i1 i').
  - exact (sanitize_request_url_same_but interaction i1 st st1 Eurl).
  - exact (sanitize_response_body_same_but i1 i' st1 st' Hbody).
Qed.

(** X21.  The Rewrite pass keeps the fixture around its interactions:
    when the document is a mapping whose [interactions] are a list, the
    rewritten document has the same keys in the same order and the same
    value under every key but [interactions], and its interactions are
    as many, in the same order, each one the interaction it was but for
    its URL and its body. *)
Theorem rewrite_keeps_fixture_structure
        (cassette cassette' : json) (interactions : list json) (st st' : State) :
  py_getitem cassette "interactions" = Ok (JList interactions) ->
  sanitize_document cassette st = (Ok cassette', st') ->
  keys_of cassette' = keys_of cassette
  /\ (forall k, k <> "interactions" -> py_getitem cassette' k = py_getitem cassette k)
  /\ exists rewritten : list json,
       py_getitem cassette' "interactions" = Ok (JList rewritten)
       /\ Forall2 same_but_url_and_body interactions rewritten.
Proof.
  intros Hget. unfold py_getitem in Hget.
  destruct cassette as [ | b | z | x | s | arr | items]; try discriminate Hget.
  destruct (sget items "interactions") as [v|] eqn:Ei; [|discriminate].
  injection Hget as ->.
  unfold sanitize_document, bindE, pure_result, ok.
  unfold py_in. rewrite (shas_sget items "interactions" _ Ei).
  cbv beta iota delta [negb].
  unfold py_getitem at 1. rewrite Ei. cbv beta iota.
  unfold py_iter.
  destruct (for_eachE sanitize_interaction interactions st) as [[rewritten|e] st1]
    eqn:Erun; [|discriminate].
  simpl. intro H. injection H as <- _.
  split; [simpl; now apply (sset_keys_same items "interactions" (JList interactions))|].
  split.
  - intros k Hk. unfold py_getitem. now rewrite sget_sset_other.
  - exists rewritten. split.
    + unfold py_getitem. now rewrite sget_sset_same.
    + apply (for_eachE_Forall2 sanitize_interaction same_but_url_and_body
               interactions) with (w := st) (w' := st1); [|exact Erun].
      intros x w y w' Hx.
      apply (same_but_trans x y y); [|apply same_but_refl].
      unfold sanitize_interaction, bindE in Hx.
      destruct (sanitize_request_url x w) as [[i1|e] w1] eqn:Eurl; [|discriminate].
      apply (same_but_trans x i1 y).
      * exact (sanitize_request_url_same_but x i1 w w1 Eurl).
      * exact (sanitize_response_body_same_but i1 y w1 w' Hx).
Qed.

End Untouched.

(* ================================================================== *)
(** * A boolean under an ID field *)
(* ================================================================== *)

Section BooleanIds.
Context {float : Type} {L : JsonLib float}.
Notation json := (json float).

(** X22.  A JSON [true] stored under an organization-ID field is taken
    for the integer 1: [isinstance(True, int)] holds and [True > 0], so
    the rewritten body holds the test organization ID in its place and
    the key 1 is registered in [ORG_ID_MAP]. *)
Theorem rewrite_takes_true_for_one
        (body_str : string) (body_obj : json) (path : list step)
        (key : string) (st : State) :
  json_loads body_str = Some body_obj ->
  wf_json body_obj = true ->
  map_ok st = true ->
  In key ORG_ID_FIELDS ->
  lookup_path (path ++ [Key key]) body_obj = Some (JBool true) ->
  exists (out : json) (st' : State),
    sanitize_body_string body_str st = (json_dumps_compact out, st')
    /\ lookup_path (path ++ [Key key]) out = Some (JInt TEST_ORG_ID)
    /\ iget (ORG_ID_MAP st') (IntObj 1) = Some TEST_ORG_ID.
Proof.
  intros Hload Hwf Hok Hkey Hlook.
  destruct (body_field_clean body_str body_obj path key (JBool true) st
              Hload Hwf Hok Hlook eq_refl) as (Hrun & Hout & Hin & Hok').
  apply in_list_In in Hkey.
  exists (clean_item body_obj), (touch_all (fields_item body_obj) st).
  split; [exact Hrun|]. split.
  - rewrite Hout. unfold clean_value. now rewrite Hkey.
  - assert (Hhas : ihas (ORG_ID_MAP (touch_all (fields_item body_obj) st)) (BoolObj true)
                   = true).
    { apply (touch_all_registers (fields_item body_obj) st key (JBool true)
               (BoolObj true) Hin).
      unfold org_hit. now rewrite Hkey. }
    apply ihas_iget in Hhas as [s Hs].
    rewrite (iget_eqb _ (IntObj 1) (BoolObj true) eq_refl), Hs. f_equal.
    unfold map_ok in Hok'. apply andb_true_iff in Hok' as [Horg _].
    eapply iget_all_test; eauto.
Qed.

End BooleanIds.

(* ================================================================== *)
(** * What Discovery reads in a text *)
(* ================================================================== *)

Lemma register_matches_has (test : Z) (found : list Z) (k : intobj) :
  forall m : idmap,
    ihas (register_matches test found m) k = true ->
    ihas m k = true \/ exists n, In n found /\ 0 < n /\ int_val k = n.
Proof.
  unfold register_matches.
  induction found as [|id tl IH]; intros m H; simpl in H; [now left|].
  apply IH in H. destruct H as [H|(n & Hn & Hpos & Hk)].
  - destruct (0 <? id) eqn:E; [|now left].
    rewrite ihas_iset in H. apply orb_true_iff in H as [H|H]; [now left|].
    right. exists id. split; [now left|]. split; [now apply Z.ltb_lt|].
    unfold eqb_int in H. simpl in H. now apply Z.eqb_eq.
  - right. exists n. split; [now right|]. now split.
Qed.

Lemma user_pass_has (content : string) (fields : list string) (k : intobj) :
  forall st : State,
    ihas (USER_ID_MAP
            (fold_left
               (fun st field =>
                  set_user (register_matches TEST_USER_ID (finditer field content)
                                             (USER_ID_MAP st)) st)
               fields st)) k = true ->
    ihas (USER_ID_MAP st) k = true
    \/ exists field n, In field fields /\ In n (finditer field content)
                       /\ 0 < n /\ int_val k = n.
Proof.
  induction fields as [|f tl IH]; intros st H; simpl in H; [now left|].
  apply IH in H. destruct H as [H|(field & n & Hf & Hn & Hpos & Hk)].
  - simpl in H. apply register_matches_has in H.
    destruct H as [H|(n & Hn & Hpos & Hk)]; [now left|].
    right. exists f, n. split; [now left|]. now repeat split.
  - right. exists field, n. split; [now right|]. now repeat split.
Qed.

(** X23.  Discovery registers nothing but what the patterns find: an
    identifier that is in a dictionary after a text has been scanned
    was in it before, or is a positive number matched in the text after
    one of the field names of that dictionary. *)
Theorem discovery_registers_only_matches (content : string) (st : State) (k : intobj) :
  (ihas (ORG_ID_MAP (find_ids_in content st)) k = true ->
   ihas (ORG_ID_MAP st) k = true
   \/ exists field n, In field ORG_ID_FIELDS /\ In n (finditer field content)
                      /\ 0 < n /\ int_val k = n)
  /\ (ihas (USER_ID_MAP (find_ids_in content st)) k = true ->
      ihas (USER_ID_MAP st) k = true
      \/ exists field n, In field USER_ID_FIELDS /\ In n (finditer field content)
                         /\ 0 < n /\ int_val k = n).
Proof.
  unfold find_ids_in. split; intro H.
  - rewrite user_pass_org in H. simpl ORG_ID_MAP in H.
    apply register_matches_has in H. destruct H as [H|(n & Hn & Hpos & Hk)].
    + apply register_matches_has in H. destruct H as [H|(n & Hn & Hpos & Hk)];
        [now left|].
      right. exists "org_id", n. split; [now left|]. now repeat split.
    + right. exists "org", n. split; [right; now left|]. now repeat split.
  - apply user_pass_has in H. destruct H as [H|H]; [now left | now right].
Qed.

(** ** The pattern at a key whose value is a number *)

Lemma str_app_assoc (a b c : string) : ((a ++ b) ++ c = a ++ (b ++ c))%string.
Proof. induction a as [|x a IH]; simpl; [reflexivity | now rewrite IH]. Qed.

Lemma str_length_app (a b : string) :
  String.length (a ++ b) = (String.length a + String.length b)%nat.
Proof. induction a as [|x a IH]; simpl; [reflexivity | now rewrite IH]. Qed.

Lemma strip_prefix_Some (p : string) :
  forall s s1 : string, strip_prefix p s = Some s1 -> s = (p ++ s1)%string.
Proof.
  induction p as [|a p IH]; intros s s1 H.
  - destruct s; simpl in H; injection H as <-; reflexivity.
  - destruct s as [|b s]; simpl in H; [discriminate|].
    destruct (Ascii.eqb a b) eqn:E; [|discriminate].
    apply Ascii.eqb_eq in E. subst b. simpl. f_equal. now apply IH.
Qed.

Lemma space_not_quote (c : ascii) : is_space c = true -> Ascii.eqb c dquote = false.
Proof.
  intro H. destruct (Ascii.eqb c dquote) eqn:E; [|reflexivity].
  apply Ascii.eqb_eq in E. subst c. discriminate H.
Qed.

Lemma digit_not_quote (c : ascii) : is_digit c = true -> Ascii.eqb c dquote = false.
Proof.
  intro H. destruct (Ascii.eqb c dquote) eqn:E; [|reflexivity].
  apply Ascii.eqb_eq in E. subst c. discriminate H.
Qed.

Lemma digit_not_space (c : ascii) : is_digit c = true -> is_space c = false.
Proof.
  unfold is_digit, is_space. cbv zeta.
  generalize (nat_of_ascii c). intros n H.
  apply andb_true_iff in H as [H1 H2].
  apply Nat.leb_le in H1. apply Nat.leb_le in H2.
  repeat (apply orb_false_iff; split).
  - apply andb_false_iff. right. apply Nat.leb_gt. lia.
  - apply andb_false_iff. right. apply Nat.leb_gt. lia.
  - apply Nat.eqb_neq. lia.
  - apply Nat.eqb_neq. lia.
Qed.

Lemma no_quote_app (a b : string) :
  no_quote (a ++ b) = no_quote a && no_quote b.
Proof.
  induction a as [|x a IH]; simpl; [reflexivity|].
  now rewrite IH, andb_assoc.
Qed.

Lemma all_spaces_no_quote (w : string) : all_spaces w = true -> no_quote w = true.
Proof.
  induction w as [|c w IH]; simpl; [reflexivity|].
  intro H. apply andb_true_iff in H as [Hc Hw].
  now rewrite (space_not_quote c Hc), IH.
Qed.

Lemma skip_spaces_split (s : string) :
  exists w, s = (w ++ skip_spaces s)%string /\ all_spaces w = true.
Proof.
  induction s as [|c s (w & Hs & Hw)]; [exists EmptyString; now split|].
  simpl. destruct (is_space c) eqn:E.
  - exists (String c w). simpl. rewrite E, Hw. split; [now f_equal | reflexivity].
  - exists EmptyString. now split.
Qed.

Lemma read_digits_split (s : string) :
  forall acc : Z,
    exists ds, s = (ds ++ snd (read_digits acc s))%string /\ no_quote ds = true.
Proof.
  induction s as [|c s IH]; intro acc; [exists EmptyString; now split|].
  simpl. destruct (is_digit c) eqn:E.
  - destruct (IH (10 * acc + digit_val c)) as (ds & Hs & Hds).
    exists (String c ds). simpl. rewrite (digit_not_quote c E), Hds.
    split; [now f_equal | reflexivity].
  - exists EmptyString. now split.
Qed.

(** A match is the quoted field name followed by white space, a colon,
    white space and digits: after the name it holds no quote, and it
    goes on with white space or the colon. *)
Lemma match_here_shape (field s : string) (n : Z) (len : nat) :
  match_here field s = Some (n, len) ->
  exists body s4 : string,
    s = String dquote (field ++ String dquote (body ++ s4))
    /\ len = String.length (String dquote (field ++ String dquote body))
    /\ no_quote body = true
    /\ starts_blank body = true.
Proof.
  unfold match_here.
  destruct (strip_prefix (String dquote (field ++ String dquote EmptyString)) s)
    as [s1|] eqn:E1; [|discriminate].
  apply strip_prefix_Some in E1.
  destruct (skip_spaces_split s1) as (w1 & Hs1 & Hw1).
  destruct (strip_prefix ":" (skip_spaces s1)) as [s2|] eqn:E2; [|discriminate].
  apply strip_prefix_Some in E2.
  destruct (skip_spaces_split s2) as (w2 & Hs2 & Hw2).
  destruct (starts_with_digit (skip_spaces s2)); [|discriminate].
  destruct (read_digits_split (skip_spaces s2) 0) as (ds & Hs3 & Hds).
  destruct (read_digits 0 (skip_spaces s2)) as [m s4] eqn:E3.
  simpl snd in Hs3. intro H. injection H as <- <-.
  exists (w1 ++ ":" ++ w2 ++ ds)%string, s4.
  assert (Hs : s = String dquote (field ++ String dquote ((w1 ++ ":" ++ w2 ++ ds) ++ s4))).
  { rewrite E1. simpl. f_equal. rewrite str_app_assoc. simpl. do 2 f_equal.
    rewrite Hs1 at 1. rewrite E2. rewrite Hs2 at 1. rewrite Hs3 at 1.
    symmetry. rewrite str_app_assoc. simpl. now rewrite str_app_assoc. }
  split; [exact Hs|]. split; [|split].
  - rewrite Hs at 1. generalize (w1 ++ ":" ++ w2 ++ ds)%string. intro body.
    cbn [String.length]. rewrite !str_length_app. cbn [String.length].
    rewrite !str_length_app. lia.
  - rewrite !no_quote_app. simpl.
    now rewrite (all_spaces_no_quote w1 Hw1), (all_spaces_no_quote w2 Hw2), Hds.
  - destruct w1 as [|c w1]; [reflexivity|].
    simpl in Hw1. apply andb_true_iff in Hw1 as [Hc _]. simpl. now rewrite Hc.
Qed.

(** Where a text without quote ends inside another text, the quote that
    follows it lies further on. *)
Lemma quote_after (x : string) :
  forall pre r y : string,
    no_quote x = true ->
    (pre ++ String dquote r = x ++ y)%string ->
    exists k, pre = (x ++ k)%string /\ y = (k ++ String dquote r)%string.
Proof.
  induction x as [|a x IH]; intros pre r y Hx H.
  - exists pre. split; [reflexivity | now symmetry].
  - simpl in Hx. apply andb_true_iff in Hx as [Ha Hx].
    destruct pre as [|b pre]; simpl in H.
    + injection H as <- _. rewrite Ascii.eqb_refl in Ha. discriminate Ha.
    + injection H as -> H. destruct (IH pre r y Hx H) as (k & -> & ->).
      exists k. now split.
Qed.

(** A match that starts before an occurrence of the quoted name ends
    before it. *)
Lemma match_ends_before (field pre t2 : string) (c : ascii) (n : Z) (len : nat) :
  plain_field field = true ->
  match_here field (String c pre ++ String dquote (field ++ t2)) = Some (n, len) ->
  (len <= String.length (String c pre))%nat.
Proof.
  intros Hplain H.
  unfold plain_field in Hplain. apply andb_true_iff in Hplain as [Hnq Hfirst].
  destruct (match_here_shape _ _ _ _ H) as (body & s4 & Hs & -> & Hbody & Hblank).
  simpl in Hs. injection Hs as -> Hs.
  destruct (quote_after field pre (field ++ t2) _ Hnq Hs) as (k & -> & Hk).
  destruct k as [|q k]; simpl in Hk.
  - exfalso. injection Hk as Hk.
    destruct field as [|f0 field]; [discriminate Hfirst|].
    destruct body as [|b body]; [discriminate Hblank|].
    simpl in Hk. injection Hk as -> _.
    simpl in Hfirst, Hblank. rewrite Hblank in Hfirst. discriminate Hfirst.
  - injection Hk as <- Hk. symmetry in Hk.
    destruct (quote_after body k (field ++ t2) _ Hbody Hk) as (k2 & -> & _).
    cbn [String.length]. rewrite !str_length_app. cbn [String.length].
    rewrite !str_length_app. lia.
Qed.

(** The scan reaches a match, wherever it stands in the text. *)
Lemma finditer_from_reaches (field t2 : string) (n : Z) (len : nat) :
  plain_field field = true ->
  match_here field (String dquote (field ++ t2)) = Some (n, len) ->
  forall (pre : string) (skip : nat),
    (skip <= String.length pre)%nat ->
    In n (finditer_from field skip (pre ++ String dquote (field ++ t2))).
Proof.
  intros Hplain Hhere.
  induction pre as [|c pre IH]; intros skip Hskip.
  - simpl in Hskip. assert (skip = 0%nat) as -> by lia.
    change (EmptyString ++ String dquote (field ++ t2))%string
      with (String dquote (field ++ t2)).
    unfold finditer_from; fold finditer_from. rewrite Hhere. now left.
  - change (String c pre ++ String dquote (field ++ t2))%string
      with (String c (pre ++ String dquote (field ++ t2))).
    unfold finditer_from; fold finditer_from.
    destruct skip as [|k].
    + destruct (match_here field (String c (pre ++ String dquote (field ++ t2))))
        as [[m len']|] eqn:E.
      * right. apply IH.
        pose proof (match_ends_before field pre t2 c m len' Hplain E) as Hlen.
        simpl in Hlen. lia.
      * apply IH. lia.
    + apply IH. simpl in Hskip. lia.
Qed.

(** [int] reads back what [str] writes. *)
Lemma read_digits_acc (d : Decimal.uint) :
  forall (acc : positive) (rest : string),
    starts_with_digit rest = false ->
    read_digits (Z.pos acc) (NilEmpty.string_of_uint d ++ rest)
    = (Z.pos (Pos.of_uint_acc d acc), rest).
Proof.
  induction d; intros acc rest Hrest;
    try (cbn [NilEmpty.string_of_uint append read_digits Pos.of_uint_acc];
         match goal with
         | |- context [is_digit ?c] => change (is_digit c) with true
         end;
         cbv iota;
         match goal with
         | |- context [digit_val ?c] =>
             let v := eval vm_compute in (digit_val c) in
             change (digit_val c) with v
         end;
         rewrite <- IHd by exact Hrest; f_equal; lia).
  simpl. destruct rest as [|c rest]; [reflexivity|].
  simpl in Hrest. simpl. now rewrite Hrest.
Qed.

Lemma read_digits_uint (d : Decimal.uint) (rest : string) :
  starts_with_digit rest = false ->
  read_digits 0 (NilEmpty.string_of_uint d ++ rest)
  = (Z.of_N (Pos.of_uint d), rest).
Proof.
  intro Hrest.
  induction d;
    try (cbn [NilEmpty.string_of_uint append read_digits Pos.of_uint];
         match goal with
         | |- context [is_digit ?c] => change (is_digit c) with true
         end;
         cbv iota;
         match goal with
         | |- context [10 * 0 + digit_val ?c] =>
             let v := eval vm_compute in (10 * 0 + digit_val c) in
             change (10 * 0 + digit_val c) with v
         end;
         first [ exact IHd
               | exact (read_digits_acc d _ rest Hrest) ]).
  simpl. destruct rest as [|c rest]; [reflexivity|].
  simpl in Hrest. simpl. now rewrite Hrest.
Qed.

Lemma str_of_Z_digits (z : Z) (rest : string) :
  0 < z ->
  starts_with_digit rest = false ->
  starts_with_digit (str_of_Z z ++ rest) = true
  /\ read_digits 0 (str_of_Z z ++ rest) = (z, rest).
Proof.
  intros Hz Hrest. destruct z as [|p|p]; try lia.
  unfold str_of_Z. simpl Z.to_int. unfold NilZero.string_of_int, NilZero.string_of_uint.
  pose proof (Unsigned.to_uint_nonnil p) as Hnil.
  pose proof (Unsigned.of_to p) as Hback.
  destruct (Pos.to_uint p) eqn:E; try contradiction;
    (split; [reflexivity|]);
    rewrite (read_digits_uint _ rest Hrest), Hback; reflexivity.
Qed.

Lemma skip_spaces_digit (s : string) : starts_with_digit s = true -> skip_spaces s = s.
Proof.
  destruct s as [|c s]; [reflexivity|]. simpl. intro H.
  now rewrite (digit_not_space c H).
Qed.

(** The pattern matches a key followed by a number, and the number it
    reads is the number written. *)
Lemma match_here_number (field ws1 ws2 rest : string) (z : Z) :
  all_spaces ws1 = true ->
  all_spaces ws2 = true ->
  0 < z ->
  starts_with_digit rest = false ->
  exists len,
    match_here field
      (String dquote (field ++ String dquote (ws1 ++ ":" ++ ws2 ++ str_of_Z z ++ rest)))
    = Some (z, len).
Proof.
  intros H1 H2 Hz Hrest.
  destruct (str_of_Z_digits z rest Hz Hrest) as [Hstart Hread].
  assert (Hstrip : strip_prefix (String dquote (field ++ String dquote EmptyString))
                     (String dquote (field ++ String dquote
                                       (ws1 ++ ":" ++ ws2 ++ str_of_Z z ++ rest)))
                   = Some (ws1 ++ ":" ++ ws2 ++ str_of_Z z ++ rest)%string).
  { rewrite <- (strip_prefix_app (String dquote (field ++ String dquote EmptyString))
                                 (ws1 ++ ":" ++ ws2 ++ str_of_Z z ++ rest)).
    f_equal. simpl. f_equal. now rewrite str_app_assoc. }
  unfold match_here. rewrite Hstrip.
  rewrite skip_spaces_app by exact H1.
  change (skip_spaces (":" ++ ws2 ++ str_of_Z z ++ rest)%string)
    with (":" ++ ws2 ++ str_of_Z z ++ rest)%string.
  rewrite strip_prefix_app.
  rewrite skip_spaces_app by exact H2.
  rewrite (skip_spaces_digit _ Hstart), Hstart, Hread.
  eexists. reflexivity.
Qed.

Lemma id_field_plain (field : string) :
  In field (ORG_ID_FIELDS ++ USER_ID_FIELDS) -> plain_field field = true.
Proof.
  intro H. simpl in H.
  repeat (destruct H as [<-|H]; [reflexivity|]). contradiction.
Qed.

(** X24.  Discovery finds an identifier wherever the raw text of a file
    holds an ID field name in quotes, a colon and a positive number in
    decimal, with any white space around the colon, as [json.dump]
    writes it: whatever comes before and after (the number ends where
    the digits end), the number is registered with the test ID of its
    kind. *)
Theorem discovery_finds_written_ids
        (pre ws1 ws2 rest field : string) (z : Z) (st : State) :
  all_spaces ws1 = true ->
  all_spaces ws2 = true ->
  0 < z ->
  starts_with_digit rest = false ->
  (In field ORG_ID_FIELDS ->
   iget (ORG_ID_MAP (find_ids_in (pre ++ key_then_number field ws1 ws2 z ++ rest) st))
        (IntObj z) = Some TEST_ORG_ID)
  /\ (In field USER_ID_FIELDS ->
      iget (USER_ID_MAP (find_ids_in (pre ++ key_then_number field ws1 ws2 z ++ rest) st))
           (IntObj z) = Some TEST_USER_ID).
Proof.
  intros H1 H2 Hz Hrest.
  assert (Htext : (key_then_number field ws1 ws2 z ++ rest)%string
                  = String dquote (field ++ String dquote
                                     (ws1 ++ ":" ++ ws2 ++ str_of_Z z ++ rest))).
  { unfold key_then_number. simpl. f_equal.
    rewrite !str_app_assoc. simpl. now rewrite !str_app_assoc. }
  destruct (match_here_number field ws1 ws2 rest z H1 H2 Hz Hrest) as [len Hhere].
  assert (Hfound : plain_field field = true ->
                   In z (finditer field
                           (pre ++ key_then_number field ws1 ws2 z ++ rest))).
  { intro Hplain. rewrite Htext. unfold finditer.
    apply (finditer_from_reaches field _ z len Hplain Hhere). lia. }
  split; intro Hf.
  - apply (find_ids_in_org_registered _ field); [exact Hf| |exact Hz].
    apply Hfound, id_field_plain, in_or_app. now left.
  - apply (find_ids_in_user_registered _ field); [exact Hf| |exact Hz].
    apply Hfound, id_field_plain, in_or_app. now right.
Qed.

(* ================================================================== *)
(** * An identifier written as a string *)
(* ================================================================== *)

(** ** The scan across a key whose value is a string of digits *)

Lemma match_here_not_quote (f s : string) (c : ascii) :
  Ascii.eqb c dquote = false -> match_here f (String c s) = None.
Proof.
  intro H. unfold match_here. cbn [strip_prefix].
  rewrite Ascii.eqb_sym, H. reflexivity.
Qed.

Lemma finditer_no_quote (f a X : string) :
  no_quote a = true ->
  finditer_from f 0 (a ++ X) = finditer_from f 0 X.
Proof.
  induction a as [|c a IH]; intro H; [reflexivity|].
  simpl in H. apply andb_true_iff in H as [Hc Ha].
  apply negb_true_iff in Hc.
  change (String c a ++ X)%string with (String c (a ++ X)).
  unfold finditer_from; fold finditer_from.
  rewrite (match_here_not_quote f (a ++ X) c Hc). now apply IH.
Qed.

Lemma finditer_dead_quote (f Y : string) :
  match_here f (String dquote Y) = None ->
  finditer_from f 0 (String dquote Y) = finditer_from f 0 Y.
Proof.
  intro H. unfold finditer_from; fold finditer_from. now rewrite H.
Qed.

(** The quoted name of one field is no prefix of the quoted name of
    another. *)
Lemma strip_prefix_other_key (f : string) :
  forall field t : string,
    no_quote f = true -> no_quote field = true -> f <> field ->
    strip_prefix (f ++ String dquote EmptyString) (field ++ String dquote t) = None.
Proof.
  induction f as [|a f IH]; intros field t Hf Hfield Hne.
  - destruct field as [|b field]; [congruence|].
    simpl in Hfield. apply andb_true_iff in Hfield as [Hb _].
    apply negb_true_iff in Hb. cbn [strip_prefix append].
    now rewrite Ascii.eqb_sym, Hb.
  - simpl in Hf. apply andb_true_iff in Hf as [Ha Hf].
    apply negb_true_iff in Ha.
    destruct field as [|b field]; cbn [strip_prefix append]; [now rewrite Ha|].
    destruct (Ascii.eqb a b) eqn:E; [|reflexivity].
    apply Ascii.eqb_eq in E. subst b.
    simpl in Hfield. apply andb_true_iff in Hfield as [_ Hfield].
    apply IH; [assumption | assumption | congruence].
Qed.

Lemma key_then_string_text (field ws1 ws2 rest : string) :
  key_then_string field ws1 ws2 rest
  = String dquote (field ++ String dquote (ws1 ++ ":" ++ ws2 ++ String dquote rest)).
Proof.
  unfold key_then_string. simpl. f_equal. now rewrite str_app_assoc.
Qed.

(** No match starts at a key whose value is a string, for the pattern
    of any field. *)
Lemma match_here_at_string_key (f field ws1 ws2 rest : string) :
  plain_field f = true -> plain_field field = true ->
  all_spaces ws1 = true -> all_spaces ws2 = true ->
  match_here f (key_then_string field ws1 ws2 rest) = None.
Proof.
  intros Hf Hfield H1 H2.
  destruct (String.eqb f field) eqn:E.
  - apply String.eqb_eq in E. subst f. now apply match_here_string_value.
  - apply String.eqb_neq in E.
    unfold plain_field in Hf, Hfield.
    apply andb_true_iff in Hf as [Hf _].
    apply andb_true_iff in Hfield as [Hfield _].
    rewrite key_then_string_text. unfold match_here.
    cbn [strip_prefix]. rewrite Ascii.eqb_refl.
    now rewrite (strip_prefix_other_key f field _ Hf Hfield E).
Qed.

(** No match starts at a quote that white space or a colon follows. *)
Lemma match_here_blank_after_quote (f Y : string) :
  plain_field f = true -> starts_blank Y = true ->
  match_here f (String dquote Y) = None.
Proof.
  intros Hf HY. unfold plain_field in Hf. apply andb_true_iff in Hf as [_ Hf].
  destruct f as [|f0 f]; [discriminate Hf|].
  destruct Y as [|y0 Y]; [discriminate HY|].
  unfold match_here. cbn [strip_prefix append]. rewrite Ascii.eqb_refl.
  destruct (Ascii.eqb f0 y0) eqn:E; [|reflexivity].
  apply Ascii.eqb_eq in E. subst y0.
  simpl in Hf, HY. rewrite HY in Hf. discriminate Hf.
Qed.

(** No match starts at the quote that opens a string of digits, when
    the field name starts with no digit. *)
Lemma match_here_digits_after_quote (f digits rest : string) :
  plain_field f = true -> starts_with_digit f = false ->
  all_digits digits = true ->
  match_here f (String dquote (digits ++ String dquote rest)) = None.
Proof.
  intros Hf Hletter Hd. unfold plain_field in Hf. apply andb_true_iff in Hf as [Hnq Hf].
  destruct f as [|f0 f]; [discriminate Hf|].
  simpl in Hnq. apply andb_true_iff in Hnq as [Hq _]. apply negb_true_iff in Hq.
  simpl in Hletter.
  unfold match_here. cbn [strip_prefix append]. rewrite Ascii.eqb_refl.
  destruct digits as [|d digits]; cbn [append].
  - now rewrite Hq.
  - simpl in Hd. apply andb_true_iff in Hd as [Hd _].
    destruct (Ascii.eqb f0 d) eqn:E; [|reflexivity].
    apply Ascii.eqb_eq in E. subst d. congruence.
Qed.

Lemma all_digits_no_quote (s : string) : all_digits s = true -> no_quote s = true.
Proof.
  induction s as [|c s IH]; simpl; [reflexivity|].
  intro H. apply andb_true_iff in H as [Hc Hs].
  now rewrite (digit_not_quote c Hc), IH.
Qed.

Lemma starts_blank_after_key (ws1 X : string) :
  all_spaces ws1 = true -> starts_blank (ws1 ++ ":" ++ X) = true.
Proof.
  destruct ws1 as [|c ws1]; [reflexivity|]. simpl.
  intro H. apply andb_true_iff in H as [Hc _]. now rewrite Hc.
Qed.

(** The scan of a key, a colon and a string of digits finds nothing up
    to the quote that closes the string. *)
Lemma finditer_string_key (f field ws1 ws2 digits rest : string) :
  plain_field f = true -> starts_with_digit f = false ->
  plain_field field = true ->
  all_spaces ws1 = true -> all_spaces ws2 = true -> all_digits digits = true ->
  finditer f (key_then_string field ws1 ws2 (digits ++ String dquote rest))
  = finditer f (String dquote rest).
Proof.
  intros Hf Hletter Hfield H1 H2 Hd. unfold finditer.
  rewrite key_then_string_text.
  rewrite finditer_dead_quote
    by (rewrite <- key_then_string_text; now apply match_here_at_string_key).
  unfold plain_field in Hfield. apply andb_true_iff in Hfield as [Hnq _].
  rewrite (finditer_no_quote f field _ Hnq).
  rewrite finditer_dead_quote
    by (apply match_here_blank_after_quote;
        [exact Hf | now apply starts_blank_after_key]).
  assert (Hmid : (ws1 ++ ":" ++ ws2 ++ String dquote (digits ++ String dquote rest)
                  = (ws1 ++ ":" ++ ws2) ++ String dquote (digits ++ String dquote rest))%string).
  { rewrite str_app_assoc. reflexivity. }
  rewrite Hmid.
  rewrite finditer_no_quote
    by (rewrite !no_quote_app; simpl;
        now rewrite (all_spaces_no_quote ws1 H1), (all_spaces_no_quote ws2 H2)).
  rewrite finditer_dead_quote by now apply match_here_digits_after_quote.
  apply finditer_no_quote. now apply all_digits_no_quote.
Qed.

(** ** The scan of the text before a key *)

Lemma strip_prefix_app_l (p : string) :
  forall s s1 B : string,
    strip_prefix p s = Some s1 -> strip_prefix p (s ++ B) = Some (s1 ++ B)%string.
Proof.
  induction p as [|a p IH]; intros s s1 B H.
  - destruct s; simpl in H; injection H as <-; destruct B; reflexivity.
  - destruct s as [|b s]; [discriminate H|].
    cbn [strip_prefix] in H. cbn [strip_prefix append].
    destruct (Ascii.eqb a b); [now apply IH | discriminate H].
Qed.

(** A prefix that the text alone does not have and the longer text has
    ends in what follows the text. *)
Lemma strip_prefix_straddle (p : string) :
  forall s B r : string,
    strip_prefix p s = None -> strip_prefix p (s ++ B) = Some r ->
    exists p2, p = (s ++ p2)%string /\ p2 <> EmptyString /\ strip_prefix p2 B = Some r.
Proof.
  induction p as [|a p IH]; intros s B r Hnone Hsome.
  - destruct s; discriminate Hnone.
  - destruct s as [|b s].
    + exists (String a p). split; [reflexivity|]. split; [discriminate | exact Hsome].
    + cbn [strip_prefix] in Hnone. cbn [strip_prefix append] in Hsome.
      destruct (Ascii.eqb a b) eqn:E; [|discriminate Hsome].
      apply Ascii.eqb_eq in E. subst b.
      destruct (IH s B r Hnone Hsome) as (p2 & -> & Hne & Hp2).
      exists p2. now repeat split.
Qed.

Lemma skip_spaces_all (s : string) : all_spaces s = true -> skip_spaces s = EmptyString.
Proof.
  induction s as [|c s IH]; simpl; [reflexivity|].
  intro H. apply andb_true_iff in H as [Hc Hs]. rewrite Hc. now apply IH.
Qed.

Lemma skip_spaces_app_r (s B : string) :
  skip_spaces (s ++ B)
  = if all_spaces s then skip_spaces B else (skip_spaces s ++ B)%string.
Proof.
  induction s as [|c s IH]; [reflexivity|].
  cbn [append skip_spaces all_spaces].
  destruct (is_space c); [exact IH | reflexivity].
Qed.

Lemma skip_spaces_some (s : string) :
  all_spaces s = false ->
  exists c t, skip_spaces s = String c t /\ is_space c = false.
Proof.
  induction s as [|c s IH]; [discriminate|].
  cbn [skip_spaces all_spaces]. destruct (is_space c) eqn:E.
  - exact IH.
  - intros _. exists c, s. now split.
Qed.

Lemma read_digits_app (s B : string) :
  starts_with_digit B = false ->
  forall acc : Z,
    read_digits acc (s ++ B)
    = (fst (read_digits acc s), (snd (read_digits acc s) ++ B)%string).
Proof.
  intro HB. induction s as [|c s IH]; intro acc.
  - destruct B as [|b B]; [reflexivity|]. simpl in HB. simpl. now rewrite HB.
  - cbn [append read_digits]. destruct (is_digit c); [apply IH | reflexivity].
Qed.

(** A match that starts in a text is the same whether or not a quote
    and a character that is no white space and no colon follow the
    text. *)
Lemma match_here_app (f s t : string) (c g0 : ascii) :
  no_quote f = true ->
  is_space g0 = false -> Ascii.eqb g0 ":" = false ->
  match_here f (String c s ++ String dquote (String g0 t))
  = match_here f (String c s).
Proof.
  intros Hf Hspace Hcolon.
  remember (String dquote (String g0 t)) as B eqn:HB.
  assert (HB_space : skip_spaces B = B) by (subst B; reflexivity).
  assert (HB_colon : strip_prefix ":" B = None) by (subst B; reflexivity).
  assert (HB_digit : starts_with_digit B = false) by (subst B; reflexivity).
  unfold match_here.
  destruct (strip_prefix (String dquote (f ++ String dquote EmptyString)) (String c s))
    as [s1|] eqn:E1.
  - rewrite (strip_prefix_app_l _ _ _ B E1).
    rewrite skip_spaces_app_r. destruct (all_spaces s1) eqn:Ea.
    + rewrite HB_space, HB_colon, (skip_spaces_all s1 Ea). reflexivity.
    + destruct (skip_spaces_some s1 Ea) as (c1 & x1 & Hs1 & _). rewrite Hs1.
      cbn [strip_prefix append]. destruct (Ascii.eqb ":" c1); [|reflexivity].
      assert (Hx : strip_prefix EmptyString (x1 ++ B) = Some (x1 ++ B)%string)
        by (destruct (x1 ++ B)%string; reflexivity).
      assert (Hx' : strip_prefix EmptyString x1 = Some x1)
        by (destruct x1; reflexivity).
      rewrite ?Hx, ?Hx'.
      rewrite skip_spaces_app_r. destruct (all_spaces x1) eqn:Ea2.
      * rewrite HB_space, HB_digit, (skip_spaces_all x1 Ea2). reflexivity.
      * destruct (skip_spaces_some x1 Ea2) as (c2 & y & Hy & _). rewrite Hy.
        cbn [starts_with_digit append].
        destruct (is_digit c2) eqn:Ed; [|reflexivity].
        change (String c2 (y ++ B)) with (String c2 y ++ B)%string.
        rewrite (read_digits_app (String c2 y) B HB_digit 0).
        destruct (read_digits 0 (String c2 y)) as [n s4]. cbn [fst snd].
        do 2 f_equal.
        change (String c (s ++ B)) with (String c s ++ B)%string.
        rewrite !str_length_app. lia.
  - destruct (strip_prefix (String dquote (f ++ String dquote EmptyString))
                (String c s ++ B)) as [r|] eqn:E2; [|reflexivity].
    destruct (strip_prefix_straddle _ _ _ _ E1 E2) as (p2 & Hp & Hne & Hp2).
    cbn [append] in Hp. injection Hp as _ Hp.
    destruct p2 as [|x p2]; [congruence|].
    subst B. cbn [strip_prefix] in Hp2.
    destruct (Ascii.eqb x dquote) eqn:Ex; [|discriminate Hp2].
    apply Ascii.eqb_eq in Ex. subst x. symmetry in Hp.
    destruct (quote_after f s p2 _ Hf Hp) as (k & _ & Hk).
    assert (Hp2' : p2 = EmptyString).
    { destruct k as [|k0 k]; simpl in Hk.
      - now injection Hk as <-.
      - injection Hk as _ Hk. destruct k; discriminate Hk. }
    subst p2. cbn [strip_prefix] in Hp2. injection Hp2 as <-.
    cbn [skip_spaces]. rewrite Hspace. cbn [strip_prefix].
    rewrite Ascii.eqb_sym, Hcolon. reflexivity.
Qed.

Lemma match_here_len (f s : string) (n : Z) (len : nat) :
  match_here f s = Some (n, len) -> (len <= String.length s)%nat.
Proof.
  intro H. destruct (match_here_shape _ _ _ _ H) as (body & s4 & -> & -> & _ & _).
  cbn [String.length]. rewrite !str_length_app. cbn [String.length].
  rewrite !str_length_app. lia.
Qed.

(** The scan of a text followed by a key is the scan of the text, then
    the scan from the key on. *)
Lemma finditer_app (f t : string) (g0 : ascii) :
  no_quote f = true ->
  is_space g0 = false -> Ascii.eqb g0 ":" = false ->
  forall (s : string) (skip : nat),
    (skip <= String.length s)%nat ->
    finditer_from f skip (s ++ String dquote (String g0 t))
    = finditer_from f skip s ++ finditer_from f 0 (String dquote (String g0 t)).
Proof.
  intros Hf Hspace Hcolon.
  induction s as [|c s IH]; intros skip Hskip.
  - simpl in Hskip. assert (skip = 0%nat) as -> by lia. reflexivity.
  - pose proof (match_here_app f s t c g0 Hf Hspace Hcolon) as Happ.
    remember (String dquote (String g0 t)) as B eqn:HB.
    change (String c s ++ B)%string with (String c (s ++ B)) in *.
    cbn [finditer_from]. destruct skip as [|k].
    + rewrite Happ.
      destruct (match_here f (String c s)) as [[n len]|] eqn:E.
      * apply match_here_len in E. cbn [String.length] in E.
        rewrite IH by lia. reflexivity.
      * apply IH. lia.
    + apply IH. cbn [String.length] in Hskip. lia.
Qed.

(** ** What the scan registers *)

Lemma ihas_register_matches (test : Z) (found : list Z) (k : intobj) :
  forall m : idmap,
    ihas (register_matches test found m) k = ihas m k || matched k found.
Proof.
  unfold register_matches, matched.
  induction found as [|id tl IH]; intro m; simpl; [now rewrite orb_false_r|].
  rewrite IH. destruct (0 <? id); simpl; [|reflexivity].
  rewrite ihas_iset. unfold eqb_int. simpl. now rewrite orb_assoc.
Qed.

Lemma matched_app (k : intobj) (l1 l2 : list Z) :
  matched k (l1 ++ l2) = matched k l1 || matched k l2.
Proof. unfold matched. apply existsb_app. Qed.

Lemma ihas_find_ids_in_org (content : string) (st : State) (k : intobj) :
  ihas (ORG_ID_MAP (find_ids_in content st)) k
  = ihas (ORG_ID_MAP st) k
    || matched k (finditer "org_id" content)
    || matched k (finditer "org" content).
Proof.
  unfold find_ids_in. rewrite user_pass_org. simpl ORG_ID_MAP.
  now rewrite !ihas_register_matches.
Qed.

Lemma ihas_user_pass (content : string) (fields : list string) (k : intobj) :
  forall st : State,
    ihas (USER_ID_MAP
            (fold_left
               (fun st field =>
                  set_user (register_matches TEST_USER_ID (finditer field content)
                                             (USER_ID_MAP st)) st)
               fields st)) k
    = ihas (USER_ID_MAP st) k
      || existsb (fun f => matched k (finditer f content)) fields.
Proof.
  induction fields as [|f tl IH]; intro st; simpl; [now rewrite orb_false_r|].
  rewrite IH. simpl USER_ID_MAP. rewrite ihas_register_matches.
  now rewrite orb_assoc.
Qed.

Lemma ihas_find_ids_in_user (content : string) (st : State) (k : intobj) :
  ihas (USER_ID_MAP (find_ids_in content st)) k
  = ihas (USER_ID_MAP st) k
    || existsb (fun f => matched k (finditer f content)) USER_ID_FIELDS.
Proof. unfold find_ids_in. now rewrite ihas_user_pass. Qed.

Lemma existsb_split {A : Type} (p q r : A -> bool) (l : list A) :
  (forall x, In x l -> p x = q x || r x) ->
  existsb p l = existsb q l || existsb r l.
Proof.
  induction l as [|x tl IH]; intro H; simpl; [reflexivity|].
  rewrite (H x) by now left. rewrite IH by (intros y Hy; apply H; now right).
  destruct (q x), (r x), (existsb q tl), (existsb r tl); reflexivity.
Qed.

(** When the scan of a text is, for every ID field, the scan of one text
    and then the scan of another, the text registers what the two
    register one after the other. *)
Lemma find_ids_in_split (content pre post : string) (st : State) (k : intobj) :
  (forall f, In f (ORG_ID_FIELDS ++ USER_ID_FIELDS) ->
             finditer f content = finditer f pre ++ finditer f post) ->
  ihas (ORG_ID_MAP (find_ids_in content st)) k
  = ihas (ORG_ID_MAP (find_ids_in post (find_ids_in pre st))) k
  /\ ihas (USER_ID_MAP (find_ids_in content st)) k
     = ihas (USER_ID_MAP (find_ids_in post (find_ids_in pre st))) k.
Proof.
  intro H. split.
  - rewrite !ihas_find_ids_in_org.
    rewrite (H "org_id") by (simpl; tauto). rewrite (H "org") by (simpl; tauto).
    rewrite !matched_app.
    destruct (ihas (ORG_ID_MAP st) k), (matched k (finditer "org_id" pre)),
      (matched k (finditer "org_id" post)), (matched k (finditer "org" pre)),
      (matched k (finditer "org" post)); reflexivity.
  - rewrite !ihas_find_ids_in_user.
    rewrite (existsb_split (fun f => matched k (finditer f content))
               (fun f => matched k (finditer f pre))
               (fun f => matched k (finditer f post))).
    + now rewrite orb_assoc.
    + intros f Hf. rewrite H by (apply in_or_app; now right). apply matched_app.
Qed.

Lemma id_field_letter (field : string) :
  In field (ORG_ID_FIELDS ++ USER_ID_FIELDS) -> starts_with_digit field = false.
Proof.
  intro H. simpl in H.
  repeat (destruct H as [<-|H]; [reflexivity|]). contradiction.
Qed.

(** For the pattern of every ID field, the scan of a text that holds a
    key of an ID field with a string of digits for value is the scan of
    the text before the key, then the scan from the quote that closes
    the value. *)
Lemma finditer_around_string_id (f pre field ws1 ws2 digits rest : string) :
  In f (ORG_ID_FIELDS ++ USER_ID_FIELDS) ->
  In field (ORG_ID_FIELDS ++ USER_ID_FIELDS) ->
  all_spaces ws1 = true -> all_spaces ws2 = true -> all_digits digits = true ->
  finditer f (pre ++ key_then_string field ws1 ws2 (digits ++ String dquote rest))
  = finditer f pre ++ finditer f (String dquote rest).
Proof.
  intros Hf Hfield H1 H2 Hd.
  pose proof (id_field_plain f Hf) as Hpf.
  pose proof (id_field_plain field Hfield) as Hpfield.
  rewrite <- (finditer_string_key f field ws1 ws2 digits rest Hpf
                (id_field_letter f Hf) Hpfield H1 H2 Hd).
  unfold plain_field in Hpf, Hpfield.
  apply andb_true_iff in Hpf as [Hnq _].
  apply andb_true_iff in Hpfield as [_ Hstart].
  destruct field as [|g0 field]; [discriminate Hstart|].
  apply negb_true_iff in Hstart. simpl in Hstart.
  apply orb_false_iff in Hstart as [Hspace Hcolon].
  rewrite key_then_string_text. unfold finditer.
  cbn [append].
  apply (finditer_app f _ g0 Hnq Hspace Hcolon pre 0%nat). lia.
Qed.

(** ** A text with no other quote *)

Lemma strip_prefix_needs_quote (f : string) :
  forall t rest : string,
    no_quote rest = true ->
    strip_prefix (f ++ String dquote t) rest = None.
Proof.
  induction f as [|a f IH]; intros t rest Hrest;
    (destruct rest as [|c rest]; [reflexivity|]);
    simpl in Hrest; apply andb_true_iff in Hrest as [Hc Hrest];
    apply negb_true_iff in Hc; cbn [strip_prefix append].
  - now rewrite Ascii.eqb_sym, Hc.
  - destruct (Ascii.eqb a c); [now apply IH | reflexivity].
Qed.

Lemma finditer_one_quote (f rest : string) :
  no_quote rest = true -> finditer f (String dquote rest) = [].
Proof.
  intro Hrest. unfold finditer.
  rewrite finditer_dead_quote.
  - replace rest with (rest ++ EmptyString)%string
      by (clear; induction rest as [|c r IH]; simpl; [reflexivity | now rewrite IH]).
    now rewrite finditer_no_quote.
  - unfold match_here. cbn [strip_prefix]. rewrite Ascii.eqb_refl.
    now rewrite strip_prefix_needs_quote.
Qed.

Lemma finditer_quote_free (f pre : string) :
  no_quote pre = true -> finditer f pre = [].
Proof.
  intro Hpre. unfold finditer.
  replace pre with (pre ++ EmptyString)%string
    by (clear; induction pre as [|c r IH]; simpl; [reflexivity | now rewrite IH]).
  now rewrite finditer_no_quote.
Qed.

(** A text in which no pattern matches registers nothing. *)
Lemma find_ids_in_nothing (content : string) (st : State) :
  (forall f, In f (ORG_ID_FIELDS ++ USER_ID_FIELDS) -> finditer f content = []) ->
  find_ids_in content st = st.
Proof.
  intro H. unfold find_ids_in.
  rewrite (H "org_id") by (simpl; tauto). rewrite (H "org") by (simpl; tauto).
  cbv zeta.
  assert (Hreg : forall t m, register_matches t [] m = m) by reflexivity.
  rewrite !Hreg. destruct st as [org usr]. cbn [set_org ORG_ID_MAP USER_ID_MAP].
  apply user_pass_fixed. intros field n Hf Hn.
  rewrite H in Hn by (apply in_or_app; now right). contradiction.
Qed.

Section StringIds.
Context {float : Type}.
Notation json := (json float).

(** C10.  An identifier written as a JSON string under a recognized ID
    field name is never registered by the Discovery pass and never
    altered by the Rewrite pass.  Discovery: in whatever text the key,
    the colon and the quoted digits stand, the pattern of no ID field
    matches from the key to the end of the digits, so the scan of the
    text is the scan of what comes before the key followed by the scan
    from the closing quote on, and the text registers in each dictionary
    what those two register; a text with no other quote than those of
    the key and of the value registers nothing.  Rewrite: under an ID
    field name [sanitize_value] returns what is no instance of [int] as
    it is and stores nothing, and such a scalar stands unchanged at its
    place in the rewritten body. *)
Theorem string_encoded_ids_untouched
        (pre field ws1 ws2 digits rest : string) (st : State)
        (obj : json) (key : string) (value : json) :
  In field (ORG_ID_FIELDS ++ USER_ID_FIELDS) ->
  all_spaces ws1 = true ->
  all_spaces ws2 = true ->
  all_digits digits = true ->
  In key (ORG_ID_FIELDS ++ USER_ID_FIELDS) ->
  as_int value = None ->
  (forall f, In f (ORG_ID_FIELDS ++ USER_ID_FIELDS) ->
             finditer f (pre ++ key_then_string field ws1 ws2
                                  (digits ++ String dquote rest))
             = finditer f pre ++ finditer f (String dquote rest))
  /\ (forall k,
        ihas (ORG_ID_MAP
                (find_ids_in (pre ++ key_then_string field ws1 ws2
                                       (digits ++ String dquote rest)) st)) k
        = ihas (ORG_ID_MAP (find_ids_in (String dquote rest) (find_ids_in pre st))) k
        /\ ihas (USER_ID_MAP
                   (find_ids_in (pre ++ key_then_string field ws1 ws2
                                          (digits ++ String dquote rest)) st)) k
           = ihas (USER_ID_MAP (find_ids_in (String dquote rest) (find_ids_in pre st))) k)
  /\ (no_quote pre = true -> no_quote rest = true ->
      find_ids_in (pre ++ key_then_string field ws1 ws2
                            (digits ++ String dquote rest)) st
      = st)
  /\ sanitize_value obj key value st = (value, st)
  /\ (forall (body_obj : json) (path : list step),
        wf_json body_obj = true ->
        map_ok st = true ->
        is_scalar value = true ->
        lookup_path (path ++ [Key key]) body_obj = Some value ->
        lookup_path (path ++ [Key key]) (fst (sanitize_loaded body_obj st))
        = Some value).
Proof.
  intros Hfield H1 H2 Hd Hkey Hint.
  assert (Hscan : forall f, In f (ORG_ID_FIELDS ++ USER_ID_FIELDS) ->
                    finditer f (pre ++ key_then_string field ws1 ws2
                                         (digits ++ String dquote rest))
                    = finditer f pre ++ finditer f (String dquote rest)).
  { intros f Hf. now apply finditer_around_string_id. }
  assert (Hval : forall (o : json) s,
             sanitize_value o key value s = (value, s)
             /\ clean_value key value = value).
  { intros o s. apply sanitize_value_not_int.
    - unfold positive_int. now rewrite Hint.
    - intros str _. now apply id_field_not_text. }
  split; [exact Hscan|]. split; [|split; [|split; [apply Hval|]]].
  - intro k. now apply find_ids_in_split.
  - intros Hpre Hrest. apply find_ids_in_nothing. intros f Hf.
    rewrite (Hscan f Hf), (finditer_quote_free f pre Hpre),
      (finditer_one_quote f rest Hrest). reflexivity.
  - intros body_obj path Hwf Hok Hscalar Hlook.
    destruct (sanitize_loaded_clean body_obj st Hwf Hok) as [Hrun _].
    rewrite Hrun. simpl fst.
    rewrite (lookup_clean_field path body_obj key value Hlook Hscalar).
    f_equal. apply (Hval obj st).
Qed.

End StringIds.

Lemma string_encoded_ids_untouched_witness :
  (forall f, In f (ORG_ID_FIELDS ++ USER_ID_FIELDS) ->
             finditer f ("{" ++ key_then_string "org_id" "" " "
                                  ("13888" ++ String dquote "}"))
             = finditer f "{" ++ finditer f (String dquote "}"))
  /\ (forall k,
        ihas (ORG_ID_MAP
                (find_ids_in ("{" ++ key_then_string "org_id" "" " "
                                       ("13888" ++ String dquote "}"))
                             initial_state)) k
        = ihas (ORG_ID_MAP (find_ids_in (String dquote "}")
                                        (find_ids_in "{" initial_state))) k
        /\ ihas (USER_ID_MAP
                   (find_ids_in ("{" ++ key_then_string "org_id" "" " "
                                          ("13888" ++ String dquote "}"))
                                initial_state)) k
           = ihas (USER_ID_MAP (find_ids_in (String dquote "}")
                                            (find_ids_in "{" initial_state))) k)
  /\ (no_quote "{" = true -> no_quote "}" = true ->
      find_ids_in ("{" ++ key_then_string "org_id" "" " "
                            ("13888" ++ String dquote "}")) initial_state
      = initial_state)
  /\ sanitize_value (JDict [("org_id", JStr "13888")] : rjson) "org_id"
       (JStr "13888") initial_state
     = (JStr "13888", initial_state)
  /\ (forall (body_obj : rjson) (path : list step),
        wf_json body_obj = true ->
        map_ok initial_state = true ->
        is_scalar (JStr "13888" : rjson) = true ->
        lookup_path (path ++ [Key "org_id"]) body_obj = Some (JStr "13888") ->
        lookup_path (path ++ [Key "org_id"])
                    (fst (sanitize_loaded body_obj initial_state))
        = Some (JStr "13888")).
Proof.
  apply (string_encoded_ids_untouched "{" "org_id" "" " " "13888" "}" initial_state
           (JDict [("org_id", JStr "13888")] : rjson) "org_id" (JStr "13888")).
  - simpl. tauto.
  - reflexivity.
  - reflexivity.
  - reflexivity.
  - simpl. tauto.
  - reflexivity.
Defined.

Example quoted_id_not_discovered :
  quoted_id_text
  = ("{" ++ key_then_string "org_id" "" " " ("13888" ++ String dquote "}"))%string
  /\ find_ids_in quoted_id_text initial_state = initial_state
  /\ sanitize_body_string quoted_id_text initial_state
     = (json_text "{'org_id':'13888'}", initial_state).
Proof. repeat split; vm_compute; reflexivity. Qed.

(* ================================================================== *)
(** * A document that is not what the script expects *)
(* ================================================================== *)

Section OddDocuments.
Context {float : Type} {L : JsonLib float}.
Notation json := (json float).
Variable yaml_dump : json -> string.

Lemma convert_headers_converted (headers converted : json) :
  convert_headers headers = Ok converted ->
  exists again, convert_headers converted = Ok again.
Proof.
  unfold convert_headers.
  destruct (py_items headers) as [items|e]; [|discriminate].
  simpl. intro H. injection H as <-. simpl. eauto.
Qed.

Lemma convert_interaction_converted (i o : json) :
  convert_interaction i = Ok o ->
  convert_interaction o = Err (KeyError "url").
Proof.
  unfold convert_interaction.
  destruct (py_getitem i "request") as [req|e]; [|discriminate]. simpl.
  destruct (py_getitem i "response") as [resp|e]; [|discriminate]. simpl.
  destruct (py_get req "body") as [req_body|e]; [|discriminate]. simpl.
  destruct (py_getitem req "headers") as [req_headers|e]; [|discriminate]. simpl.
  destruct (convert_headers req_headers) as [req_headers'|e] eqn:Eh; [|discriminate].
  simpl.
  destruct (py_getitem req "method") as [method|e]; [|discriminate]. simpl.
  destruct (py_getitem req "url") as [uri|e]; [|discriminate]. simpl.
  destruct (py_getitem resp "body") as [resp_body|e]; [|discriminate]. simpl.
  destruct (py_getitem resp "status_code") as [code|e]; [|discriminate]. simpl.
  destruct (py_getitem resp "headers") as [resp_headers|e]; [|discriminate]. simpl.
  destruct (convert_headers resp_headers) as [resp_headers'|e]; [|discriminate].
  simpl. intro H. injection H as <-.
  destruct (convert_headers_converted req_headers req_headers' Eh) as [again Hagain].
  simpl. rewrite Hagain. reflexivity.
Qed.

(** X25.  The conversion does not apply to what it produces: a converted
    interaction has its address under [uri], so converting it again
    raises [KeyError] for [url], and so does converting again a
    converted document, unless it has no interaction at all. *)
Theorem converted_document_not_convertible (json_data out : json) :
  convert_document json_data = Ok out ->
  out <> JDict [("interactions", JList [])] ->
  convert_document out = Err (KeyError "url").
Proof.
  intros Hconv Hsome.
  unfold convert_document in Hconv.
  destruct (py_getitem json_data "interactions") as [interactions|e]; [|discriminate].
  simpl in Hconv.
  destruct (py_iter interactions) as [visited|e]; [|discriminate].
  simpl in Hconv.
  destruct (for_eachR convert_interaction visited) as [converted|e] eqn:Eall;
    [|discriminate].
  simpl in Hconv. injection Hconv as <-.
  apply for_eachR_Forall2 in Eall.
  destruct Eall as [|i o visited converted Hi _]; [now contradiction Hsome|].
  unfold convert_document. simpl.
  now rewrite (convert_interaction_converted i o Hi).
Qed.

(** X26.  A fixture without the key [interactions]: the sanitizer takes
    it as it is, registers nothing and writes the document back,
    formatted anew; the converter raises [KeyError] for [interactions]
    and writes nothing. *)
Theorem document_without_interactions
        (path output : string) (content : string) (items : list (string * json))
        (w : World) :
  sget (files w) path = Some content ->
  json_loads content = Some (JDict items) ->
  sget items "interactions" = None ->
  sanitize_cassette path w
  = (Ok tt, {| files := fs_write (files w) path (json_dumps_indent2 (JDict items));
               ids := ids w |})
  /\ convert_cassette yaml_dump path output (files w)
     = (Err (KeyError "interactions"), files w).
Proof.
  intros Hfile Hload Hnone. split.
  - unfold sanitize_cassette, bindE, read_file, fs_read.
    rewrite Hfile, Hload. unfold ok at 1.
    unfold on_ids, sanitize_document, bindE, pure_result, py_in, dict_has.
    rewrite Hnone. reflexivity.
  - unfold convert_cassette, bindE, fs_read.
    rewrite Hfile, Hload. unfold ok at 1.
    unfold pure_result, convert_document, py_getitem.
    rewrite Hnone. reflexivity.
Qed.

End OddDocuments.

(* ================================================================== *)
(** * The properties on the fixtures *)
(* ================================================================== *)

Lemma main_keeps_dictionaries_in_order_witness :
  run_inv (ids (snd (Sanitize.main (L := ref_json) ["members.json"] members_world)))
  = true.
Proof.
  apply (main_keeps_dictionaries_in_order (L := ref_json) ["members.json"] members_world).
  reflexivity.
Defined.

Lemma discovery_registers_matches_witness :
  iget (USER_ID_MAP (find_ids_in owner_body known_13888)) (IntObj 42)
  = Some TEST_USER_ID.
Proof.
  assert (Hin : In 42 (finditer "user_id" owner_body))
    by (vm_compute; left; reflexivity).
  assert (Hpos : 0 < 42) by lia.
  apply (proj2 (discovery_registers_matches owner_body "user_id" 42 known_13888
                  Hin Hpos)).
  simpl. tauto.
Defined.

Lemma main_fails_in_discovery_on_missing_file_witness :
  exists q,
    fst (Sanitize.main (L := ref_json) ["members.json"; "gone.json"] members_world)
    = Err (FileNotFoundError q)
    /\ In q ["members.json"; "gone.json"]
    /\ sget (files members_world) q = None
    /\ files (snd (Sanitize.main (L := ref_json) ["members.json"; "gone.json"]
                     members_world))
       = files members_world.
Proof.
  apply (main_fails_in_discovery_on_missing_file (L := ref_json)
           ["members.json"; "gone.json"] "gone.json" members_world).
  - simpl. tauto.
  - reflexivity.
Defined.

Lemma main_leaves_other_files_witness :
  sget (files (snd (Sanitize.main (L := ref_json) ["members.json"] members_world)))
       "notes.txt"
  = sget (files members_world) "notes.txt".
Proof.
  apply (main_leaves_other_files (L := ref_json) ["members.json"] "notes.txt"
           members_world).
  intros [H|[]]. discriminate H.
Defined.

Lemma url_without_known_id_unchanged_witness :
  sanitize_request_url error_page_interaction known_123
  = (Ok error_page_interaction, known_123).
Proof.
  apply (url_without_known_id_unchanged error_page_interaction
           "https://api.example.com/org/13888/members" known_123).
  - reflexivity.
  - intros k [<-|[]]. split; reflexivity.
Defined.

Lemma body_guard_witness :
  sanitize_response_body (L := ref_json) (interaction_with_body (JStr "")) known_13888
  = (Ok (interaction_with_body (JStr "")), known_13888)
  /\ sanitize_response_body (L := ref_json)
       (interaction_with_body (JDict [("org_id", JInt 13888)])) known_13888
     = (Err TypeError, known_13888).
Proof.
  split.
  - apply (proj1 (body_guard (L := ref_json) (interaction_with_body (JStr ""))
                    (JStr "") known_13888 eq_refl)).
    reflexivity.
  - apply (proj2 (body_guard (L := ref_json)
                    (interaction_with_body (JDict [("org_id", JInt 13888)]))
                    (JDict [("org_id", JInt 13888)]) known_13888 eq_refl)).
    + reflexivity.
    + intros s H. discriminate H.
Defined.

Lemma rewrite_replaces_user_ids_in_body_witness :
  exists (out : rjson) (st' : State),
    sanitize_body_string owner_body initial_state = (dumps out, st')
    /\ lookup_path ([Key "owner"] ++ [Key "user_id"]) out = Some (JInt TEST_USER_ID)
    /\ iget (USER_ID_MAP st') (IntObj 42) = Some TEST_USER_ID
    /\ map_ok st' = true.
Proof.
  apply (rewrite_replaces_user_ids_in_body (L := ref_json) owner_body owner_body_obj
           [Key "owner"] "user_id" 42 initial_state).
  - vm_compute. reflexivity.
  - reflexivity.
  - reflexivity.
  - simpl. tauto.
  - lia.
  - reflexivity.
Defined.

Lemma rewrite_replaces_emails_in_body_witness :
  exists (out : rjson) (st' : State),
    sanitize_body_string owner_body initial_state = (dumps out, st')
    /\ lookup_path ([Key "owner"] ++ [Key "email"]) out
       = Some (JStr (if str_contains "@" "jane@corp.example"
                     then "test@example.com" else "jane@corp.example")).
Proof.
  apply (rewrite_replaces_emails_in_body (L := ref_json) owner_body owner_body_obj
           [Key "owner"] "jane@corp.example" initial_state).
  - vm_compute. reflexivity.
  - reflexivity.
  - reflexivity.
  - reflexivity.
Defined.

Lemma rewrite_replaces_names_in_body_witness :
  exists (out : rjson) (st' : State) (name : string),
    sanitize_body_string owner_body initial_state = (dumps out, st')
    /\ sget TEST_NAMES "first_name" = Some name
    /\ lookup_path ([Key "owner"] ++ [Key "first_name"]) out
       = Some (JStr (if eqb_str "Jane" "" then "Jane" else name)).
Proof.
  apply (rewrite_replaces_names_in_body (L := ref_json) owner_body owner_body_obj
           [Key "owner"] "first_name" "Jane" initial_state).
  - vm_compute. reflexivity.
  - reflexivity.
  - reflexivity.
  - simpl. tauto.
  - reflexivity.
Defined.

Lemma rewrite_leaves_other_fields_witness :
  exists (out : rjson) (st' : State),
    sanitize_body_string owner_body initial_state = (dumps out, st')
    /\ lookup_path ([Key "owner"] ++ [Key "role"]) out = Some (JStr "admin").
Proof.
  apply (rewrite_leaves_other_fields (L := ref_json) owner_body owner_body_obj
           [Key "owner"] "role" (JStr "admin") initial_state).
  - vm_compute. reflexivity.
  - reflexivity.
  - reflexivity.
  - reflexivity.
  - reflexivity.
  - left. reflexivity.
Defined.

Lemma rewrite_leaves_list_elements_witness :
  exists (out : rjson) (st' : State),
    sanitize_body_string owner_body initial_state = (dumps out, st')
    /\ lookup_path ([Key "org_id"] ++ [Idx 0]) out = Some (JInt 13888).
Proof.
  apply (rewrite_leaves_list_elements (L := ref_json) owner_body owner_body_obj
           [Key "org_id"] 0%nat (JInt 13888) initial_state).
  - vm_compute. reflexivity.
  - reflexivity.
  - reflexivity.
  - reflexivity.
  - reflexivity.
Defined.

Lemma convert_document_pointwise_witness :
  exists (interactions : rjson) (visited converted : list rjson),
    py_getitem (JDict [("interactions", JList [flat_interaction; flat_interaction])])
               "interactions" = Ok interactions
    /\ py_iter interactions = Ok visited
    /\ JDict [("interactions", JList [flat_converted; flat_converted])]
       = JDict [("interactions", JList converted)]
    /\ Forall2 (fun i o => convert_interaction i = Ok o) visited converted
    /\ List.length converted = List.length visited.
Proof.
  apply (convert_document_pointwise
           (JDict [("interactions", JList [flat_interaction; flat_interaction])])
           (JDict [("interactions", JList [flat_converted; flat_converted])])).
  reflexivity.
Defined.

Lemma convert_passes_fields_through_witness :
  exists o : rjson,
    convert_interaction flat_interaction = Ok o
    /\ field o "request" "method" = Some (JStr "GET")
    /\ field o "request" "uri" = Some (JStr "https://api.example.com/ping")
    /\ field o "response" "body" = Some (JDict [("string", JStr "{}")])
    /\ (forall b, field flat_interaction "request" "body" = Some b ->
                  field o "request" "body" = Some b).
Proof.
  apply (convert_passes_fields_through flat_interaction
           [("Accept", JStr "application/json")]
           [("Content-Type", JStr "application/json")]
           (JStr "GET") (JStr "https://api.example.com/ping") (JStr "{}") (JInt 200));
    reflexivity.
Defined.

Lemma convert_main_stops_at_first_failure_witness :
  Convert.main (L := ref_json) dumps (["first.json"] ++ "members.json" :: ["last.json"])
               converter_disk
  = (Err (KeyError "headers"),
     snd (Convert.main (L := ref_json) dumps ["first.json"] converter_disk)).
Proof.
  apply (convert_main_stops_at_first_failure (L := ref_json) dumps
           ["first.json"] ["last.json"] "members.json" converter_disk
           (snd (Convert.main (L := ref_json) dumps ["first.json"] converter_disk))
           (KeyError "headers")).
  - vm_compute. reflexivity.
  - vm_compute. reflexivity.
Defined.

Lemma rewritten_body_stable_witness :
  fst (sanitize_body_string (L := ref_json)
         (fst (sanitize_body_string (L := ref_json) owner_body initial_state))
         known_13888)
  = fst (sanitize_body_string (L := ref_json) owner_body initial_state).
Proof.
  apply (rewritten_body_stable (L := ref_json) owner_body owner_body_obj
           initial_state known_13888).
  - vm_compute. reflexivity.
  - reflexivity.
  - reflexivity.
  - reflexivity.
  - vm_compute. reflexivity.
Defined.

Lemma rewrite_touches_url_and_body_only_witness :
  same_but_url_and_body error_page_interaction error_page_rewritten.
Proof.
  apply (rewrite_touches_url_and_body_only (L := ref_json)
           error_page_interaction error_page_rewritten known_13888 known_13888).
  vm_compute. reflexivity.
Defined.

Lemma rewrite_keeps_fixture_structure_witness :
  keys_of policies_rewritten = keys_of policies_document
  /\ (forall k, k <> "interactions" ->
                py_getitem policies_rewritten k = py_getitem policies_document k)
  /\ exists rewritten : list rjson,
       py_getitem policies_rewritten "interactions" = Ok (JList rewritten)
       /\ Forall2 same_but_url_and_body
            [JDict [("request",
                     JDict [("method", JStr "GET");
                            ("url", JStr "https://api.example.com/policies?org_id=123")]);
                    ("response",
                     JDict [("status_code", JInt 200);
                            ("body", JStr "[]")])]]
            rewritten.
Proof.
  apply (rewrite_keeps_fixture_structure (L := ref_json)
           policies_document policies_rewritten _ known_123 known_123).
  - reflexivity.
  - vm_compute. reflexivity.
Defined.

Lemma rewrite_takes_true_for_one_witness :
  exists (out : rjson) (st' : State),
    sanitize_body_string flagged_body initial_state = (dumps out, st')
    /\ lookup_path ([] ++ [Key "org"]) out = Some (JInt TEST_ORG_ID)
    /\ iget (ORG_ID_MAP st') (IntObj 1) = Some TEST_ORG_ID.
Proof.
  apply (rewrite_takes_true_for_one (L := ref_json) flagged_body flagged_body_obj
           [] "org" initial_state).
  - vm_compute. reflexivity.
  - reflexivity.
  - reflexivity.
  - simpl. tauto.
  - reflexivity.
Defined.

Lemma discovery_finds_written_ids_witness :
  iget (ORG_ID_MAP
          (find_ids_in ("{" ++ key_then_number "org_id" "" " " 13888 ++ "}")
                       initial_state))
       (IntObj 13888)
  = Some TEST_ORG_ID.
Proof.
  assert (Hpos : 0 < 13888) by lia.
  apply (proj1 (discovery_finds_written_ids "{" "" " " "}" "org_id" 13888
                  initial_state eq_refl eq_refl Hpos eq_refl)).
  simpl. tauto.
Defined.

Lemma converted_document_not_convertible_witness :
  convert_document flat_document_converted = Err (KeyError "url").
Proof.
  apply (converted_document_not_convertible flat_document flat_document_converted).
  - reflexivity.
  - intro H. discriminate H.
Defined.

Lemma document_without_interactions_witness :
  sanitize_cassette (L := ref_json) "settings.json" settings_world
  = (Ok tt,
     {| files := fs_write (files settings_world) "settings.json"
                   (dumps_indent 0 (JDict [("record_mode", JStr "none")]));
        ids := ids settings_world |})
  /\ convert_cassette (L := ref_json) dumps "settings.json" "settings.yaml"
       (files settings_world)
     = (Err (KeyError "interactions"), files settings_world).
Proof.
  apply (document_without_interactions (L := ref_json) dumps
           "settings.json" "settings.yaml" (json_text "{'record_mode': 'none'}")
           [("record_mode", JStr "none")] settings_world).
  - reflexivity.
  - vm_compute. reflexivity.
  - reflexivity.
Defined.
